(** * The correlation and single-flight broker of agent-demo-backend

    A shallow embedding of [main.py] and [builtin_actions.py] (with the part
    of [session_manager.py] they call).  The state holds the module-level
    dictionaries and sets, the [asyncio.Future] objects by identity (they
    are shared between a waiting coroutine and the handler of the inbound
    event), and the coroutines that the event loop holds suspended.

    A coroutine is cut at the [await]s at which it can hand control back to
    the loop: [sio.emit], [loop.run_in_executor] and [asyncio.wait_for].
    What lies between two of them is one function of the state, since
    nothing else runs in between (one thread, cooperative scheduling).
    [await _generate_speech(...)] is not such a point: that coroutine
    function contains no [await] of its own, so it runs to its [return]
    inside the caller's run; what it returns is read from the environment.
    The same holds for [await builtin_actions.handle_builtin_action(...)]
    and the handler it awaits: they run on the caller's stack.

    Printing is left out, except where the expression printed can raise (a
    slice of a value that is not a string).  The [message] echo handler and
    the [/] route touch none of this state and are left out.

    Two things are decided outside the program text and are therefore
    handed to the functions that depend on them: the values drawn from
    [uuid], the clock, Polly and the process environment (the record [env]),
    and the element that [next(iter(connected_clients))] yields, the
    iteration order of a Python set being no property of the program. *)

From Stdlib Require Import ZArith Lia.
From stdpp Require Import base option list gmap strings pretty.

Open Scope string_scope.
Open Scope Z_scope.

Set Warnings "-register-all".

(** ** Python values *)

(** The values that travel in Socket.IO and HTTP payloads.  A Python dict is
    kept as an association list in insertion order; numbers are the integers
    (a non-integer number is outside the model). *)
Inductive json : Type :=
| JNull
| JBool (b : bool)
| JNum (z : Z)
| JStr (s : string)
| JList (l : list json)
| JDict (d : list (string * json)).

Abbreviation pydict := (list (string * json)).

(** [bool(v)]. *)
Definition truthy (v : json) : bool :=
  match v with
  | JNull => false
  | JBool b => b
  | JNum z => negb (z =? 0)
  | JStr s => negb (String.eqb s "")
  | JList l => match l with [] => false | _ => true end
  | JDict d => match d with [] => false | _ => true end
  end.

Fixpoint assoc (k : string) (d : pydict) : option json :=
  match d with
  | [] => None
  | (k', v) :: d' => if String.eqb k k' then Some v else assoc k d'
  end.

(** [d.get(k, default)]; [d.get(k)] is [dict_get k d JNull]. *)
Definition dict_get (k : string) (d : pydict) (default : json) : json :=
  match assoc k d with
  | Some v => v
  | None => default
  end.

(** [v[:50]] succeeds on strings and lists and raises on every other value. *)
Definition sliceable (v : json) : bool :=
  match v with
  | JStr _ | JList _ => true
  | _ => false
  end.

(** [hash(v)] succeeds: a list or a dict used as a dictionary key raises
    [TypeError]. *)
Definition hashable (v : json) : bool :=
  match v with
  | JList _ | JDict _ => false
  | _ => true
  end.

(** [f"{v}"] for the scalars; the only value formatted is the timeout of
    [handle_ask_user], which has passed [asyncio.wait_for] by then and so is
    no list and no dict. *)
Definition format (v : json) : string :=
  match v with
  | JNull => "None"
  | JBool true => "True"
  | JBool false => "False"
  | JNum z => pretty z
  | JStr s => s
  | JList _ => "[...]"
  | JDict _ => "{...}"
  end.

(** ** Exceptions *)

Inductive exn : Type :=
| HTTPException (status_code : nat) (detail : string)
| TimeoutError
| CancelledError
| ValueError (msg : string)
| TypeError
| AttributeError
| OtherError (msg : string).

(** [isinstance(e, Exception)]: since Python 3.8 [asyncio.CancelledError]
    derives from [BaseException], so [except Exception] lets it through. *)
Definition is_Exception (e : exn) : bool :=
  match e with
  | CancelledError => false
  | _ => true
  end.

(** [str(e)]. *)
Definition str (e : exn) : string :=
  match e with
  | HTTPException c d => pretty c +:+ ": " +:+ d
  | ValueError m | OtherError m => m
  | _ => ""
  end.

(** The least integer that Python refuses to convert to a float
    ([OverflowError: int too large to convert to float]): the doubles end at
    [2^1024 - 2^971], and the conversion rounds to nearest. *)
Definition float_overflow : Z := Eval vm_compute in (2 ^ 1024 - 2 ^ 970).

(** ** Futures *)

Inductive future : Type :=
| Pending
| Result (v : json)
| Cancelled.

(** [future.done()]. *)
Definition future_done (f : future) : bool :=
  match f with
  | Pending => false
  | _ => true
  end.

(** ** The process state *)

(** A value of [SessionManager.sessions]. *)
Record session : Type := Session {
  runtime_session_id : string;
  created_at : Z;
  last_activity : Z
}.

(** A suspended coroutine: the [await] it is parked at and the local
    variables it still needs.  The coroutines that [frontend_action] awaits
    ([handle_builtin_action] and the two built-in handlers) run on its
    stack, so one task stands for the whole call. *)
Inductive task : Type :=
(* handle_speak_to_user *)
| SpeakEmit (client_sid speech_id : string) (message : json) (fut : option nat)
| SpeakWait (client_sid speech_id : string) (message : json) (fut : nat)
(* handle_ask_user *)
| AskEmit (client_sid request_id : string) (question timeout : json) (fut : nat)
| AskWait (client_sid request_id : string) (question timeout : json) (fut : nat)
(* frontend_action, generic action *)
| ActionEmit (tool_call_id : string) (fut : nat)
| ActionWait (tool_call_id : string) (fut : nat)
(* user_prompt *)
| TurnInvoke (sid : string)
| TurnRead (sid : string)
| TurnEmitResponse (sid : string)
| TurnEmitComplete (sid : string)
| TurnEmitError (sid : string)
(* disconnect *)
| DisconnectStop (sid : string).

(** One [sio.emit(event, payload, room=room)]. *)
Record emission : Type := Emit {
  emit_event : string;
  emit_payload : json;
  emit_room : string
}.

Record state : Type := State {
  (* main.py *)
  connected_clients : gset string;
  agent_processing_lock : gmap string bool;
  pending_tool_calls : gmap string nat;
  (* session_manager.py *)
  sessions : gmap string session;
  (* builtin_actions.py *)
  pending_speech_completions : gmap string nat;
  active_speech_per_client : gmap string string;
  pending_user_responses : gmap string nat;
  (* the interpreter: Future objects by identity, the coroutines the event
     loop holds suspended, and what has been handed to Socket.IO *)
  futures : list future;
  tasks : list (option task);
  emitted : list emission
}.

Definition initial : state :=
  State ∅ ∅ ∅ ∅ ∅ ∅ ∅ [] [] [].

Definition set_connected_clients (x : gset string) (s : state) : state :=
  State x (agent_processing_lock s) (pending_tool_calls s) (sessions s)
    (pending_speech_completions s) (active_speech_per_client s)
    (pending_user_responses s) (futures s) (tasks s) (emitted s).

Definition set_agent_processing_lock (x : gmap string bool) (s : state) : state :=
  State (connected_clients s) x (pending_tool_calls s) (sessions s)
    (pending_speech_completions s) (active_speech_per_client s)
    (pending_user_responses s) (futures s) (tasks s) (emitted s).

Definition set_pending_tool_calls (x : gmap string nat) (s : state) : state :=
  State (connected_clients s) (agent_processing_lock s) x (sessions s)
    (pending_speech_completions s) (active_speech_per_client s)
    (pending_user_responses s) (futures s) (tasks s) (emitted s).

Definition set_sessions (x : gmap string session) (s : state) : state :=
  State (connected_clients s) (agent_processing_lock s) (pending_tool_calls s) x
    (pending_speech_completions s) (active_speech_per_client s)
    (pending_user_responses s) (futures s) (tasks s) (emitted s).

Definition set_pending_speech_completions (x : gmap string nat) (s : state) : state :=
  State (connected_clients s) (agent_processing_lock s) (pending_tool_calls s)
    (sessions s) x (active_speech_per_client s)
    (pending_user_responses s) (futures s) (tasks s) (emitted s).

Definition set_active_speech_per_client (x : gmap string string) (s : state) : state :=
  State (connected_clients s) (agent_processing_lock s) (pending_tool_calls s)
    (sessions s) (pending_speech_completions s) x
    (pending_user_responses s) (futures s) (tasks s) (emitted s).

Definition set_pending_user_responses (x : gmap string nat) (s : state) : state :=
  State (connected_clients s) (agent_processing_lock s) (pending_tool_calls s)
    (sessions s) (pending_speech_completions s) (active_speech_per_client s)
    x (futures s) (tasks s) (emitted s).

Definition set_futures (x : list future) (s : state) : state :=
  State (connected_clients s) (agent_processing_lock s) (pending_tool_calls s)
    (sessions s) (pending_speech_completions s) (active_speech_per_client s)
    (pending_user_responses s) x (tasks s) (emitted s).

Definition set_tasks (x : list (option task)) (s : state) : state :=
  State (connected_clients s) (agent_processing_lock s) (pending_tool_calls s)
    (sessions s) (pending_speech_completions s) (active_speech_per_client s)
    (pending_user_responses s) (futures s) x (emitted s).

Definition set_emitted (x : list emission) (s : state) : state :=
  State (connected_clients s) (agent_processing_lock s) (pending_tool_calls s)
    (sessions s) (pending_speech_completions s) (active_speech_per_client s)
    (pending_user_responses s) (futures s) (tasks s) x.

(** What a step reads from outside the process. *)
Record env : Type := Env {
  uuid4 : string;                      (* str(uuid.uuid4()) *)
  uuid4_hex : string;                  (* uuid.uuid4().hex *)
  now : Z;                             (* time.time() *)
  generated_speech : option string;    (* what _generate_speech returns *)
  AGENT_RUNTIME_ARN : option string;   (* os.getenv('AGENT_RUNTIME_ARN') *)
  boto3_client : option exn            (* boto3.client(...) raising *)
}.

(** How far a coroutine got in one uninterrupted run. *)
Inductive coro : Type :=
| Return (v : json)
| Raise (e : exn)
| Await (t : task).

(** What the awaited operation hands back when the coroutine is resumed. *)
Inductive outcome : Type :=
| OutOk (v : json)
| OutRaise (e : exn).

(** [asyncio.Future()]: a new object, still pending. *)
Definition new_future (s : state) : nat * state :=
  (length (futures s), set_futures (futures s ++ [Pending]) s).

(** [await sio.emit(event, payload, room=room)], the call itself. *)
Definition sio_emit (event : string) (payload : json) (room : string) (s : state) : state :=
  set_emitted (emitted s ++ [Emit event payload room]) s.

(** A falsy [Optional[str]]: [None] or the empty string. *)
Definition nonempty (o : option string) : bool :=
  match o with
  | Some s => negb (String.eqb s "")
  | None => false
  end.

(** ** session_manager.py *)

Module session_manager.

Definition create_session (e : env) (socket_id : string) (s : state) : string * state :=
  let runtime_session_id := "session_" +:+ uuid4_hex e +:+ "_" +:+ pretty (now e) in
  (runtime_session_id,
   set_sessions (<[socket_id := Session runtime_session_id (now e) (now e)]> (sessions s)) s).

Definition get_session (e : env) (socket_id : string) (s : state) : option string * state :=
  match sessions s !! socket_id with
  | Some ses =>
      (Some (runtime_session_id ses),
       set_sessions
         (<[socket_id := Session (runtime_session_id ses) (created_at ses) (now e)]> (sessions s)) s)
  | None => (None, s)
  end.

Definition get_or_create_session (e : env) (socket_id : string) (s : state) : string * state :=
  let '(session_id, s1) := get_session e socket_id s in
  if nonempty session_id then (default "" session_id, s1)
  else create_session e socket_id s1.

Definition remove_session (socket_id : string) (s : state) : option string * state :=
  match sessions s !! socket_id with
  | Some ses => (Some (runtime_session_id ses), set_sessions (delete socket_id (sessions s)) s)
  | None => (None, s)
  end.

(** The sessions whose last activity lies more than [max_age_seconds] back
    are collected first and removed one by one afterwards. *)
Definition cleanup_stale_sessions (e : env) (max_age_seconds : Z) (s : state) : state :=
  let current_time := now e in
  let stale_sessions :=
    omap (λ item : string * session,
            if bool_decide (current_time - last_activity item.2 > max_age_seconds)
            then Some item.1 else None)
         (map_to_list (sessions s)) in
  foldl (λ s' socket_id, snd (remove_session socket_id s')) s stale_sessions.

Definition get_session_info (socket_id : string) (s : state) : option session :=
  sessions s !! socket_id.

(** The keys of the table; Python lists them in insertion order, which the
    map does not keep, so only the membership and the number of the listed
    keys are those of the program. *)
Definition list_active_sessions (s : state) : list string :=
  (map_to_list (sessions s)).*1.

End session_manager.

(** ** builtin_actions.py *)

(** [await asyncio.wait_for(fut, timeout)] seen from the resumed coroutine:
    the value of a completed future, or the exception thrown into the wait.
    The timer ([TimeoutError]) fires only on a future that is still pending
    and only when a timeout was given; it, and any other exception thrown
    into the wait, cancels the future.  The firing of the timer, the
    cancellation and the resumption of the waiter are one step.  A wait on
    a pending future is not resumed with a value. *)
Definition wait_for (fut : nat) (has_timer : bool) (out : outcome) (s : state)
  : option (state * (json + exn)) :=
  match futures s !! fut, out with
  | Some (Result v), OutOk _ => Some (s, inl v)
  | Some Pending, OutRaise TimeoutError =>
      if has_timer then Some (set_futures (<[fut := Cancelled]> (futures s)) s, inr TimeoutError)
      else None
  | Some Pending, OutRaise e => Some (set_futures (<[fut := Cancelled]> (futures s)) s, inr e)
  | Some Cancelled, _ => Some (s, inr CancelledError)
  | _, _ => None
  end.

Module builtin_actions.

Definition failure (error : string) : json :=
  JDict [("success", JBool false); ("error", JStr error)].

Definition already_in_progress (active_speech_id : string) : json :=
  failure ("Speech already in progress (ID: " +:+ active_speech_id
           +:+ "). Please wait for it to complete.").

(** Lines 137-138 and 253-254: the marker is removed only when it still
    carries this operation's id. *)
Definition remove_active_speech_marker (client_sid id : string) (s : state) : state :=
  match active_speech_per_client s !! client_sid with
  | Some holder =>
      if String.eqb holder id
      then set_active_speech_per_client (delete client_sid (active_speech_per_client s)) s
      else s
  | None => s
  end.

(** The [finally] block of [handle_speak_to_user]. *)
Definition speak_finally (client_sid speech_id : string) (s : state) : state :=
  remove_active_speech_marker client_sid speech_id
    (set_pending_speech_completions (delete speech_id (pending_speech_completions s)) s).

Definition speak_result (message : json) (speech_id : string) : json :=
  JDict [("success", JBool true); ("end_turn", JBool true);
         ("message", JStr "Speech sent to user"); ("text", message);
         ("speech_id", JStr speech_id)].

(** [handle_speak_to_user] up to its first suspension.  The body of
    [_generate_speech] holds no [await] (the Polly call is a blocking one),
    so awaiting it returns its value without handing control to the event
    loop: the run from line 68 to the [sio.emit] of line 106 is one
    uninterrupted run. *)
Definition handle_speak_to_user (e : env) (client_sid : string) (parameters : json)
    (s : state) : state * coro :=
  match parameters with
  | JDict p =>
      let message := dict_get "message" p (JStr "") in
      let voice := dict_get "voice" p (JStr "Joanna") in
      let wait_for_completion := dict_get "wait_for_completion" p (JBool true) in
      if negb (truthy message) then (s, Return (failure "Missing 'message' parameter"))
      else
        match active_speech_per_client s !! client_sid with
        | Some active_speech_id => (s, Return (already_in_progress active_speech_id))
        | None =>
            let audio_base64 := generated_speech e in
            if negb (nonempty audio_base64) then (s, Return (failure "Failed to generate speech"))
            else
              let speech_id := uuid4 e in
              let s1 := set_active_speech_per_client
                          (<[client_sid := speech_id]> (active_speech_per_client s)) s in
              let '(future, s2) :=
                if truthy wait_for_completion
                then let '(f, s') := new_future s1 in
                     (Some f, set_pending_speech_completions
                                (<[speech_id := f]> (pending_speech_completions s')) s')
                else (None, s1) in
              let s3 := sio_emit "speak_audio"
                          (JDict [("speech_id", JStr speech_id);
                                  ("audio", JStr (default "" audio_base64));
                                  ("message", message); ("voice", voice)])
                          client_sid s2 in
              (s3, Await (SpeakEmit client_sid speech_id message future))
        end
  | _ => (s, Raise AttributeError)
  end.

(** Resumed from the [sio.emit] of line 106. *)
Definition speak_after_emit (client_sid speech_id : string) (message : json)
    (future : option nat) (out : outcome) (s : state) : state * coro :=
  match out with
  | OutRaise e => (speak_finally client_sid speech_id s, Raise e)
  | OutOk _ =>
      if negb (sliceable message)                       (* message[:50], line 113 *)
      then (speak_finally client_sid speech_id s, Raise TypeError)
      else
        match future with
        | Some f => (s, Await (SpeakWait client_sid speech_id message f))
        | None => (speak_finally client_sid speech_id s, Return (speak_result message speech_id))
        end
  end.

(** Resumed from the [wait_for] of line 118: a timeout is logged and the
    function goes on to the same [return]. *)
Definition speak_after_wait (client_sid speech_id : string) (message : json)
    (future : nat) (out : outcome) (s : state) : option (state * coro) :=
  match wait_for future true out s with
  | Some (s1, inl _) | Some (s1, inr TimeoutError) =>
      Some (speak_finally client_sid speech_id s1, Return (speak_result message speech_id))
  | Some (s1, inr e) => Some (speak_finally client_sid speech_id s1, Raise e)
  | None => None
  end.

Definition handle_speech_completion (speech_id : string) (s : state) : state * bool :=
  match pending_speech_completions s !! speech_id with
  | Some fut =>
      match futures s !! fut with
      | Some f =>
          if negb (future_done f)
          then (set_futures (<[fut := Result (JBool true)]> (futures s)) s, true)
          else (s, false)
      | None => (s, false)
      end
  | None => (s, false)
  end.

(** The [finally] block of [handle_ask_user]. *)
Definition ask_finally (client_sid request_id : string) (s : state) : state :=
  remove_active_speech_marker client_sid request_id
    (set_pending_user_responses (delete request_id (pending_user_responses s)) s).

Definition ask_answered (question user_response : json) (request_id : string) : json :=
  JDict [("success", JBool true); ("question", question);
         ("answer", user_response); ("request_id", JStr request_id)].

Definition ask_timed_out (question timeout : json) : json :=
  JDict [("success", JBool false);
         ("error", JStr ("User did not respond within " +:+ format timeout +:+ " seconds"));
         ("question", question)].

(** [handle_ask_user] up to its first suspension (see
    [handle_speak_to_user] for the await of [_generate_speech]). *)
Definition handle_ask_user (e : env) (client_sid : string) (parameters : json)
    (s : state) : state * coro :=
  match parameters with
  | JDict p =>
      let question := dict_get "question" p (JStr "") in
      let voice := dict_get "voice" p (JStr "Joanna") in
      let timeout := dict_get "timeout" p (JNum 30) in
      if negb (truthy question) then (s, Return (failure "Missing 'question' parameter"))
      else
        match active_speech_per_client s !! client_sid with
        | Some active_speech_id => (s, Return (already_in_progress active_speech_id))
        | None =>
            let audio_base64 := generated_speech e in
            if negb (nonempty audio_base64)
            then (s, Return (failure "Failed to generate speech for question"))
            else
              let request_id := uuid4 e in
              let s1 := set_active_speech_per_client
                          (<[client_sid := request_id]> (active_speech_per_client s)) s in
              let '(future, s2) := new_future s1 in
              let s3 := set_pending_user_responses
                          (<[request_id := future]> (pending_user_responses s2)) s2 in
              let s4 := sio_emit "ask_user_question"
                          (JDict [("request_id", JStr request_id);
                                  ("audio", JStr (default "" audio_base64));
                                  ("question", question); ("voice", voice)])
                          client_sid s3 in
              (s4, Await (AskEmit client_sid request_id question timeout future))
        end
  | _ => (s, Raise AttributeError)
  end.

(** What [asyncio.wait_for] accepts as its timeout: a number or [None]
    (no timer); anything else makes the call raise [TypeError]. *)
Definition timeout_accepted (timeout : json) : bool :=
  match timeout with
  | JNull | JBool _ | JNum _ => true
  | _ => false
  end.

Definition has_timer (timeout : json) : bool :=
  match timeout with
  | JNull => false
  | _ => true
  end.

(** [timeout <= 0] for a number ([False] is [0], [True] is [1]):
    [asyncio.wait_for] then starts no timer; it returns the result of a
    future that is done, and otherwise cancels the future before it
    suspends and raises [TimeoutError] when it is resumed. *)
Definition expired (timeout : json) : bool :=
  match timeout with
  | JBool b => negb b
  | JNum z => z <=? 0
  | _ => false
  end.

(** A positive timeout is added to the loop's clock, a float, when the
    timer is set: an integer too large for a float makes [wait_for] raise
    [OverflowError] before it suspends. *)
Definition too_large (timeout : json) : bool :=
  match timeout with
  | JNum z => float_overflow <=? z
  | _ => false
  end.

Definition is_cancelled (f : option future) : bool :=
  match f with
  | Some Cancelled => true
  | _ => false
  end.

(** Resumed from the [sio.emit] of line 217. *)
Definition ask_after_emit (client_sid request_id : string) (question timeout : json)
    (future : nat) (out : outcome) (s : state) : state * coro :=
  match out with
  | OutRaise e => (ask_finally client_sid request_id s, Raise e)
  | OutOk _ =>
      if negb (sliceable question)                      (* question[:50], line 224 *)
      then (ask_finally client_sid request_id s, Raise TypeError)
      else if negb (timeout_accepted timeout)
      then (ask_finally client_sid request_id s, Raise TypeError)
      else if expired timeout
      then
        match futures s !! future with
        | Some (Result user_response) =>
            if negb (sliceable user_response)           (* user_response[:50], line 230 *)
            then (ask_finally client_sid request_id s, Raise TypeError)
            else (ask_finally client_sid request_id s,
                  Return (ask_answered question user_response request_id))
        | Some Pending =>
            (set_futures (<[future := Cancelled]> (futures s)) s,
             Await (AskWait client_sid request_id question timeout future))
        | _ => (ask_finally client_sid request_id s, Raise CancelledError)
        end
      else if too_large timeout
      then (ask_finally client_sid request_id s,
            Raise (OtherError "int too large to convert to float"))
      else (s, Await (AskWait client_sid request_id question timeout future))
  end.

(** Resumed from the [wait_for] of line 228.  A future that [wait_for]
    cancelled itself, the timeout being zero or negative, makes it raise
    [TimeoutError] as soon as the coroutine is resumed. *)
Definition ask_after_wait (client_sid request_id : string) (question timeout : json)
    (future : nat) (out : outcome) (s : state) : option (state * coro) :=
  if is_cancelled (futures s !! future) && expired timeout
  then
    match out with
    | OutOk _ =>
        Some (ask_finally client_sid request_id s, Return (ask_timed_out question timeout))
    | OutRaise TimeoutError => None
    | OutRaise e => Some (ask_finally client_sid request_id s, Raise e)
    end
  else
    match wait_for future (has_timer timeout) out s with
    | Some (s1, inl user_response) =>
        if negb (sliceable user_response)               (* user_response[:50], line 230 *)
        then Some (ask_finally client_sid request_id s1, Raise TypeError)
        else Some (ask_finally client_sid request_id s1,
                   Return (ask_answered question user_response request_id))
    | Some (s1, inr TimeoutError) =>
        Some (ask_finally client_sid request_id s1, Return (ask_timed_out question timeout))
    | Some (s1, inr e) => Some (ask_finally client_sid request_id s1, Raise e)
    | None => None
    end.

Definition handle_user_response (request_id : string) (response : json) (s : state)
    : state * bool :=
  match pending_user_responses s !! request_id with
  | Some fut =>
      match futures s !! fut with
      | Some f =>
          if negb (future_done f)
          then (set_futures (<[fut := Result response]> (futures s)) s, true)
          else (s, false)
      | None => (s, false)
      end
  | None => (s, false)
  end.

(** The [return] of [handle_builtin_action], applied to what the handler
    it awaited came back with. *)
Definition builtin_return (c : coro) : coro :=
  match c with
  | Return (JDict result) =>
      Return (JDict [("success", dict_get "success" result (JBool false));
                     ("data", JDict result)])
  | Return _ => Raise AttributeError
  | _ => c
  end.

(** [None] when the action is not a built-in one. *)
Definition handle_builtin_action (e : env) (action : json) (client_sid : string)
    (parameters : json) (s : state) : option (state * coro) :=
  match action with
  | JStr a =>
      if String.eqb a "speak_to_user"
      then let '(s1, c) := handle_speak_to_user e client_sid parameters s in
           Some (s1, builtin_return c)
      else if String.eqb a "ask_user"
      then let '(s1, c) := handle_ask_user e client_sid parameters s in
           Some (s1, builtin_return c)
      else None
  | _ => if hashable action then None else Some (s, Raise TypeError)
  end.

(** The keys of the registry [BUILTIN_ACTIONS], in the order it lists them. *)
Definition BUILTIN_ACTIONS : list string := ["speak_to_user"; "ask_user"].

Definition is_builtin_action (action : string) : bool :=
  bool_decide (action ∈ BUILTIN_ACTIONS).

Definition get_builtin_actions_list : list string := BUILTIN_ACTIONS.

End builtin_actions.

(** ** main.py *)

(** An [await sio.emit(...)] that is the last thing a handler does leaves no
    continuation behind: such a handler is recorded as returning at once. *)

Definition connect (sid : string) (s : state) : state * coro :=
  let s1 := set_connected_clients ({[sid]} ∪ connected_clients s) s in
  (sio_emit "response" (JDict [("data", JStr "Connected successfully!")]) sid s1, Return JNull).

Definition disconnect (e : env) (sid : string) (s : state) : state * coro :=
  let s1 := set_connected_clients (connected_clients s ∖ {[sid]}) s in
  let s2 := set_agent_processing_lock (delete sid (agent_processing_lock s1)) s1 in
  let '(runtime_session_id, s3) := session_manager.get_session e sid s2 in
  if nonempty runtime_session_id && nonempty (AGENT_RUNTIME_ARN e)
  then
    match boto3_client e with
    | None => (s3, Await (DisconnectStop sid))
    | Some ex =>
        if is_Exception ex then (snd (session_manager.remove_session sid s3), Return JNull)
        else (s3, Raise ex)
    end
  else (snd (session_manager.remove_session sid s3), Return JNull).

(** Resumed from the [run_in_executor] of line 89. *)
Definition disconnect_after_stop (sid : string) (out : outcome) (s : state) : state * coro :=
  match out with
  | OutRaise ex =>
      if is_Exception ex then (snd (session_manager.remove_session sid s), Return JNull)
      else (s, Raise ex)
  | OutOk _ => (snd (session_manager.remove_session sid s), Return JNull)
  end.

Definition speech_completed (sid : string) (data : pydict) (s : state) : state * coro :=
  let speech_id := dict_get "speech_id" data JNull in
  if truthy speech_id
  then
    match speech_id with
    | JStr i => (fst (builtin_actions.handle_speech_completion i s), Return JNull)
    | _ => if hashable speech_id then (s, Return JNull) else (s, Raise TypeError)
    end
  else (s, Return JNull).

Definition user_response (sid : string) (data : pydict) (s : state) : state * coro :=
  let request_id := dict_get "request_id" data JNull in
  let response := dict_get "response" data (JStr "") in
  if negb (sliceable response)                            (* response[:50], line 134 *)
  then (s, Raise TypeError)
  else if truthy request_id && truthy response
  then
    match request_id with
    | JStr r => (fst (builtin_actions.handle_user_response r response s), Return JNull)
    | _ => if hashable request_id then (s, Return JNull) else (s, Raise TypeError)
    end
  else (s, Return JNull).

(** The [finally] block of [user_prompt]. *)
Definition turn_finally (sid : string) (s : state) : state :=
  set_agent_processing_lock (<[sid := false]> (agent_processing_lock s)) s.

(** An exception inside the [try] of [user_prompt]: [except Exception]
    reports it to the client; anything else goes straight to [finally]. *)
Definition turn_except (sid : string) (ex : exn) (s : state) : state * coro :=
  if is_Exception ex
  then (sio_emit "agent_response"
          (JDict [("success", JBool false);
                  ("error", JStr ("Unexpected error: " +:+ str ex))]) sid s,
        Await (TurnEmitError sid))
  else (turn_finally sid s, Raise ex).

Definition user_prompt (e : env) (sid : string) (data : pydict) (s : state) : state * coro :=
  let prompt := dict_get "prompt" data (JStr "") in
  if negb (truthy prompt) then (s, Return JNull)
  else if default false (agent_processing_lock s !! sid)
  then (sio_emit "agent_busy"
          (JDict [("message", JStr "Agent is currently processing. Please wait...")]) sid s,
        Return JNull)
  else
    let s1 := set_agent_processing_lock (<[sid := true]> (agent_processing_lock s)) s in
    let '(runtime_session_id, s2) := session_manager.get_or_create_session e sid s1 in
    if negb (nonempty (AGENT_RUNTIME_ARN e))
    then turn_except sid (ValueError "AGENT_RUNTIME_ARN not configured in .env file") s2
    else
      match boto3_client e with
      | Some ex => turn_except sid ex s2
      | None => (s2, Await (TurnInvoke sid))
      end.

(** Resumed from the [run_in_executor] of line 191. *)
Definition turn_after_invoke (sid : string) (out : outcome) (s : state) : state * coro :=
  match out with
  | OutOk _ => (s, Await (TurnRead sid))
  | OutRaise ex => turn_except sid ex s
  end.

(** Resumed from the [run_in_executor] of line 204 with the body read; the
    value carried is [json.loads(response_body)], and a body that does not
    parse is the exception [json.loads] raises. *)
Definition turn_after_read (sid : string) (out : outcome) (s : state) : state * coro :=
  match out with
  | OutOk response_data =>
      (sio_emit "agent_response"
         (JDict [("success", JBool true); ("response", response_data)]) sid s,
       Await (TurnEmitResponse sid))
  | OutRaise ex => turn_except sid ex s
  end.

Definition turn_after_emit_response (e : env) (sid : string) (out : outcome) (s : state)
    : state * coro :=
  match out with
  | OutOk _ =>
      (sio_emit "agent_turn_complete" (JDict [("timestamp", JNum (now e))]) sid s,
       Await (TurnEmitComplete sid))
  | OutRaise ex => turn_except sid ex s
  end.

Definition turn_after_emit_complete (sid : string) (out : outcome) (s : state) : state * coro :=
  match out with
  | OutOk _ => (turn_finally sid s, Return JNull)
  | OutRaise ex => turn_except sid ex s
  end.

(** Resumed from the [sio.emit] inside the [except] clause (line 231). *)
Definition turn_after_emit_error (sid : string) (out : outcome) (s : state) : state * coro :=
  match out with
  | OutOk _ => (turn_finally sid s, Return JNull)
  | OutRaise ex => (turn_finally sid s, Raise ex)
  end.

Definition frontend_tool_response (sid : string) (data : pydict) (s : state) : state * coro :=
  let tool_call_id := dict_get "toolCallId" data JNull in
  match tool_call_id with
  | JStr t =>
      match pending_tool_calls s !! t with
      | Some fut =>
          let s1 :=
            match futures s !! fut with
            | Some f =>
                if negb (future_done f)
                then set_futures (<[fut := Result (JDict data)]> (futures s)) s
                else s
            | None => s
            end in
          (set_pending_tool_calls (delete t (pending_tool_calls s1)) s1, Return JNull)
      | None => (s, Return JNull)
      end
  | _ => if hashable tool_call_id then (s, Return JNull) else (s, Raise TypeError)
  end.

(** [if tool_call_id in pending_tool_calls: del pending_tool_calls[tool_call_id]]. *)
Definition forget_tool_call (tool_call_id : string) (s : state) : state :=
  set_pending_tool_calls (delete tool_call_id (pending_tool_calls s)) s.

(** The outer [except Exception as e] of [frontend_action] (line 356). *)
Definition action_except (tool_call_id : string) (ex : exn) (s : state) : state * coro :=
  if is_Exception ex
  then (forget_tool_call tool_call_id s, Raise (HTTPException 500 (str ex)))
  else (s, Raise ex).

(** [frontend_action] up to its first suspension.  [client_sid] is what
    [next(iter(connected_clients))] yields at line 314: a member of the set,
    which one being left to the iteration order of the set.  It is read
    only when the set is not empty. *)
Definition frontend_action (e : env) (client_sid : string) (payload : pydict) (s : state)
    : state * coro :=
  let action := dict_get "action" payload JNull in
  let parameters := dict_get "parameters" payload (JDict []) in
  if negb (truthy action)
  then (s, Raise (HTTPException 400 "Missing 'action' in payload"))
  else if decide (connected_clients s = ∅)
  then (s, Raise (HTTPException 503 "No frontend client connected"))
  else
    match builtin_actions.handle_builtin_action e action client_sid parameters s with
    | Some builtin_result => builtin_result
    | None =>
        let tool_call_id := uuid4 e in
        let '(future, s1) := new_future s in
        let s2 := set_pending_tool_calls
                    (<[tool_call_id := future]> (pending_tool_calls s1)) s1 in
        let s3 := sio_emit "frontend_tool"
                    (JDict [("toolCallId", JStr tool_call_id); ("action", action);
                            ("id", JStr "todo-list");
                            ("args", JList (if truthy parameters then [parameters] else []))])
                    client_sid s2 in
        (s3, Await (ActionEmit tool_call_id future))
    end.

(** Resumed from the [sio.emit] of line 332. *)
Definition action_after_emit (tool_call_id : string) (future : nat) (out : outcome)
    (s : state) : state * coro :=
  match out with
  | OutOk _ => (s, Await (ActionWait tool_call_id future))
  | OutRaise ex => action_except tool_call_id ex s
  end.

(** Resumed from the [wait_for] of line 343.  The [HTTPException] of line 354
    is raised inside the outer [try], so the outer [except Exception]
    receives it. *)
Definition action_after_wait (tool_call_id : string) (future : nat) (out : outcome)
    (s : state) : option (state * coro) :=
  match wait_for future true out s with
  | Some (s1, inl (JDict response)) =>
      Some (s1, Return (JDict [("success", dict_get "success" response (JBool false));
                               ("data", dict_get "result" response (JDict []))]))
  | Some (s1, inl _) => Some (action_except tool_call_id AttributeError s1)
  | Some (s1, inr TimeoutError) =>
      Some (action_except tool_call_id (HTTPException 504 "Frontend action timed out")
              (forget_tool_call tool_call_id s1))
  | Some (s1, inr ex) => Some (action_except tool_call_id ex s1)
  | None => None
  end.

(** [GET /health]. *)
Definition health (e : env) (s : state) : json :=
  JDict [("status", JStr "healthy"); ("timestamp", JNum (now e));
         ("active_sessions",
          JNum (Z.of_nat (length (session_manager.list_active_sessions s))));
         ("connected_clients", JNum (Z.of_nat (size (connected_clients s))))].

(** [GET /api/builtin-actions]. *)
Definition list_builtin_actions : json :=
  JDict [("builtin_actions", JList (JStr <$> builtin_actions.get_builtin_actions_list));
         ("count", JNum (Z.of_nat (length builtin_actions.get_builtin_actions_list)))].

(** [call_frontend_tool]: after its [sio.emit] the function reads and writes
    no state, it only hands back the id it drew; [out] is what the emit came
    back with. *)
Definition call_frontend_tool (e : env) (sid action component_id : string)
    (args : list json) (out : outcome) (s : state) : state * (string + exn) :=
  let tool_call_id := uuid4 e in
  let s1 := sio_emit "frontend_tool"
              (JDict [("toolCallId", JStr tool_call_id); ("action", JStr action);
                      ("id", JStr component_id); ("args", JList args)])
              sid s in
  match out with
  | OutOk _ => (s1, inl tool_call_id)
  | OutRaise ex => (s1, inr ex)
  end.

(** [POST /test-tool-call]. *)
Definition test_tool_call (e : env) (sid action component_id : string) (out : outcome)
    (s : state) : state * coro :=
  match call_frontend_tool e sid action component_id [] out s with
  | (s1, inl tool_call_id) =>
      (s1, Return (JDict [("status", JStr "sent"); ("toolCallId", JStr tool_call_id);
                          ("action", JStr action); ("componentId", JStr component_id)]))
  | (s1, inr ex) => (s1, Raise ex)
  end.

(** ** The event loop *)

(** What can happen next: a Socket.IO event, a request to
    [/api/frontend-action], or the resumption of a suspended coroutine.
    The request comes with the client that the set of connected clients
    yields first at that moment; it can only be one that is connected. *)
Inductive event : Type :=
| Connect (sid : string)
| Disconnect (sid : string)
| SpeechCompleted (sid : string) (data : pydict)
| UserResponse (sid : string) (data : pydict)
| UserPrompt (sid : string) (data : pydict)
| FrontendToolResponse (sid : string) (data : pydict)
| FrontendAction (client_sid : string) (payload : pydict)
| Resume (tid : nat) (out : outcome).

(** What the party that caused the step sees of it. *)
Inductive response : Type :=
| Returned (v : json)
| Raised (e : exn)
| Suspended (tid : nat).

(** A handler that was just started: when it awaits, the loop keeps it. *)
Definition started (r : state * coro) : state * response :=
  match r with
  | (s, Return v) => (s, Returned v)
  | (s, Raise ex) => (s, Raised ex)
  | (s, Await t) => (set_tasks (tasks s ++ [Some t]) s, Suspended (length (tasks s)))
  end.

(** A task that was resumed: it awaits again or leaves the loop. *)
Definition resumed (tid : nat) (r : state * coro) : state * response :=
  match r with
  | (s, Return v) => (set_tasks (<[tid := None]> (tasks s)) s, Returned v)
  | (s, Raise ex) => (set_tasks (<[tid := None]> (tasks s)) s, Raised ex)
  | (s, Await t) => (set_tasks (<[tid := Some t]> (tasks s)) s, Suspended tid)
  end.

Definition through_builtin (r : state * coro) : state * coro :=
  (fst r, builtin_actions.builtin_return (snd r)).

(** The continuation of a suspended task; [None] when the awaited operation
    cannot have ended that way. *)
Definition continue (e : env) (t : task) (out : outcome) (s : state) : option (state * coro) :=
  match t with
  | SpeakEmit c i m f => Some (through_builtin (builtin_actions.speak_after_emit c i m f out s))
  | SpeakWait c i m f => through_builtin <$> builtin_actions.speak_after_wait c i m f out s
  | AskEmit c i q t f => Some (through_builtin (builtin_actions.ask_after_emit c i q t f out s))
  | AskWait c i q t f => through_builtin <$> builtin_actions.ask_after_wait c i q t f out s
  | ActionEmit i f => Some (action_after_emit i f out s)
  | ActionWait i f => action_after_wait i f out s
  | TurnInvoke sid => Some (turn_after_invoke sid out s)
  | TurnRead sid => Some (turn_after_read sid out s)
  | TurnEmitResponse sid => Some (turn_after_emit_response e sid out s)
  | TurnEmitComplete sid => Some (turn_after_emit_complete sid out s)
  | TurnEmitError sid => Some (turn_after_emit_error sid out s)
  | DisconnectStop sid => Some (disconnect_after_stop sid out s)
  end.

Definition step (e : env) (ev : event) (s : state) : option (state * response) :=
  match ev with
  | Connect sid => Some (started (connect sid s))
  | Disconnect sid => Some (started (disconnect e sid s))
  | SpeechCompleted sid data => Some (started (speech_completed sid data s))
  | UserResponse sid data => Some (started (user_response sid data s))
  | UserPrompt sid data => Some (started (user_prompt e sid data s))
  | FrontendToolResponse sid data => Some (started (frontend_tool_response sid data s))
  | FrontendAction client_sid payload =>
      if decide (connected_clients s = ∅ ∨ client_sid ∈ connected_clients s)
      then Some (started (frontend_action e client_sid payload s))
      else None
  | Resume tid out =>
      match tasks s !! tid with
      | Some (Some t) => resumed tid <$> continue e t out s
      | _ => None
      end
  end.

Inductive reachable : state → Prop :=
| reachable_initial : reachable initial
| reachable_step e ev s s' r :
    reachable s → step e ev s = Some (s', r) → reachable s'.

(** ** Notions used in the statements *)

(** The coroutine left the function: it returned or raised. *)
Definition exits (c : coro) : bool :=
  match c with
  | Await _ => false
  | _ => true
  end.

(** The peer and the operation id of a coroutine that runs between the
    setting of the marker (lines 96, 209) and its [finally] block. *)
Definition guarded (t : task) : option (string * string) :=
  match t with
  | SpeakEmit c i _ _ | SpeakWait c i _ _ | AskEmit c i _ _ _ | AskWait c i _ _ _ => Some (c, i)
  | _ => None
  end.

(** What a resumed guarded coroutine does to the marker: nothing while it
    goes on to its next [await], and the release of lines 137-138 (253-254)
    when it leaves. *)
Definition guard_effect (client_sid id : string) (s s' : state) (c : coro) : Prop :=
  tasks s' = tasks s
  ∧ (∀ t', c = Await t' →
       guarded t' = Some (client_sid, id)
       ∧ active_speech_per_client s' = active_speech_per_client s)
  ∧ (exits c = true →
       active_speech_per_client s'
       = active_speech_per_client
           (builtin_actions.remove_active_speech_marker client_sid id s)).

(** Over the suspended coroutines [ts] and the marker map [a]: every guarded
    coroutine is the holder of its peer's marker, and no peer has two. *)
Definition guard_ok (ts : list (option task)) (a : gmap string string) : Prop :=
  (∀ tid t p i, ts !! tid = Some (Some t) → guarded t = Some (p, i) → a !! p = Some i)
  ∧ (∀ tid1 tid2 t1 t2 p i1 i2,
       ts !! tid1 = Some (Some t1) → guarded t1 = Some (p, i1) →
       ts !! tid2 = Some (Some t2) → guarded t2 = Some (p, i2) →
       tid1 = tid2).

Definition single_flight (s : state) : Prop :=
  guard_ok (tasks s) (active_speech_per_client s).

(** A handler run that neither touches the marker map nor suspends as a
    guarded coroutine. *)
Definition leaves_guard_alone (s : state) (r : state * coro) : Prop :=
  tasks (fst r) = tasks s
  ∧ active_speech_per_client (fst r) = active_speech_per_client s
  ∧ ∀ t, snd r = Await t → guarded t = None.

(** A handler run that takes the free marker of a peer and suspends as the
    guarded coroutine holding it. *)
Definition acquires (s : state) (r : state * coro) : Prop :=
  tasks (fst r) = tasks s
  ∧ ∃ t p i, snd r = Await t ∧ guarded t = Some (p, i)
             ∧ active_speech_per_client s !! p = None
             ∧ active_speech_per_client (fst r) = <[p := i]> (active_speech_per_client s).

(** The peer whose turn a suspended [user_prompt] coroutine computes. *)
Definition turn_of (t : task) : option string :=
  match t with
  | TurnInvoke sid | TurnRead sid | TurnEmitResponse sid | TurnEmitComplete sid
  | TurnEmitError sid => Some sid
  | _ => None
  end.

(** The number of [await]s a turn may still have to pass. *)
Definition turn_rank (t : task) : nat :=
  match t with
  | TurnInvoke _ => 5
  | TurnRead _ => 4
  | TurnEmitResponse _ => 3
  | TurnEmitComplete _ => 2
  | TurnEmitError _ => 1
  | _ => 0
  end.

(** The three pending tables, the marker map and the futures. *)
Definition broker_part (s : state)
    : gmap string nat * gmap string nat * gmap string nat * gmap string string * list future :=
  (pending_tool_calls s, pending_speech_completions s, pending_user_responses s,
   active_speech_per_client s, futures s).

(** The token and the future of a suspended [handle_ask_user]. *)
Definition asks (t : task) : option (string * nat) :=
  match t with
  | AskEmit _ i _ _ f | AskWait _ i _ _ f => Some (i, f)
  | _ => None
  end.

(** The token and the future of a suspended [handle_speak_to_user] that
    waits for the completion of its speech. *)
Definition speaks (t : task) : option (string * nat) :=
  match t with
  | SpeakEmit _ i _ (Some f) | SpeakWait _ i _ f => Some (i, f)
  | _ => None
  end.

(** Every entry of the map [m] belongs to a suspended coroutine: [key] reads
    off a coroutine the entry it stands for. *)
Definition live {K V : Type} `{Countable K} (key : task → option (K * V))
    (ts : list (option task)) (m : gmap K V) : Prop :=
  ∀ k v, m !! k = Some v → ∃ tid t, ts !! tid = Some (Some t) ∧ key t = Some (k, v).

(** What a handler that was just started may do to such a map [proj s]:
    nothing, or add the entry of the coroutine it suspends as. *)
Definition start_effect {K V : Type} `{Countable K} (key : task → option (K * V))
    (proj : state → gmap K V) (s : state) (r : state * coro) : Prop :=
  tasks (fst r) = tasks s
  ∧ (proj (fst r) = proj s
     ∨ ∃ t k v, snd r = Await t ∧ key t = Some (k, v) ∧ proj (fst r) = <[k := v]> (proj s)).

(** What the resumption of the coroutine [t] may do to it: drop entries,
    and its own entry only when it leaves. *)
Definition resume_effect {K V : Type} `{Countable K} (key : task → option (K * V))
    (proj : state → gmap K V) (s : state) (t : task) (r : state * coro) : Prop :=
  tasks (fst r) = tasks s
  ∧ match key t with
    | None => proj (fst r) ⊆ proj s
    | Some (k, v) =>
        match snd r with
        | Await t' => key t' = Some (k, v) ∧ proj (fst r) = proj s
        | _ => proj (fst r) ⊆ proj s ∧ proj (fst r) !! k ≠ Some v
        end
    end.

(** The futures a table refers to exist, and no two tokens share one. *)
Definition table_ok (n : nat) (m : gmap string nat) : Prop :=
  (∀ t f, m !! t = Some f → (f < n)%nat)
  ∧ (∀ t t' f, m !! t = Some f → m !! t' = Some f → t = t').

Definition tables_ok (s : state) : Prop :=
  table_ok (length (futures s)) (pending_tool_calls s)
  ∧ table_ok (length (futures s)) (pending_speech_completions s)
  ∧ table_ok (length (futures s)) (pending_user_responses s).

(** What one step may do to a table: drop entries, or add the future that
    the step has just created. *)
Definition table_step (n n' : nat) (m m' : gmap string nat) : Prop :=
  (n ≤ n')%nat ∧ (m' ⊆ m ∨ ((n < n')%nat ∧ ∃ t, m' = <[t := n]> m)).

(** A peer whose lock is held has a turn in the loop. *)
Definition lock_live (s : state) : Prop :=
  ∀ sid, agent_processing_lock s !! sid = Some true →
         ∃ tid t, tasks s !! tid = Some (Some t) ∧ turn_of t = Some sid.

(** Resumes the task [tid] with the outcomes [outs], one after the other,
    until it leaves the loop or the outcomes are used up. *)
Fixpoint drive (e : env) (tid : nat) (outs : list outcome) (s : state)
    : option (state * response) :=
  match outs with
  | [] => Some (s, Suspended tid)
  | out :: outs' =>
      match step e (Resume tid out) s with
      | Some (s', Suspended _) => drive e tid outs' s'
      | r => r
      end
  end.

(** What one step may do to the futures: nothing, create a pending one, or
    settle one that is pending. *)
Definition future_step (fs fs' : list future) : Prop :=
  fs' = fs
  ∨ fs' = (fs ++ [Pending])%list
  ∨ ∃ f y, fs !! f = Some Pending ∧ fs' = <[f := y]> fs.

(** ** Sample runs *)

(** Runs a list of events; [None] when one of them cannot happen. *)
Fixpoint run (evs : list (env * event)) (s : state) : option state :=
  match evs with
  | [] => Some s
  | (e, ev) :: evs' =>
      match step e ev s with
      | Some (s', _) => run evs' s'
      | None => None
      end
  end.

Definition after (evs : list (env * event)) : state :=
  default initial (run evs initial).

(** An environment in which speech synthesis and the agent runtime work;
    the next id drawn is ["r2"]. *)
Definition quiet : env := Env "r2" "0f" 1700000000 (Some "QUJD") (Some "arn:agent") None.

(** The peer ["A"] connects, is asked a question (["r1"]) and has not
    answered yet. *)
Definition ask_proceed : event :=
  FrontendAction "A" [("action", JStr "ask_user");
                      ("parameters", JDict [("question", JStr "Proceed?")])].

Definition first_call : env := Env "r1" "0e" 1700000000 (Some "QUJD") (Some "arn:agent") None.

Definition question_pending : state :=
  after [(first_call, Connect "A"); (first_call, ask_proceed);
         (first_call, Resume 0 (OutOk JNull))].

(** The peer ["A"] connects and the action [create_task] is dispatched to
    it under the token ["c1"]. *)
Definition create_task : event :=
  FrontendAction "A" [("action", JStr "create_task");
                      ("parameters", JDict [("title", JStr "Write report")])].

Definition dispatch : env := Env "c1" "0d" 1700000000 None (Some "arn:agent") None.

Definition action_pending : state :=
  after [(dispatch, Connect "A"); (dispatch, create_task);
         (dispatch, Resume 0 (OutOk JNull))].

(** The peer ["A"] has sent a prompt, and the agent runtime is at work. *)
Definition turn_running : state :=
  after [(quiet, Connect "A"); (quiet, UserPrompt "A" [("prompt", JStr "Plan my day")])].

(** The peer ["A"] is played the speech ["s1"], which has not ended yet. *)
Definition say_hello : event :=
  FrontendAction "A" [("action", JStr "speak_to_user");
                      ("parameters", JDict [("message", JStr "Hello")])].

Definition speaking : env := Env "s1" "0c" 1700000000 (Some "QUJD") (Some "arn:agent") None.

Definition speech_playing : state :=
  after [(speaking, Connect "A"); (speaking, say_hello);
         (speaking, Resume 0 (OutOk JNull))].

(** * Properties *)

Ltac unfold_state :=
  unfold sio_emit, new_future, forget_tool_call, turn_finally,
    set_connected_clients, set_agent_processing_lock, set_pending_tool_calls,
    set_sessions, set_pending_speech_completions, set_active_speech_per_client,
    set_pending_user_responses, set_futures, set_tasks, set_emitted in *;
  simpl in *.

Lemma member_not_empty (X : gset string) (c : string) : c ∈ X → X ≠ ∅.
Proof. intros Hc ->. by apply not_elem_of_empty in Hc. Qed.

(** ** No peer available *)

(** C6.  A frontend action (a payload that names an action) dispatched while
    no client is connected ends at once in the HTTP error 503 "No frontend
    client connected": the step returns the state it was given, so no token
    is registered, no future is allocated and no task is left waiting.  The
    check comes before the built-in actions are looked at, so this holds for
    every action name. *)
Theorem no_peer_available (e : env) (client_sid : string) (payload : pydict)
    (s : state) :
  truthy (dict_get "action" payload JNull) = true →
  connected_clients s = ∅ →
  step e (FrontendAction client_sid payload) s
  = Some (s, Raised (HTTPException 503 "No frontend client connected")).
Proof.
  intros Haction Hnone. simpl. unfold frontend_action.
  rewrite Haction. rewrite !decide_True by auto. reflexivity.
Qed.

Lemma no_peer_available_witness :
  step (Env "t1" "h1" 0 (Some "QQ==") None None)
       (FrontendAction "A" [("action", JStr "create_task"); ("parameters", JDict [])])
       initial
  = Some (initial, Raised (HTTPException 503 "No frontend client connected")).
Proof. apply no_peer_available; reflexivity. Defined.

(** ** The busy guard *)

Lemma remove_marker_active client_sid id s :
  active_speech_per_client (builtin_actions.remove_active_speech_marker client_sid id s)
  = match active_speech_per_client s !! client_sid with
    | Some holder =>
        if String.eqb holder id then delete client_sid (active_speech_per_client s)
        else active_speech_per_client s
    | None => active_speech_per_client s
    end.
Proof.
  unfold builtin_actions.remove_active_speech_marker.
  destruct (active_speech_per_client s !! client_sid) as [h|]; [|done].
  by destruct (String.eqb h id).
Qed.

Lemma remove_marker_tasks client_sid id s :
  tasks (builtin_actions.remove_active_speech_marker client_sid id s) = tasks s.
Proof.
  unfold builtin_actions.remove_active_speech_marker.
  destruct (active_speech_per_client s !! client_sid) as [h|]; [|done].
  by destruct (String.eqb h id).
Qed.

Lemma wait_for_frame fut timer out s s1 r :
  wait_for fut timer out s = Some (s1, r) →
  active_speech_per_client s1 = active_speech_per_client s ∧ tasks s1 = tasks s
  ∧ agent_processing_lock s1 = agent_processing_lock s
  ∧ pending_tool_calls s1 = pending_tool_calls s
  ∧ pending_user_responses s1 = pending_user_responses s
  ∧ pending_speech_completions s1 = pending_speech_completions s.
Proof.
  unfold wait_for. intros H.
  repeat case_match; simplify_eq; done.
Qed.

Lemma through_builtin_inv r s' c :
  through_builtin r = (s', c) →
  fst r = s' ∧ (∀ t', c = Await t' → snd r = Await t') ∧ exits c = exits (snd r).
Proof.
  destruct r as [s0 c0]. unfold through_builtin. simpl. intros [= <- <-].
  destruct c0 as [[]| |]; naive_solver.
Qed.

Lemma guard_effect_through_builtin client_sid id s r s' c :
  guard_effect client_sid id s (fst r) (snd r) →
  through_builtin r = (s', c) →
  guard_effect client_sid id s s' c.
Proof.
  intros (Ht & Ha & He) (<- & Hk & Hx)%through_builtin_inv.
  split; [done|]. split.
  - intros t' ->. by apply Ha, Hk.
  - intros Hc. apply He. by rewrite <- Hx.
Qed.

Lemma speak_after_emit_guard client_sid id m f out s :
  let r := builtin_actions.speak_after_emit client_sid id m f out s in
  guard_effect client_sid id s (fst r) (snd r).
Proof.
  unfold builtin_actions.speak_after_emit, builtin_actions.speak_finally, guard_effect.
  repeat case_match; simpl;
    rewrite ?remove_marker_tasks, ?remove_marker_active; naive_solver.
Qed.

Lemma ask_after_emit_guard client_sid id q t f out s :
  let r := builtin_actions.ask_after_emit client_sid id q t f out s in
  guard_effect client_sid id s (fst r) (snd r).
Proof.
  unfold builtin_actions.ask_after_emit, builtin_actions.ask_finally, guard_effect.
  repeat case_match; simpl;
    rewrite ?remove_marker_tasks, ?remove_marker_active; naive_solver.
Qed.

Lemma speak_after_wait_guard client_sid id m f out s r :
  builtin_actions.speak_after_wait client_sid id m f out s = Some r →
  guard_effect client_sid id s (fst r) (snd r).
Proof.
  unfold builtin_actions.speak_after_wait, builtin_actions.speak_finally, guard_effect.
  destruct (wait_for _ _ _ _) as [[s1 w]|] eqn:Hw; [|done].
  apply wait_for_frame in Hw as (Ha & Ht & _). intros Hr.
  repeat case_match; simplify_eq/=;
    rewrite ?remove_marker_tasks, ?remove_marker_active; simpl; rewrite ?Ha; naive_solver.
Qed.

Lemma ask_after_wait_guard client_sid id q t f out s r :
  builtin_actions.ask_after_wait client_sid id q t f out s = Some r →
  guard_effect client_sid id s (fst r) (snd r).
Proof.
  unfold builtin_actions.ask_after_wait, builtin_actions.ask_finally, guard_effect.
  destruct (_ && _).
  { intros Hr. repeat case_match; simplify_eq/=;
      rewrite ?remove_marker_tasks, ?remove_marker_active; naive_solver. }
  destruct (wait_for _ _ _ _) as [[s1 w]|] eqn:Hw; [|done].
  apply wait_for_frame in Hw as (Ha & Ht & _). intros Hr.
  repeat case_match; simplify_eq/=;
    rewrite ?remove_marker_tasks, ?remove_marker_active; simpl; rewrite ?Ha; naive_solver.
Qed.

Lemma guarded_continue e t out s s' c client_sid id :
  guarded t = Some (client_sid, id) →
  continue e t out s = Some (s', c) →
  guard_effect client_sid id s s' c.
Proof.
  intros Hg Hc. destruct t; simplify_eq/=.
  - eapply guard_effect_through_builtin; [|done]. apply speak_after_emit_guard.
  - destruct (builtin_actions.speak_after_wait _ _ _ _ _ _) as [r|] eqn:Hr; simplify_eq/=.
    eapply guard_effect_through_builtin; [|done]. by eapply speak_after_wait_guard.
  - eapply guard_effect_through_builtin; [|done]. apply ask_after_emit_guard.
  - destruct (builtin_actions.ask_after_wait _ _ _ _ _ _ _) as [r|] eqn:Hr; simplify_eq/=.
    eapply guard_effect_through_builtin; [|done]. by eapply ask_after_wait_guard.
Qed.



(** *** At most one guarded operation per peer *)

Lemma guard_ok_spawn ts a t :
  guarded t = None → guard_ok ts a → guard_ok (ts ++ [Some t])%list a.
Proof.
  intros Hg [Hm Hs]. split.
  - intros tid t0 p i [[_ Hl]|[_ ?]]%lookup_snoc_Some Hg0; [eauto|congruence].
  - intros tid1 tid2 t1 t2 p i1 i2 [[_ H1]|[_ ?]]%lookup_snoc_Some Hg1
      [[_ H2]|[_ ?]]%lookup_snoc_Some Hg2; try congruence. eauto.
Qed.

Lemma guard_ok_acquire ts a t p i :
  a !! p = None → guarded t = Some (p, i) → guard_ok ts a →
  guard_ok (ts ++ [Some t])%list (<[p := i]> a).
Proof.
  intros Hfree Hg [Hm Hs]. split.
  - intros tid t0 p0 i0 [[_ Hl]|[_ ?]]%lookup_snoc_Some Hg0.
    + specialize (Hm _ _ _ _ Hl Hg0).
      rewrite lookup_insert_ne; [done|congruence].
    + simplify_eq. by rewrite lookup_insert_eq.
  - intros tid1 tid2 t1 t2 p0 i1 i2 [[_ H1]|[-> ?]]%lookup_snoc_Some Hg1
      [[_ H2]|[-> ?]]%lookup_snoc_Some Hg2; simplify_eq; eauto.
    + specialize (Hm _ _ _ _ H1 Hg1). congruence.
    + specialize (Hm _ _ _ _ H2 Hg2). congruence.
Qed.

Lemma guard_ok_continue ts a tid t t' :
  ts !! tid = Some (Some t) → guarded t' = guarded t → guard_ok ts a →
  guard_ok (<[tid := Some t']> ts) a.
Proof.
  intros Hl Hg [Hm Hs]. split.
  - intros tid0 t0 p i [(-> & ? & _)|[? H0]]%list_lookup_insert_Some Hg0;
      simplify_eq; rewrite ?Hg in *; eauto.
  - intros tid1 tid2 t1 t2 p i1 i2 [(<- & ? & _)|[? H1]]%list_lookup_insert_Some Hg1
      [(<- & ? & _)|[? H2]]%list_lookup_insert_Some Hg2; simplify_eq;
      rewrite ?Hg in *; eauto.
Qed.

Lemma guard_ok_settle ts a tid t x :
  ts !! tid = Some (Some t) → guarded t = None →
  match x with Some t' => guarded t' = None | None => True end →
  guard_ok ts a → guard_ok (<[tid := x]> ts) a.
Proof.
  intros Hl Hg Hx [Hm Hs]. split.
  - intros tid0 t0 p i [(-> & ? & _)|[? H0]]%list_lookup_insert_Some Hg0;
      simplify_eq; eauto; congruence.
  - intros tid1 tid2 t1 t2 p i1 i2 [(<- & ? & _)|[? H1]]%list_lookup_insert_Some Hg1
      [(<- & ? & _)|[? H2]]%list_lookup_insert_Some Hg2; simplify_eq; eauto; congruence.
Qed.

Lemma guard_ok_release ts a tid t p i :
  ts !! tid = Some (Some t) → guarded t = Some (p, i) → guard_ok ts a →
  guard_ok (<[tid := None]> ts)
    (match a !! p with
     | Some holder => if String.eqb holder i then delete p a else a
     | None => a
     end).
Proof.
  intros Hl Hg [Hm Hs]. rewrite (Hm _ _ _ _ Hl Hg), String.eqb_refl. split.
  - intros tid0 t0 p0 i0 [(-> & ? & _)|[Hne H0]]%list_lookup_insert_Some Hg0; simplify_eq.
    rewrite lookup_delete_ne; [eauto|].
    intros <-. apply Hne. eauto.
  - intros tid1 tid2 t1 t2 p0 i1 i2 [(<- & ? & _)|[? H1]]%list_lookup_insert_Some Hg1
      [(<- & ? & _)|[? H2]]%list_lookup_insert_Some Hg2; simplify_eq; eauto.
Qed.

Ltac frame_solver :=
  unfold leaves_guard_alone, session_manager.get_or_create_session,
    session_manager.get_session, session_manager.create_session,
    session_manager.remove_session, turn_except, action_except in *;
  unfold_state;
  repeat (case_match; simplify_eq/=); try naive_solver.

Lemma connect_guard sid s : leaves_guard_alone s (connect sid s).
Proof. unfold connect. frame_solver. Qed.

Lemma disconnect_guard e sid s : leaves_guard_alone s (disconnect e sid s).
Proof. unfold disconnect. frame_solver. Qed.

Lemma speech_completed_guard sid data s : leaves_guard_alone s (speech_completed sid data s).
Proof.
  unfold speech_completed, builtin_actions.handle_speech_completion. frame_solver.
Qed.

Lemma user_response_guard sid data s : leaves_guard_alone s (user_response sid data s).
Proof.
  unfold user_response, builtin_actions.handle_user_response. frame_solver.
Qed.

Lemma user_prompt_guard e sid data s : leaves_guard_alone s (user_prompt e sid data s).
Proof. unfold user_prompt. frame_solver. Qed.

Lemma frontend_tool_response_guard sid data s :
  leaves_guard_alone s (frontend_tool_response sid data s).
Proof. unfold frontend_tool_response. frame_solver. Qed.

Lemma unguarded_continue e t out s r :
  guarded t = None → continue e t out s = Some r → leaves_guard_alone s r.
Proof.
  intros Hg Hc. destruct t; simplify_eq/=.
  - unfold action_after_emit. frame_solver.
  - unfold action_after_wait in Hc.
    destruct (wait_for _ _ _ _) as [[s1 w]|] eqn:Hw; [|done].
    apply wait_for_frame in Hw as (Ha & Ht & _).
    frame_solver.
  - unfold turn_after_invoke. frame_solver.
  - unfold turn_after_read. frame_solver.
  - unfold turn_after_emit_response. frame_solver.
  - unfold turn_after_emit_complete. frame_solver.
  - unfold turn_after_emit_error. frame_solver.
  - unfold disconnect_after_stop. frame_solver.
Qed.

Lemma handle_speak_to_user_guard e client_sid parameters s :
  let r := builtin_actions.handle_speak_to_user e client_sid parameters s in
  leaves_guard_alone s r ∨ acquires s r.
Proof.
  unfold builtin_actions.handle_speak_to_user, acquires, leaves_guard_alone. unfold_state.
  repeat (case_match; simplify_eq/=); try (left; naive_solver);
    right; (split; [done|]); eexists _, _, _; split_and!; done.
Qed.

Lemma handle_ask_user_guard e client_sid parameters s :
  let r := builtin_actions.handle_ask_user e client_sid parameters s in
  leaves_guard_alone s r ∨ acquires s r.
Proof.
  unfold builtin_actions.handle_ask_user, acquires, leaves_guard_alone. unfold_state.
  repeat (case_match; simplify_eq/=); try (left; naive_solver);
    right; (split; [done|]); eexists _, _, _; split_and!; done.
Qed.

Lemma through_builtin_guard s r :
  leaves_guard_alone s r ∨ acquires s r →
  leaves_guard_alone s (through_builtin r) ∨ acquires s (through_builtin r).
Proof.
  destruct r as [s1 c]. unfold through_builtin, leaves_guard_alone, acquires. simpl.
  intros [(Ht & Ha & Hk)|(Ht & t & p & i & -> & H)].
  - left. split_and!; [done..|]. intros t Hc. apply Hk.
    destruct c as [[]| |]; simplify_eq/=; done.
  - right. split; [done|]. by exists t, p, i.
Qed.

Lemma frontend_action_guard e client_sid payload s :
  let r := frontend_action e client_sid payload s in
  leaves_guard_alone s r ∨ acquires s r.
Proof.
  unfold frontend_action, builtin_actions.handle_builtin_action.
  destruct (negb (truthy _)); [left; by frame_solver|].
  destruct (decide (connected_clients s = ∅)); [left; by frame_solver|].
  set (parameters := dict_get "parameters" payload (JDict [])).
  destruct (dict_get "action" payload JNull) as [| | |a| |];
    try (left; by frame_solver).
  destruct (String.eqb a "speak_to_user").
  { pose proof (handle_speak_to_user_guard e client_sid parameters s) as H.
    destruct (builtin_actions.handle_speak_to_user _ _ _ _) as [s1 c].
    by apply through_builtin_guard in H. }
  destruct (String.eqb a "ask_user").
  { pose proof (handle_ask_user_guard e client_sid parameters s) as H.
    destruct (builtin_actions.handle_ask_user _ _ _ _) as [s1 c].
    by apply through_builtin_guard in H. }
  left. by frame_solver.
Qed.

Lemma started_single_flight s r :
  leaves_guard_alone s r ∨ acquires s r →
  single_flight s → single_flight (fst (started r)).
Proof.
  unfold single_flight. destruct r as [s1 c].
  intros [(Ht & Ha & Hk)|(Ht & t & p & i & Hc & Hg & Hfree & Ha)] Hinv;
    simpl in *.
  - destruct c as [v|ex|t]; simpl; rewrite ?Ht, ?Ha; [done..|].
    apply guard_ok_spawn; [by apply Hk|done].
  - subst c. simpl. rewrite Ht, Ha. by apply guard_ok_acquire.
Qed.

Lemma resumed_single_flight e tid t out s r :
  tasks s !! tid = Some (Some t) →
  continue e t out s = Some r →
  single_flight s → single_flight (fst (resumed tid r)).
Proof.
  unfold single_flight. intros Hl Hc Hinv. destruct r as [s1 c].
  destruct (guarded t) as [[p i]|] eqn:Hg.
  - destruct (guarded_continue _ _ _ _ _ _ _ _ Hg Hc) as (Ht & Hk & Hx).
    destruct c as [v|ex|t']; simpl; rewrite Ht.
    + rewrite (Hx eq_refl), remove_marker_active. by eapply guard_ok_release.
    + rewrite (Hx eq_refl), remove_marker_active. by eapply guard_ok_release.
    + destruct (Hk t' eq_refl) as [Hg' ->].
      eapply guard_ok_continue; [done| |done]. congruence.
  - destruct (unguarded_continue _ _ _ _ _ Hg Hc) as (Ht & Ha & Hk). simpl in *.
    destruct c as [v|ex|t']; simpl; rewrite Ht, Ha.
    + by eapply guard_ok_settle.
    + by eapply guard_ok_settle.
    + eapply guard_ok_settle; [done..| |done]. by apply Hk.
Qed.

Lemma step_started e ev s (r0 : state * coro) s' r :
  (∀ x, step e ev s = Some x → x = started r0) →
  step e ev s = Some (s', r) → s' = fst (started r0).
Proof. intros Hx Hstep. apply Hx in Hstep. by rewrite <- Hstep. Qed.

Ltac start_step :=
  let Hx := fresh "Hx" in
  unfold step; intros ? Hx; try case_decide; simplify_eq; reflexivity.

Lemma started_fst (r0 : state * coro) s' r :
  Some (started r0) = Some (s', r) → s' = fst (started r0).
Proof. intros [= H]. by rewrite H. Qed.

Lemma step_single_flight e ev s s' r :
  step e ev s = Some (s', r) → single_flight s → single_flight s'.
Proof.
  intros Hstep Hinv. destruct ev; unfold step in Hstep.
  7: destruct (decide (_ ∨ _)); [|done].
  1-7: apply started_fst in Hstep as ->; apply (started_single_flight s); [|done].
  - left; apply connect_guard.
  - left; apply disconnect_guard.
  - left; apply speech_completed_guard.
  - left; apply user_response_guard.
  - left; apply user_prompt_guard.
  - left; apply frontend_tool_response_guard.
  - apply frontend_action_guard.
  - destruct (tasks s !! tid) as [[t|]|] eqn:Hl; [|done..].
    destruct (continue e t out s) as [r0|] eqn:Hc; [|done].
    injection Hstep as Hstep.
    replace s' with (fst (resumed tid r0)) by by rewrite Hstep.
    by eapply resumed_single_flight.
Qed.

Lemma reachable_single_flight s : reachable s → single_flight s.
Proof.
  induction 1 as [|e ev s s' r _ IH Hstep].
  - split; simpl; [intros tid|intros tid1]; intros *; rewrite lookup_nil; discriminate.
  - by eapply step_single_flight.
Qed.

Lemma run_reachable evs s s' : reachable s → run evs s = Some s' → reachable s'.
Proof.
  revert s. induction evs as [|[e ev] evs IH]; intros s Hs; simpl.
  - by intros [= <-].
  - destruct (step e ev s) as [[s1 r]|] eqn:Hstep; [|done].
    apply IH. by eapply reachable_step.
Qed.

Lemma after_reachable evs : reachable (after evs).
Proof.
  unfold after. destruct (run evs initial) as [s'|] eqn:Hrun; simpl.
  - eapply run_reachable; [apply reachable_initial|done].
  - apply reachable_initial.
Qed.

(** C2.  In every state the server can reach, a peer has at most one
    [speak_to_user] or [ask_user] operation between the setting of its
    marker and the release, and that operation is the holder of the marker.
    A call made for a peer whose marker is held (and that carries the text
    it is to speak) returns at once, without suspending and without
    changing the state, the result [{"success": False, "error": "Speech
    already in progress (ID: <holder>). Please wait for it to complete."}];
    the HTTP request that made it, whichever connected peer it was
    dispatched to, ends in the same step with that result as its ["data"].
    A call made while the marker is free checks it and sets it to its own
    id in one uninterrupted run: when it first suspends the marker already
    holds the id. *)
Theorem one_guarded_operation_per_peer (s : state) :
  reachable s →
  (∀ tid1 tid2 t1 t2 p i1 i2,
     tasks s !! tid1 = Some (Some t1) → guarded t1 = Some (p, i1) →
     tasks s !! tid2 = Some (Some t2) → guarded t2 = Some (p, i2) →
     tid1 = tid2 ∧ active_speech_per_client s !! p = Some i1)
  ∧ (∀ e p holder parameters,
       active_speech_per_client s !! p = Some holder →
       (truthy (dict_get "message" parameters (JStr "")) = true →
        builtin_actions.handle_speak_to_user e p (JDict parameters) s
        = (s, Return (JDict [("success", JBool false);
                             ("error",
                              JStr ("Speech already in progress (ID: " +:+ holder
                                    +:+ "). Please wait for it to complete."))])))
       ∧ (truthy (dict_get "question" parameters (JStr "")) = true →
          builtin_actions.handle_ask_user e p (JDict parameters) s
          = (s, Return (JDict [("success", JBool false);
                               ("error",
                                JStr ("Speech already in progress (ID: " +:+ holder
                                      +:+ "). Please wait for it to complete."))]))))
  ∧ (∀ e payload p holder a parameters,
       p ∈ connected_clients s →
       active_speech_per_client s !! p = Some holder →
       dict_get "action" payload JNull = JStr a →
       dict_get "parameters" payload (JDict []) = JDict parameters →
       (a = "speak_to_user" ∧ truthy (dict_get "message" parameters (JStr "")) = true)
       ∨ (a = "ask_user" ∧ truthy (dict_get "question" parameters (JStr "")) = true) →
       step e (FrontendAction p payload) s
       = Some (s, Returned
                    (JDict [("success", JBool false);
                            ("data",
                             JDict [("success", JBool false);
                                    ("error",
                                     JStr ("Speech already in progress (ID: " +:+ holder
                                           +:+ "). Please wait for it to complete."))])])))
  ∧ (∀ e p parameters,
       active_speech_per_client s !! p = None →
       nonempty (generated_speech e) = true →
       (truthy (dict_get "message" parameters (JStr "")) = true →
        ∃ s' t, builtin_actions.handle_speak_to_user e p (JDict parameters) s = (s', Await t)
                ∧ guarded t = Some (p, uuid4 e)
                ∧ active_speech_per_client s' !! p = Some (uuid4 e))
       ∧ (truthy (dict_get "question" parameters (JStr "")) = true →
          ∃ s' t, builtin_actions.handle_ask_user e p (JDict parameters) s = (s', Await t)
                  ∧ guarded t = Some (p, uuid4 e)
                  ∧ active_speech_per_client s' !! p = Some (uuid4 e))).
Proof.
  intros [Hm Hs]%reachable_single_flight. split_and!.
  - intros * H1 Hg1 H2 Hg2. split; eauto.
  - intros e p holder parameters Hheld. split; intros Htext.
    + unfold builtin_actions.handle_speak_to_user. by rewrite Htext, Hheld.
    + unfold builtin_actions.handle_ask_user. by rewrite Htext, Hheld.
  - intros e payload p holder a parameters Hpeer Hheld Haction Hparams Hcall.
    simpl. rewrite decide_True by auto. unfold frontend_action.
    rewrite Haction, Hparams.
    rewrite decide_False by by eapply member_not_empty.
    destruct Hcall as [[-> Htext]|[-> Htext]]; simpl.
    + unfold builtin_actions.handle_speak_to_user. by rewrite Htext, Hheld.
    + unfold builtin_actions.handle_ask_user. by rewrite Htext, Hheld.
  - intros e p parameters Hfree Haudio. split; intros Htext.
    + unfold builtin_actions.handle_speak_to_user. rewrite Htext, Hfree, Haudio. simpl.
      destruct (truthy (dict_get "wait_for_completion" parameters (JBool true)));
        eexists _, _; (split; [reflexivity|]); unfold_state;
        by rewrite lookup_insert_eq.
    + unfold builtin_actions.handle_ask_user. rewrite Htext, Hfree, Haudio. simpl.
      eexists _, _; (split; [reflexivity|]); unfold_state.
      by rewrite lookup_insert_eq.
Qed.

Lemma one_guarded_operation_per_peer_witness :
  tasks question_pending !! 0%nat
    = Some (Some (AskWait "A" "r1" (JStr "Proceed?") (JNum 30) 0))
  ∧ active_speech_per_client question_pending !! "A" = Some "r1"
  ∧ builtin_actions.handle_speak_to_user quiet "A" (JDict [("message", JStr "Hello")])
      question_pending
    = (question_pending,
       Return (JDict [("success", JBool false);
                      ("error",
                       JStr "Speech already in progress (ID: r1). Please wait for it to complete.")]))
  ∧ step quiet (FrontendAction "A" [("action", JStr "speak_to_user");
                                    ("parameters", JDict [("message", JStr "Hello")])])
      question_pending
    = Some (question_pending,
            Returned
              (JDict [("success", JBool false);
                      ("data",
                       JDict [("success", JBool false);
                              ("error",
                               JStr "Speech already in progress (ID: r1). Please wait for it to complete.")])])).
Proof.
  destruct (one_guarded_operation_per_peer question_pending (after_reachable _))
    as (Hone & Hbusy & Hrequest & _).
  assert (tasks question_pending !! 0%nat
          = Some (Some (AskWait "A" "r1" (JStr "Proceed?") (JNum 30) 0))) as Ht
    by (vm_compute; reflexivity).
  destruct (Hone _ _ _ _ _ _ _ Ht eq_refl Ht eq_refl) as [_ Hheld].
  split; [exact Ht|]. split; [exact Hheld|]. split.
  - destruct (Hbusy quiet "A" "r1" [("message", JStr "Hello")] Hheld) as [Hspeak _].
    apply Hspeak. reflexivity.
  - apply (Hrequest quiet _ "A" "r1" "speak_to_user" [("message", JStr "Hello")]);
      [vm_compute; reflexivity|exact Hheld|reflexivity|reflexivity|].
    left. split; reflexivity.
Defined.

(** ** Resolving a pending request *)

Lemma handle_user_response_spec request_id response s :
  (∃ fut, pending_user_responses s !! request_id = Some fut
          ∧ futures s !! fut = Some Pending
          ∧ builtin_actions.handle_user_response request_id response s
            = (set_futures (<[fut := Result response]> (futures s)) s, true))
  ∨ ((¬ ∃ fut, pending_user_responses s !! request_id = Some fut
               ∧ futures s !! fut = Some Pending)
     ∧ builtin_actions.handle_user_response request_id response s = (s, false)).
Proof.
  unfold builtin_actions.handle_user_response.
  destruct (pending_user_responses s !! request_id) as [fut|] eqn:Ht.
  - destruct (futures s !! fut) as [[]|] eqn:Hf; simpl.
    + left. by exists fut.
    + right. split; [|done]. intros (fut' & ? & ?). congruence.
    + right. split; [|done]. intros (fut' & ? & ?). congruence.
    + right. split; [|done]. intros (fut' & ? & ?). congruence.
  - right. split; [|done]. intros (fut' & ? & ?). congruence.
Qed.

Lemma ask_finally_unregisters client_sid request_id s :
  pending_user_responses (builtin_actions.ask_finally client_sid request_id s)
    !! request_id = None.
Proof.
  unfold builtin_actions.ask_finally, builtin_actions.remove_active_speech_marker.
  repeat case_match; unfold_state; apply lookup_delete_eq.
Qed.

Lemma ask_after_wait_unregisters client_sid request_id q t f out s s1 c :
  builtin_actions.ask_after_wait client_sid request_id q t f out s = Some (s1, c) →
  pending_user_responses s1 !! request_id = None.
Proof.
  unfold builtin_actions.ask_after_wait. intros H.
  repeat case_match; simplify_eq; apply ask_finally_unregisters.
Qed.

Lemma wait_for_done fut timer out s s1 w :
  wait_for fut timer out s = Some (s1, w) →
  ∃ f, futures s1 !! fut = Some f ∧ future_done f = true.
Proof.
  unfold wait_for. intros H.
  destruct (futures s !! fut) as [f0|] eqn:Hf; [|done].
  assert (fut < length (futures s))%nat by by eapply lookup_lt_Some.
  repeat case_match; simplify_eq; unfold_state;
    rewrite ?list_lookup_insert_eq by done; eauto.
Qed.

Lemma action_after_wait_done tool_call_id fut out s s1 c :
  action_after_wait tool_call_id fut out s = Some (s1, c) →
  ∃ f, futures s1 !! fut = Some f ∧ future_done f = true.
Proof.
  unfold action_after_wait. intros H.
  destruct (wait_for _ _ _ _) as [[s0 w]|] eqn:Hw; [|done].
  apply wait_for_done in Hw as (f & Hf & Hd). exists f. split; [|done].
  unfold action_except in H.
  repeat case_match; simplify_eq; unfold_state; done.
Qed.

Lemma action_timeout_unregisters tool_call_id fut s s1 c :
  futures s !! fut = Some Pending →
  action_after_wait tool_call_id fut (OutRaise TimeoutError) s = Some (s1, c) →
  pending_tool_calls s1 !! tool_call_id = None.
Proof.
  unfold action_after_wait, wait_for, action_except. intros -> H.
  simplify_eq/=. unfold_state. apply lookup_delete_eq.
Qed.

Lemma frontend_tool_response_spec sid data t s :
  dict_get "toolCallId" data JNull = JStr t →
  (∃ fut, pending_tool_calls s !! t = Some fut
          ∧ futures s !! fut = Some Pending
          ∧ frontend_tool_response sid data s
            = (forget_tool_call t
                 (set_futures (<[fut := Result (JDict data)]> (futures s)) s),
               Return JNull))
  ∨ ((¬ ∃ fut, pending_tool_calls s !! t = Some fut ∧ futures s !! fut = Some Pending)
     ∧ frontend_tool_response sid data s = (forget_tool_call t s, Return JNull)
     ∧ (pending_tool_calls s !! t = None → forget_tool_call t s = s)).
Proof.
  intros Hid. unfold frontend_tool_response. rewrite Hid.
  destruct (pending_tool_calls s !! t) as [fut|] eqn:Ht.
  - destruct (futures s !! fut) as [[]|] eqn:Hf; simpl.
    + left. by exists fut.
    + right. split_and!; [|done..]. intros (fut' & ? & ?). congruence.
    + right. split_and!; [|done..]. intros (fut' & ? & ?). congruence.
    + right. split_and!; [|done..]. intros (fut' & ? & ?). congruence.
  - right. split_and!.
    + intros (fut' & ? & ?). congruence.
    + unfold forget_tool_call. rewrite delete_id by done. by destruct s.
    + intros _. unfold forget_tool_call. rewrite delete_id by done. by destruct s.
Qed.

(** C3.  Delivering a reply for a token completes the waiting future with
    the payload exactly when the token is registered and its future is
    still pending.  [handle_user_response] says so by returning [True]; in
    every other case it returns [False] and leaves the state as it was: an
    unknown token, a second reply (the future is done), a reply after the
    asking coroutine has left (its [finally] removed the token).
    [frontend_tool_response], the event handler of the generic actions,
    returns nothing; it completes the future under the same condition,
    always ends with the token unregistered, never raises for a string
    token, changes nothing at all for a token that is not registered, and
    never touches the future of a caller that has already returned. *)
Theorem resolve_iff_pending (s : state) (t : string) (p : json) (sid : string)
    (data : pydict) :
  dict_get "toolCallId" data JNull = JStr t →
  let r := builtin_actions.handle_user_response t p s in
  let r' := frontend_tool_response sid data s in
  (snd r = true ↔
     ∃ fut, pending_user_responses s !! t = Some fut ∧ futures s !! fut = Some Pending)
  ∧ (∀ fut, pending_user_responses s !! t = Some fut → futures s !! fut = Some Pending →
       fst r = set_futures (<[fut := Result p]> (futures s)) s
       ∧ futures (fst r) !! fut = Some (Result p))
  ∧ (snd r = false → fst r = s)
  ∧ (∀ p2, builtin_actions.handle_user_response t p2 (fst r) = (fst r, false))
  ∧ (∀ client_sid q timeout f out s1 c,
       builtin_actions.ask_after_wait client_sid t q timeout f out s = Some (s1, c) →
       builtin_actions.handle_user_response t p s1 = (s1, false))
  ∧ snd r' = Return JNull
  ∧ (∀ fut, pending_tool_calls s !! t = Some fut → futures s !! fut = Some Pending →
       fst r' = forget_tool_call t (set_futures (<[fut := Result (JDict data)]> (futures s)) s)
       ∧ futures (fst r') !! fut = Some (Result (JDict data)))
  ∧ ((¬ ∃ fut, pending_tool_calls s !! t = Some fut ∧ futures s !! fut = Some Pending) →
       fst r' = forget_tool_call t s)
  ∧ (pending_tool_calls s !! t = None → fst r' = s)
  ∧ (∀ sid2 data2, dict_get "toolCallId" data2 JNull = JStr t →
       frontend_tool_response sid2 data2 (fst r') = (fst r', Return JNull))
  ∧ (∀ f out s1 c,
       action_after_wait t f out s = Some (s1, c) →
       snd (frontend_tool_response sid data s1) = Return JNull
       ∧ futures (fst (frontend_tool_response sid data s1)) !! f = futures s1 !! f)
  ∧ (∀ f s1 c,
       futures s !! f = Some Pending →
       action_after_wait t f (OutRaise TimeoutError) s = Some (s1, c) →
       frontend_tool_response sid data s1 = (s1, Return JNull)).
Proof.
  intros Hid r r'.
  assert (∀ s0 sid0 data0, dict_get "toolCallId" data0 JNull = JStr t →
            pending_tool_calls s0 !! t = None →
            frontend_tool_response sid0 data0 s0 = (s0, Return JNull)) as Hunknown.
  { intros s0 sid0 data0 Hid0 Hnone.
    destruct (frontend_tool_response_spec sid0 data0 t s0 Hid0)
      as [(fut & ? & _)|(_ & -> & Hsame)]; [congruence|]. by rewrite Hsame. }
  assert (∀ s0 p0, pending_user_responses s0 !! t = None →
            builtin_actions.handle_user_response t p0 s0 = (s0, false)) as Hunasked.
  { intros s0 p0 Hnone. unfold builtin_actions.handle_user_response. by rewrite Hnone. }
  split_and!.
  - subst r. destruct (handle_user_response_spec t p s) as [(fut & Ht & Hf & ->)|[Hno ->]];
      simpl; [naive_solver|]. split; [done|]. intros ?. by destruct Hno.
  - intros fut Ht Hf. subst r.
    destruct (handle_user_response_spec t p s) as [(fut' & Ht' & Hf' & ->)|[Hno ->]].
    + simplify_eq. simpl. split; [done|].
      apply list_lookup_insert_eq. by eapply lookup_lt_Some.
    + destruct Hno. eauto.
  - subst r. destruct (handle_user_response_spec t p s) as [(fut & Ht & Hf & ->)|[Hno ->]];
      simpl; [discriminate|done].
  - intros p2. subst r.
    destruct (handle_user_response_spec t p s) as [(fut & Ht & Hf & ->)|[Hno ->]]; simpl.
    + unfold builtin_actions.handle_user_response. simpl. rewrite Ht.
      rewrite list_lookup_insert_eq by by eapply lookup_lt_Some. done.
    + destruct (handle_user_response_spec t p2 s) as [(fut & Ht & Hf & _)|[_ ->]];
        [|done]. destruct Hno. eauto.
  - intros client_sid q timeout f out s1 c Hw.
    apply Hunasked. by eapply ask_after_wait_unregisters.
  - subst r'. by destruct (frontend_tool_response_spec sid data t s Hid)
      as [(fut & _ & _ & ->)|(_ & -> & _)].
  - intros fut Ht Hf. subst r'.
    destruct (frontend_tool_response_spec sid data t s Hid)
      as [(fut' & Ht' & Hf' & ->)|(Hno & _)].
    + simplify_eq. simpl. split; [done|].
      apply list_lookup_insert_eq. by eapply lookup_lt_Some.
    + destruct Hno. eauto.
  - intros Hno. subst r'.
    destruct (frontend_tool_response_spec sid data t s Hid)
      as [(fut & Ht & Hf & _)|(_ & -> & _)]; [|done]. destruct Hno. eauto.
  - intros Hnone. subst r'. by rewrite Hunknown.
  - intros sid2 data2 Hid2. apply Hunknown; [done|]. subst r'.
    destruct (frontend_tool_response_spec sid data t s Hid)
      as [(fut & _ & _ & ->)|(_ & -> & _)]; simpl; apply lookup_delete_eq.
  - intros f out s1 c (f1 & Hf1 & Hdone)%action_after_wait_done.
    destruct (frontend_tool_response_spec sid data t s1 Hid)
      as [(fut & Ht & Hf & ->)|(_ & -> & _)]; simpl; [|done].
    split; [done|]. apply list_lookup_insert_ne. intros ->.
    rewrite Hf in Hf1. by simplify_eq.
  - intros f s1 c Hf Hw. apply Hunknown; [done|].
    by eapply action_timeout_unregisters.
Qed.

Lemma resolve_iff_pending_witness :
  snd (builtin_actions.handle_user_response "r1" (JStr "yes") question_pending) = true
  ∧ builtin_actions.handle_user_response "r1" (JStr "again")
      (fst (builtin_actions.handle_user_response "r1" (JStr "yes") question_pending))
    = (fst (builtin_actions.handle_user_response "r1" (JStr "yes") question_pending), false)
  ∧ frontend_tool_response "A" [("toolCallId", JStr "r1"); ("success", JBool true)]
      question_pending
    = (question_pending, Return JNull).
Proof.
  destruct (resolve_iff_pending question_pending "r1" (JStr "yes") "A"
              [("toolCallId", JStr "r1"); ("success", JBool true)] eq_refl)
    as (Hiff & _ & _ & Hdup & _ & _ & _ & _ & Hunknown & _).
  split; [|split].
  - apply Hiff. exists 0%nat. split; vm_compute; reflexivity.
  - apply Hdup.
  - rewrite <- (Hunknown ltac:(vm_compute; reflexivity)) at 2.
    apply surjective_pairing.
Defined.

(** ** An empty answer *)

Lemma ask_finally_futures client_sid request_id s :
  futures (builtin_actions.ask_finally client_sid request_id s) = futures s.
Proof.
  unfold builtin_actions.ask_finally, builtin_actions.remove_active_speech_marker.
  repeat case_match; done.
Qed.

Lemma ask_finally_tasks client_sid request_id s :
  tasks (builtin_actions.ask_finally client_sid request_id s) = tasks s.
Proof.
  unfold builtin_actions.ask_finally, builtin_actions.remove_active_speech_marker.
  repeat case_match; done.
Qed.

(** C10.  A [user_response] event that names the id of a question still
    waiting for its answer but carries the empty string as the answer (or
    no answer at all) is dropped: the step returns the state it was given,
    although [handle_user_response] would have delivered it.  The asking
    coroutine therefore cannot be resumed with a value; when the timer of
    its [wait_for] fires it returns the failure "User did not respond
    within ... seconds", its future cancelled and its token removed. *)
Theorem empty_answer_is_dropped (e : env) (sid : string) (data : pydict) (s : state)
    (tid : nat) (client_sid request_id : string) (question timeout : json) (fut : nat) :
  dict_get "request_id" data JNull = JStr request_id →
  dict_get "response" data (JStr "") = JStr "" →
  tasks s !! tid = Some (Some (AskWait client_sid request_id question timeout fut)) →
  pending_user_responses s !! request_id = Some fut →
  futures s !! fut = Some Pending →
  builtin_actions.has_timer timeout = true →
  step e (UserResponse sid data) s = Some (s, Returned JNull)
  ∧ snd (builtin_actions.handle_user_response request_id (JStr "") s) = true
  ∧ (∀ e' v, step e' (Resume tid (OutOk v)) s = None)
  ∧ ∀ e', ∃ s',
      step e' (Resume tid (OutRaise TimeoutError)) s
      = Some (s', Returned
                    (JDict [("success", JBool false);
                            ("data",
                             JDict [("success", JBool false);
                                    ("error", JStr ("User did not respond within "
                                                    +:+ format timeout +:+ " seconds"));
                                    ("question", question)])]))
      ∧ tasks s' !! tid = Some None
      ∧ futures s' !! fut = Some Cancelled
      ∧ pending_user_responses s' !! request_id = None.
Proof.
  intros Hid Hempty Htask Htoken Hfut Htimer.
  assert (fut < length (futures s))%nat as Hlt by by eapply lookup_lt_Some.
  assert (tid < length (tasks s))%nat as Htid by by eapply lookup_lt_Some.
  split_and!.
  - simpl. unfold user_response. rewrite Hid, Hempty. simpl.
    by rewrite andb_false_r.
  - unfold builtin_actions.handle_user_response. by rewrite Htoken, Hfut.
  - intros e' v. simpl. rewrite Htask. simpl.
    unfold builtin_actions.ask_after_wait, wait_for. by rewrite Hfut.
  - intros e'. eexists. simpl. rewrite Htask. simpl.
    unfold builtin_actions.ask_after_wait, wait_for. rewrite Hfut, Htimer. simpl.
    split; [reflexivity|]. split_and!.
    + unfold_state. rewrite ask_finally_tasks. simpl.
      by apply list_lookup_insert_eq.
    + unfold_state. rewrite ask_finally_futures. simpl.
      by apply list_lookup_insert_eq.
    + unfold_state. apply ask_finally_unregisters.
Qed.

Lemma empty_answer_is_dropped_witness :
  step quiet (UserResponse "A" [("request_id", JStr "r1"); ("response", JStr "")])
    question_pending
  = Some (question_pending, Returned JNull)
  ∧ ∃ s', step quiet (Resume 0 (OutRaise TimeoutError)) question_pending
          = Some (s', Returned
                        (JDict [("success", JBool false);
                                ("data",
                                 JDict [("success", JBool false);
                                        ("error", JStr "User did not respond within 30 seconds");
                                        ("question", JStr "Proceed?")])]))
          ∧ futures s' !! 0%nat = Some Cancelled.
Proof.
  destruct (empty_answer_is_dropped quiet "A"
              [("request_id", JStr "r1"); ("response", JStr "")] question_pending
              0 "A" "r1" (JStr "Proceed?") (JNum 30) 0)
    as (Hdrop & _ & _ & Htimeout); try (vm_compute; reflexivity).
  split; [exact Hdrop|].
  destruct (Htimeout quiet) as (s' & Hstep & _ & Hcancelled & _).
  exists s'. split; [exact Hstep|exact Hcancelled].
Defined.

(** ** The reply of a generic action *)

(** C7.  A generic action has been dispatched under the token [t] and waits
    for its reply.  When the client's [frontend_tool_response] carrying
    [t], [success: true] and [result: r] arrives while the future is still
    pending (the 30 second timer has not fired), the handler completes the
    future, and the caller, once resumed, returns exactly
    [{"success": true, "data": r}].  The same holds when the reply overtakes
    the [sio.emit] that announced the call. *)
Theorem reply_reaches_caller (e1 e2 e3 : env) (s : state) (tid : nat) (t : string)
    (fut : nat) (sid : string) (data : pydict) (r v v' : json) :
  pending_tool_calls s !! t = Some fut →
  futures s !! fut = Some Pending →
  assoc "toolCallId" data = Some (JStr t) →
  assoc "success" data = Some (JBool true) →
  assoc "result" data = Some r →
  ∃ s1,
    step e1 (FrontendToolResponse sid data) s = Some (s1, Returned JNull)
    ∧ futures s1 !! fut = Some (Result (JDict data))
    ∧ (tasks s !! tid = Some (Some (ActionWait t fut)) →
       ∃ s2, step e2 (Resume tid (OutOk v)) s1
             = Some (s2, Returned (JDict [("success", JBool true); ("data", r)]))
             ∧ tasks s2 !! tid = Some None)
    ∧ (tasks s !! tid = Some (Some (ActionEmit t fut)) →
       ∃ s2 s3, step e2 (Resume tid (OutOk v)) s1 = Some (s2, Suspended tid)
                ∧ step e3 (Resume tid (OutOk v')) s2
                  = Some (s3, Returned (JDict [("success", JBool true); ("data", r)]))
                ∧ tasks s3 !! tid = Some None).
Proof.
  intros Htoken Hfut Hid Hsuccess Hresult.
  assert (fut < length (futures s))%nat as Hlt by by eapply lookup_lt_Some.
  eexists. split_and!.
  - simpl. unfold frontend_tool_response, dict_get. rewrite Hid, Htoken, Hfut. simpl.
    reflexivity.
  - unfold_state. by apply list_lookup_insert_eq.
  - intros Htask.
    assert (tid < length (tasks s))%nat as Htid by by eapply lookup_lt_Some.
    eexists. simpl. rewrite Htask. simpl.
    unfold action_after_wait, wait_for. simpl.
    rewrite list_lookup_insert_eq by done. simpl.
    unfold dict_get. rewrite Hsuccess, Hresult. split; [reflexivity|].
    simpl. by apply list_lookup_insert_eq.
  - intros Htask.
    assert (tid < length (tasks s))%nat as Htid by by eapply lookup_lt_Some.
    eexists _, _. simpl. rewrite Htask. simpl. split; [reflexivity|].
    simpl. rewrite list_lookup_insert_eq by done. simpl.
    unfold action_after_wait, wait_for. simpl.
    rewrite list_lookup_insert_eq by done. simpl.
    unfold dict_get. rewrite Hsuccess, Hresult. split; [reflexivity|].
    simpl. apply list_lookup_insert_eq. by rewrite length_insert.
Qed.

Lemma reply_reaches_caller_witness :
  tasks action_pending !! 0%nat = Some (Some (ActionWait "c1" 0))
  ∧ ∃ s1 s2,
      step quiet (FrontendToolResponse "A"
                    [("toolCallId", JStr "c1"); ("success", JBool true);
                     ("result", JDict [("id", JNum 7)])]) action_pending
      = Some (s1, Returned JNull)
      ∧ step quiet (Resume 0 (OutOk JNull)) s1
        = Some (s2, Returned (JDict [("success", JBool true);
                                     ("data", JDict [("id", JNum 7)])])).
Proof.
  assert (tasks action_pending !! 0%nat = Some (Some (ActionWait "c1" 0))) as Ht
    by (vm_compute; reflexivity).
  split; [exact Ht|].
  destruct (reply_reaches_caller quiet quiet quiet action_pending 0 "c1" 0 "A"
              [("toolCallId", JStr "c1"); ("success", JBool true);
               ("result", JDict [("id", JNum 7)])]
              (JDict [("id", JNum 7)]) JNull JNull)
    as (s1 & Hreply & _ & Hwait & _); try (vm_compute; reflexivity).
  destruct (Hwait Ht) as (s2 & Hresume & _).
  exists s1, s2. split; [exact Hreply|exact Hresume].
Defined.

(** ** The processing lock *)

Lemma get_or_create_session_frame e sid s :
  agent_processing_lock (snd (session_manager.get_or_create_session e sid s))
  = agent_processing_lock s
  ∧ tasks (snd (session_manager.get_or_create_session e sid s)) = tasks s.
Proof.
  unfold session_manager.get_or_create_session, session_manager.get_session,
    session_manager.create_session.
  repeat (case_match; simplify_eq/=); done.
Qed.

Lemma turn_except_lock sid ex s :
  match snd (turn_except sid ex s) with
  | Await t' =>
      t' = TurnEmitError sid
      ∧ agent_processing_lock (fst (turn_except sid ex s)) = agent_processing_lock s
      ∧ tasks (fst (turn_except sid ex s)) = tasks s
  | _ => agent_processing_lock (fst (turn_except sid ex s)) !! sid = Some false
         ∧ tasks (fst (turn_except sid ex s)) = tasks s
  end.
Proof.
  unfold turn_except. destruct (is_Exception ex); simpl; [done|].
  split; [apply lookup_insert_eq|done].
Qed.

(** One resumption of a turn: it moves on to a later [await] of the same
    turn with the lock as it was, or it leaves with the lock released. *)
Lemma turn_continue e t out s sid :
  turn_of t = Some sid →
  ∃ s' c, continue e t out s = Some (s', c)
          ∧ match c with
            | Await t' =>
                turn_of t' = Some sid ∧ (turn_rank t' < turn_rank t)%nat
                ∧ agent_processing_lock s' = agent_processing_lock s
            | _ => agent_processing_lock s' !! sid = Some false
            end.
Proof.
  intros Ht.
  destruct t; simplify_eq/=; destruct out as [v|ex]; simpl;
    try (pose proof (turn_except_lock sid ex s) as Hex;
         destruct (turn_except sid ex s) as [s1 [v1|ex1|t1]]; simpl in Hex;
         eexists _, _; (split; [reflexivity|]); simpl;
         first [by destruct Hex | destruct Hex as (-> & ? & ?); simpl; split_and!; [done|lia|done]]);
    eexists _, _; (split; [reflexivity|]); simpl;
    first [apply lookup_insert_eq | split_and!; [done|lia|done]].
Qed.

(** C9.  A [user_prompt] that carries a prompt and arrives while the
    peer's processing lock is held starts nothing: the step returns at
    once, it adds the [agent_busy] notification for that peer to what is
    emitted (no [agent_response] error) and changes nothing else, so no
    coroutine is added to the loop.  A prompt that finds the lock free
    takes it before it first suspends.  Every resumption of a turn, whatever
    the awaited operation came back with, either passes to a later [await]
    of the same turn or leaves with the lock set to [False]. *)
Theorem second_turn_is_rejected (e : env) (sid : string) (data : pydict) (s : state) :
  truthy (dict_get "prompt" data (JStr "")) = true →
  (agent_processing_lock s !! sid = Some true →
     step e (UserPrompt sid data) s
     = Some (set_emitted
               (emitted s
                ++ [Emit "agent_busy"
                      (JDict [("message",
                               JStr "Agent is currently processing. Please wait...")])
                      sid]) s,
             Returned JNull))
  ∧ (default false (agent_processing_lock s !! sid) = false →
     ∃ s' r, step e (UserPrompt sid data) s = Some (s', r)
             ∧ match r with
               | Suspended tid =>
                   tid = length (tasks s)
                   ∧ (∃ t, tasks s' !! tid = Some (Some t) ∧ turn_of t = Some sid)
                   ∧ agent_processing_lock s' !! sid = Some true
               | _ => agent_processing_lock s' !! sid = Some false
               end)
  ∧ (∀ t out s0, turn_of t = Some sid →
       ∃ s' c, continue e t out s0 = Some (s', c)
               ∧ match c with
                 | Await t' =>
                     turn_of t' = Some sid ∧ (turn_rank t' < turn_rank t)%nat
                     ∧ agent_processing_lock s' = agent_processing_lock s0
                 | _ => agent_processing_lock s' !! sid = Some false
                 end).
Proof.
  intros Hprompt. split_and!.
  - intros Hheld. simpl. unfold user_prompt. by rewrite Hprompt, Hheld.
  - intros Hfree. simpl. unfold user_prompt. rewrite Hprompt, Hfree. simpl.
    set (s1 := set_agent_processing_lock _ s).
    pose proof (get_or_create_session_frame e sid s1) as [Hlock Htasks].
    destruct (session_manager.get_or_create_session e sid s1) as [rsid s2].
    simpl in Hlock, Htasks.
    assert (agent_processing_lock s2 !! sid = Some true) as Htaken.
    { rewrite Hlock. apply lookup_insert_eq. }
    assert (∀ ex, ∃ s' r, started (turn_except sid ex s2) = (s', r)
              ∧ match r with
                | Suspended tid =>
                    tid = length (tasks s)
                    ∧ (∃ t, tasks s' !! tid = Some (Some t) ∧ turn_of t = Some sid)
                    ∧ agent_processing_lock s' !! sid = Some true
                | _ => agent_processing_lock s' !! sid = Some false
                end) as Hexcept.
    { intros ex. pose proof (turn_except_lock sid ex s2) as Hex.
      destruct (turn_except sid ex s2) as [s3 [v|ex'|t]]; simpl in *;
        eexists _, _; (split; [reflexivity|]); simpl; [by destruct Hex..|].
      destruct Hex as (-> & -> & ->). rewrite Htasks.
      split_and!; [done| |done].
      eexists. split; [by apply list_lookup_middle|done]. }
    destruct (negb (nonempty (AGENT_RUNTIME_ARN e))).
    { destruct (Hexcept (ValueError "AGENT_RUNTIME_ARN not configured in .env file"))
        as (s' & r & -> & Hr). eauto. }
    destruct (boto3_client e) as [ex|].
    { destruct (Hexcept ex) as (s' & r & -> & Hr). eauto. }
    eexists _, _. split; [reflexivity|]. simpl. rewrite Htasks.
    split_and!; [done| |done].
    eexists. split; [by apply list_lookup_middle|done].
  - intros t out s0 Ht. by apply turn_continue.
Qed.

Lemma second_turn_is_rejected_witness :
  tasks turn_running = [Some (TurnInvoke "A")]
  ∧ (∃ s', step quiet (UserPrompt "A" [("prompt", JStr "And tomorrow?")]) turn_running
           = Some (s', Returned JNull)
           ∧ tasks s' = [Some (TurnInvoke "A")]
           ∧ last (emitted s')
             = Some (Emit "agent_busy"
                       (JDict [("message",
                                JStr "Agent is currently processing. Please wait...")])
                       "A"))
  ∧ ∃ s' c, continue quiet (TurnEmitError "A") (OutRaise (OtherError "socket closed"))
              turn_running = Some (s', c)
            ∧ exits c = true
            ∧ agent_processing_lock s' !! "A" = Some false.
Proof.
  destruct (second_turn_is_rejected quiet "A" [("prompt", JStr "And tomorrow?")]
              turn_running eq_refl) as (Hbusy & _ & Hturn).
  split; [vm_compute; reflexivity|]. split.
  - eexists. split; [apply Hbusy; vm_compute; reflexivity|].
    split; vm_compute; reflexivity.
  - destruct (Hturn (TurnEmitError "A") (OutRaise (OtherError "socket closed"))
                turn_running eq_refl) as (s' & c & Hc & Hlock).
    exists s', c. split; [exact Hc|].
    assert (exits c = true) as Hx by (vm_compute in Hc; by simplify_eq).
    split; [exact Hx|]. by destruct c.
Defined.

(** ** Disconnect *)

Lemma session_frame e sid s :
  let s1 := snd (session_manager.get_session e sid s) in
  let s2 := snd (session_manager.remove_session sid s) in
  (connected_clients s1 = connected_clients s
   ∧ agent_processing_lock s1 = agent_processing_lock s
   ∧ pending_tool_calls s1 = pending_tool_calls s
   ∧ pending_speech_completions s1 = pending_speech_completions s
   ∧ pending_user_responses s1 = pending_user_responses s
   ∧ active_speech_per_client s1 = active_speech_per_client s
   ∧ futures s1 = futures s ∧ tasks s1 = tasks s)
  ∧ (connected_clients s2 = connected_clients s
     ∧ agent_processing_lock s2 = agent_processing_lock s
     ∧ pending_tool_calls s2 = pending_tool_calls s
     ∧ pending_speech_completions s2 = pending_speech_completions s
     ∧ pending_user_responses s2 = pending_user_responses s
     ∧ active_speech_per_client s2 = active_speech_per_client s
     ∧ futures s2 = futures s ∧ tasks s2 = tasks s
     ∧ sessions s2 !! sid = None).
Proof.
  unfold session_manager.get_session, session_manager.remove_session.
  destruct (sessions s !! sid) eqn:Hs; simpl; split_and!; try done.
  apply lookup_delete_eq.
Qed.

(** C1, as the code has it.  The disconnect handler takes the peer out of
    the set of connected clients and deletes its entry of the processing
    lock; when it runs to its end it also removes the peer's session.  It
    leaves the three pending tables, the active-speech markers and all
    futures as they were, and every suspended coroutine stays suspended: no
    token is unregistered, the busy guard is not freed and no waiting task
    is cancelled. *)
Theorem disconnect_releases_the_lock_only (e : env) (sid : string) (s : state) :
  ∃ s' r,
    step e (Disconnect sid) s = Some (s', r)
    ∧ (sid ∉ connected_clients s')
    ∧ agent_processing_lock s' !! sid = None
    ∧ broker_part s' = broker_part s
    ∧ (∀ tid t, tasks s !! tid = Some t → tasks s' !! tid = Some t)
    ∧ match r with
      | Returned _ => sessions s' !! sid = None ∧ tasks s' = tasks s
      | Raised _ => tasks s' = tasks s
      | Suspended tid =>
          tasks s' !! tid = Some (Some (DisconnectStop sid))
          ∧ ∀ out, ∃ s'' r',
              step e (Resume tid out) s' = Some (s'', r')
              ∧ broker_part s'' = broker_part s
              ∧ agent_processing_lock s'' = agent_processing_lock s'
              ∧ (∀ tid' t, tasks s !! tid' = Some t → tasks s'' !! tid' = Some t)
              ∧ ((∃ v, r' = Returned v) → sessions s'' !! sid = None)
      end.
Proof.
  simpl. unfold disconnect.
  set (s1 := set_agent_processing_lock _ _).
  pose proof (session_frame e sid s1) as [Hget _].
  destruct (session_manager.get_session e sid s1) as [rsid s3]. simpl in Hget.
  destruct Hget as (Hc & Hl & Ht & Hs & Hu & Ha & Hf & Hk).
  pose proof (session_frame e sid s3) as [_ Hrem]. simpl in Hrem.
  destruct Hrem as (Hc' & Hl' & Ht' & Hs' & Hu' & Ha' & Hf' & Hk' & Hgone).
  assert (sid ∉ connected_clients s3) as Hout.
  { rewrite Hc. simpl. apply not_elem_of_difference. right. by apply elem_of_singleton. }
  assert (agent_processing_lock s3 !! sid = None) as Hlock.
  { rewrite Hl. subst s1. simpl. apply lookup_delete_eq. }
  assert (broker_part s3 = broker_part s) as Hb.
  { unfold broker_part. by rewrite Ht, Hs, Hu, Ha, Hf. }
  assert (broker_part (snd (session_manager.remove_session sid s3)) = broker_part s) as Hb'.
  { rewrite <- Hb. unfold broker_part. by rewrite Ht', Hs', Hu', Ha', Hf'. }
  assert (tasks s3 = tasks s) as Hk0 by by rewrite Hk.
  assert (∃ s' r,
            started (snd (session_manager.remove_session sid s3), Return JNull) = (s', r)
            ∧ (sid ∉ connected_clients s')
            ∧ agent_processing_lock s' !! sid = None
            ∧ broker_part s' = broker_part s
            ∧ (∀ tid t, tasks s !! tid = Some t → tasks s' !! tid = Some t)
            ∧ match r with
              | Returned _ => sessions s' !! sid = None ∧ tasks s' = tasks s
              | Raised _ => tasks s' = tasks s
              | Suspended tid => False
              end) as Hend.
  { eexists _, _. split; [reflexivity|]. simpl.
    rewrite Hc', Hl', Hk', Hk0. split_and!; done. }
  destruct (nonempty rsid && nonempty (AGENT_RUNTIME_ARN e)).
  2:{ destruct Hend as (s' & r & -> & ? & ? & ? & ? & Hr).
      eexists _, _. split; [reflexivity|]. split_and!; try done. by destruct r. }
  destruct (boto3_client e) as [ex|].
  { destruct (is_Exception ex).
    - destruct Hend as (s' & r & -> & ? & ? & ? & ? & Hr).
      eexists _, _. split; [reflexivity|]. split_and!; try done. by destruct r.
    - eexists _, _. split; [reflexivity|]. simpl. split_and!; try done.
      intros tid t. by rewrite Hk0. }
  eexists _, _. split; [reflexivity|]. simpl. rewrite Hk0.
  split_and!; try done.
  { intros tid t Hl0. by apply lookup_app_l_Some. }
  { by apply list_lookup_middle. }
  intros out. rewrite list_lookup_middle by done. simpl.
  set (s4 := set_tasks _ s3).
  pose proof (session_frame e sid s4) as [_ Hrem4]. simpl in Hrem4.
  destruct Hrem4 as (_ & Hl4 & Ht4 & Hs4 & Hu4 & Ha4 & Hf4 & Hk4 & Hgone4).
  assert (broker_part s4 = broker_part s) as Hb4 by exact Hb.
  assert (broker_part (snd (session_manager.remove_session sid s4)) = broker_part s) as Hb5.
  { rewrite <- Hb4. unfold broker_part. by rewrite Ht4, Hs4, Hu4, Ha4, Hf4. }
  assert (∀ x tid' t, tasks s !! tid' = Some t →
            <[length (tasks s) := x]> (tasks s ++ [Some (DisconnectStop sid)])%list
              !! tid' = Some t) as Hkeep.
  { intros x tid' t Hl0. rewrite list_lookup_insert_ne.
    - by apply lookup_app_l_Some.
    - apply lookup_lt_Some in Hl0. lia. }
  unfold disconnect_after_stop.
  destruct out as [v|ex]; [|destruct (is_Exception ex)];
    eexists _, _; (split; [reflexivity|]); simpl; rewrite ?Hk4, ?Hl4; simpl;
    (split_and!; [done|done|intros; by apply Hkeep|]).
  - done.
  - done.
  - by intros [? [=]].
Qed.

Lemma disconnect_releases_the_lock_only_witness :
  ∃ s', step quiet (Disconnect "A") turn_running = Some (s', Suspended 1)
        ∧ agent_processing_lock turn_running !! "A" = Some true
        ∧ agent_processing_lock s' !! "A" = None
        ∧ tasks s' !! 0%nat = Some (Some (TurnInvoke "A")).
Proof.
  destruct (disconnect_releases_the_lock_only quiet "A" turn_running)
    as (s' & r & Hstep & _ & Hlock & _ & Hkeep & _).
  exists s'.
  assert (r = Suspended 1) as -> by (vm_compute in Hstep; by simplify_eq).
  split; [exact Hstep|]. split; [vm_compute; reflexivity|]. split; [exact Hlock|].
  apply Hkeep. vm_compute; reflexivity.
Defined.

(** C1, as the specification has it, fails: the peer ["A"] disconnects while
    its question ["r1"] waits for an answer.  Afterwards the token is still
    registered, the marker still names ["r1"], the future is still pending
    (not cancelled) and the asking coroutine is still suspended. *)
Lemma disconnect_cancels_nothing :
  tasks question_pending !! 0%nat
    = Some (Some (AskWait "A" "r1" (JStr "Proceed?") (JNum 30) 0))
  ∧ ∃ s', step quiet (Disconnect "A") question_pending = Some (s', Returned JNull)
          ∧ ("A" ∉ connected_clients s')
          ∧ pending_user_responses s' !! "r1" = Some 0%nat
          ∧ active_speech_per_client s' !! "A" = Some "r1"
          ∧ futures s' !! 0%nat = Some Pending
          ∧ tasks s' !! 0%nat
            = Some (Some (AskWait "A" "r1" (JStr "Proceed?") (JNum 30) 0)).
Proof.
  split; [vm_compute; reflexivity|].
  eexists. split; [vm_compute; reflexivity|].
  split; [|split_and!; vm_compute; reflexivity].
  vm_compute. discriminate.
Defined.

(** ** What a failed round trip returns *)

(** C4, as the code has it.  A built-in call that lacks its text, finds the
    marker held, or gets no audio returns [{"success": false, "error": ...}]
    at once, and so does an [ask_user] whose timer fires; the caller of
    [handle_builtin_action] receives that result as the ["data"] of
    [{"success": false, "data": ...}].  A [speak_to_user] whose 60 second
    wait times out returns the result of a completed speech, with
    [success: true].  A generic action whose 30 second wait times out ends
    in a raised HTTP error instead of a result, its token removed.  In each
    case the coroutine leaves at the step where its timer fires. *)
Theorem failures_as_reported (e : env) (s : state) (client_sid : string)
    (parameters : pydict) :
  (truthy (dict_get "message" parameters (JStr "")) = false →
     builtin_actions.handle_speak_to_user e client_sid (JDict parameters) s
     = (s, Return (builtin_actions.failure "Missing 'message' parameter")))
  ∧ (truthy (dict_get "question" parameters (JStr "")) = false →
     builtin_actions.handle_ask_user e client_sid (JDict parameters) s
     = (s, Return (builtin_actions.failure "Missing 'question' parameter")))
  ∧ (∀ holder,
       active_speech_per_client s !! client_sid = Some holder →
       (truthy (dict_get "message" parameters (JStr "")) = true →
        builtin_actions.handle_speak_to_user e client_sid (JDict parameters) s
        = (s, Return (builtin_actions.already_in_progress holder)))
       ∧ (truthy (dict_get "question" parameters (JStr "")) = true →
          builtin_actions.handle_ask_user e client_sid (JDict parameters) s
          = (s, Return (builtin_actions.already_in_progress holder))))
  ∧ (active_speech_per_client s !! client_sid = None →
     nonempty (generated_speech e) = false →
     (truthy (dict_get "message" parameters (JStr "")) = true →
      builtin_actions.handle_speak_to_user e client_sid (JDict parameters) s
      = (s, Return (builtin_actions.failure "Failed to generate speech")))
     ∧ (truthy (dict_get "question" parameters (JStr "")) = true →
        builtin_actions.handle_ask_user e client_sid (JDict parameters) s
        = (s, Return (builtin_actions.failure "Failed to generate speech for question"))))
  ∧ (∀ error,
       builtin_actions.builtin_return (Return (builtin_actions.failure error))
       = Return (JDict [("success", JBool false);
                        ("data", JDict [("success", JBool false); ("error", JStr error)])]))
  ∧ (∀ id question timeout fut,
       futures s !! fut = Some Pending →
       builtin_actions.has_timer timeout = true →
       ∃ s', continue e (AskWait client_sid id question timeout fut)
               (OutRaise TimeoutError) s
             = Some (s', Return
                           (JDict [("success", JBool false);
                                   ("data",
                                    JDict [("success", JBool false);
                                           ("error",
                                            JStr ("User did not respond within "
                                                  +:+ format timeout +:+ " seconds"));
                                           ("question", question)])])))
  ∧ (∀ id message fut,
       futures s !! fut = Some Pending →
       ∃ s', continue e (SpeakWait client_sid id message fut) (OutRaise TimeoutError) s
             = Some (s', Return
                           (JDict [("success", JBool true);
                                   ("data", builtin_actions.speak_result message id)])))
  ∧ (∀ tool_call_id fut,
       futures s !! fut = Some Pending →
       ∃ s' status_code detail,
         continue e (ActionWait tool_call_id fut) (OutRaise TimeoutError) s
         = Some (s', Raise (HTTPException status_code detail))
         ∧ pending_tool_calls s' !! tool_call_id = None).
Proof.
  split_and!.
  - intros H. unfold builtin_actions.handle_speak_to_user. by rewrite H.
  - intros H. unfold builtin_actions.handle_ask_user. by rewrite H.
  - intros holder Hheld. split; intros H.
    + unfold builtin_actions.handle_speak_to_user. by rewrite H, Hheld.
    + unfold builtin_actions.handle_ask_user. by rewrite H, Hheld.
  - intros Hfree Haudio. split; intros H.
    + unfold builtin_actions.handle_speak_to_user. by rewrite H, Hfree, Haudio.
    + unfold builtin_actions.handle_ask_user. by rewrite H, Hfree, Haudio.
  - done.
  - intros id question timeout fut Hfut Htimer. eexists. simpl.
    unfold builtin_actions.ask_after_wait, wait_for. rewrite Hfut, Htimer. simpl.
    reflexivity.
  - intros id message fut Hfut. eexists. simpl.
    unfold builtin_actions.speak_after_wait, wait_for. rewrite Hfut. simpl.
    reflexivity.
  - intros tool_call_id fut Hfut. eexists _, _, _. simpl.
    unfold action_after_wait, wait_for. rewrite Hfut. simpl.
    split; [reflexivity|]. simpl. apply lookup_delete_eq.
Qed.

Lemma failures_as_reported_witness :
  builtin_actions.handle_ask_user quiet "A" (JDict [("question", JStr "Again?")])
    speech_playing
  = (speech_playing,
     Return (builtin_actions.failure
               "Speech already in progress (ID: s1). Please wait for it to complete."))
  ∧ ∃ s', continue quiet (ActionWait "c1" 0) (OutRaise TimeoutError) action_pending
          = Some (s', Raise (HTTPException 500 "504: Frontend action timed out")).
Proof.
  destruct (failures_as_reported quiet speech_playing "A" [("question", JStr "Again?")])
    as (_ & _ & Hbusy & _).
  destruct (failures_as_reported quiet action_pending "A" [])
    as (_ & _ & _ & _ & _ & _ & _ & Haction).
  split.
  - apply (Hbusy "s1"); vm_compute; reflexivity.
  - destruct (Haction "c1" 0%nat) as (s' & status_code & detail & Hc & _);
      [vm_compute; reflexivity|].
    exists s'. rewrite Hc. vm_compute in Hc. by simplify_eq.
Defined.

(** C4, as the specification has it, fails: the completion of the speech
    ["s1"] is not acknowledged, the 60 second timer fires, and the caller is
    returned a result whose [success] is [true]. *)
Lemma speech_timeout_reports_success :
  tasks speech_playing !! 0%nat = Some (Some (SpeakWait "A" "s1" (JStr "Hello") 0))
  ∧ futures speech_playing !! 0%nat = Some Pending
  ∧ ∃ s', step quiet (Resume 0 (OutRaise TimeoutError)) speech_playing
          = Some (s', Returned
                        (JDict [("success", JBool true);
                                ("data",
                                 JDict [("success", JBool true); ("end_turn", JBool true);
                                        ("message", JStr "Speech sent to user");
                                        ("text", JStr "Hello");
                                        ("speech_id", JStr "s1")])])).
Proof.
  split; [vm_compute; reflexivity|]. split; [vm_compute; reflexivity|].
  eexists. vm_compute. reflexivity.
Defined.

(** ** Registering a pending request *)

(** C5, as the code has it.  Registration has no failure: the dispatch of a
    generic action, and likewise an [ask_user] that got its audio, creates
    one new pending future and stores it under the generated id with a
    plain assignment.  For an id that is not in the table this adds exactly
    one entry and leaves the others alone; for an id that is already there
    the entry is replaced by the new future and the table keeps its size. *)
Theorem registration_assigns (e : env) (payload : pydict) (s : state)
    (client_sid : string) :
  truthy (dict_get "action" payload JNull) = true →
  client_sid ∈ connected_clients s →
  (builtin_actions.handle_builtin_action e (dict_get "action" payload JNull) client_sid
     (dict_get "parameters" payload (JDict [])) s = None →
   ∃ s', frontend_action e client_sid payload s
         = (s', Await (ActionEmit (uuid4 e) (length (futures s))))
         ∧ futures s' = (futures s ++ [Pending])%list
         ∧ pending_tool_calls s'
           = <[uuid4 e := length (futures s)]> (pending_tool_calls s)
         ∧ pending_tool_calls s' !! uuid4 e = Some (length (futures s))
         ∧ futures s' !! length (futures s) = Some Pending
         ∧ (∀ k, k ≠ uuid4 e → pending_tool_calls s' !! k = pending_tool_calls s !! k)
         ∧ size (pending_tool_calls s')
           = match pending_tool_calls s !! uuid4 e with
             | Some _ => size (pending_tool_calls s)
             | None => S (size (pending_tool_calls s))
             end)
  ∧ (∀ parameters,
       truthy (dict_get "question" parameters (JStr "")) = true →
       active_speech_per_client s !! client_sid = None →
       nonempty (generated_speech e) = true →
       ∃ s', builtin_actions.handle_ask_user e client_sid (JDict parameters) s
             = (s', Await (AskEmit client_sid (uuid4 e)
                             (dict_get "question" parameters (JStr ""))
                             (dict_get "timeout" parameters (JNum 30))
                             (length (futures s))))
             ∧ futures s' = (futures s ++ [Pending])%list
             ∧ pending_user_responses s'
               = <[uuid4 e := length (futures s)]> (pending_user_responses s)
             ∧ size (pending_user_responses s')
               = match pending_user_responses s !! uuid4 e with
                 | Some _ => size (pending_user_responses s)
                 | None => S (size (pending_user_responses s))
                 end).
Proof.
  intros Haction Hpeer. split.
  - intros Hgeneric. unfold frontend_action.
    rewrite Haction, Hgeneric. simpl.
    rewrite decide_False by by eapply member_not_empty.
    eexists. split; [reflexivity|]. simpl. split_and!; try done.
    + apply lookup_insert_eq.
    + by apply list_lookup_middle.
    + intros k Hk. by apply lookup_insert_ne.
    + rewrite map_size_insert. by destruct (pending_tool_calls s !! uuid4 e).
  - intros parameters Hq Hfree Haudio.
    unfold builtin_actions.handle_ask_user. rewrite Hq, Hfree, Haudio. simpl.
    eexists. split; [reflexivity|]. simpl. split_and!; try done.
    rewrite map_size_insert. by destruct (pending_user_responses s !! uuid4 e).
Qed.

Lemma registration_assigns_witness :
  ∃ s', frontend_action quiet "A"
          [("action", JStr "create_task");
           ("parameters", JDict [("title", JStr "Write report")])] action_pending
        = (s', Await (ActionEmit "r2" 1))
        ∧ size (pending_tool_calls s') = 2%nat.
Proof.
  destruct (registration_assigns quiet
              [("action", JStr "create_task");
               ("parameters", JDict [("title", JStr "Write report")])]
              action_pending "A" eq_refl ltac:(vm_compute; reflexivity))
    as [Hgeneric _].
  destruct (Hgeneric ltac:(vm_compute; reflexivity))
    as (s' & Hrun & _ & _ & _ & _ & _ & Hsize).
  exists s'. split; [exact Hrun|]. rewrite Hsize. vm_compute. reflexivity.
Defined.

(** C5, as the specification has it, fails: the token ["c1"] is registered
    with the future 0, and a second dispatch draws ["c1"] again.  The call
    is not refused: it suspends like any other, and the table now maps
    ["c1"] to the new future 1. *)
Lemma duplicate_token_is_accepted :
  pending_tool_calls action_pending !! "c1" = Some 0%nat
  ∧ ∃ s', step dispatch create_task action_pending = Some (s', Suspended 1)
          ∧ pending_tool_calls s' !! "c1" = Some 1%nat
          ∧ size (pending_tool_calls s') = 1%nat
          ∧ futures s' = [Pending; Pending]
          ∧ tasks s' = [Some (ActionWait "c1" 0); Some (ActionEmit "c1" 1)].
Proof.
  split; [vm_compute; reflexivity|].
  eexists. split; [vm_compute; reflexivity|].
  split_and!; vm_compute; reflexivity.
Defined.

(** * Further properties of the code *)

(** ** Sessions *)

Lemma nonempty_Some_inv o : nonempty o = true → ∃ x, o = Some x ∧ x ≠ "".
Proof.
  destruct o as [x|]; simpl; [|done]. intros Hx. exists x. split; [done|].
  intros ->. done.
Qed.

(** What [get_or_create_session] leaves behind: the id it returns is not
    empty and is the one stored for the socket, touched at the current
    time; the sessions of the other sockets are as they were. *)
Lemma get_or_create_session_post e socket_id s :
  ∃ ses,
    sessions (snd (session_manager.get_or_create_session e socket_id s)) !! socket_id
    = Some ses
    ∧ runtime_session_id ses = fst (session_manager.get_or_create_session e socket_id s)
    ∧ runtime_session_id ses ≠ ""
    ∧ last_activity ses = now e
    ∧ (∀ old, sessions s !! socket_id = Some old → runtime_session_id old ≠ "" →
         runtime_session_id ses = runtime_session_id old
         ∧ created_at ses = created_at old)
    ∧ ∀ other, other ≠ socket_id →
        sessions (snd (session_manager.get_or_create_session e socket_id s)) !! other
        = sessions s !! other.
Proof.
  unfold session_manager.get_or_create_session, session_manager.get_session,
    session_manager.create_session.
  destruct (sessions s !! socket_id) as [old|] eqn:Hold; simpl.
  - destruct (String.eqb_spec (runtime_session_id old) "") as [Hempty|Hfull]; simpl.
    + eexists. rewrite lookup_insert_eq. split_and!; try done.
      * intros old' [= <-] Hne. by destruct Hne.
      * intros other Hother. by rewrite !lookup_insert_ne.
    + eexists. rewrite lookup_insert_eq. split_and!; try done.
      * by intros old' [= <-] _.
      * intros other Hother. by rewrite lookup_insert_ne.
  - eexists. rewrite lookup_insert_eq. split_and!; try done.
    intros other Hother. by rewrite lookup_insert_ne.
Qed.

(** X1.  Asking twice for the session of a socket gives the same runtime
    session id: the second [get_or_create_session] creates nothing, it
    returns the id the first one returned and only moves the time of the
    last activity; [get_session] returns that id too, and the sessions of
    the other sockets are not touched. *)
Theorem session_is_kept (e1 e2 : env) (socket_id : string) (s : state) :
  let r1 := session_manager.get_or_create_session e1 socket_id s in
  let r2 := session_manager.get_or_create_session e2 socket_id (snd r1) in
  fst r2 = fst r1
  ∧ fst r1 ≠ ""
  ∧ fst (session_manager.get_session e2 socket_id (snd r1)) = Some (fst r1)
  ∧ (∃ ses1 ses2,
       sessions (snd r1) !! socket_id = Some ses1
       ∧ sessions (snd r2) !! socket_id = Some ses2
       ∧ runtime_session_id ses2 = runtime_session_id ses1
       ∧ created_at ses2 = created_at ses1
       ∧ last_activity ses2 = now e2)
  ∧ ∀ other, other ≠ socket_id → sessions (snd r2) !! other = sessions s !! other.
Proof.
  intros r1 r2.
  destruct (get_or_create_session_post e1 socket_id s)
    as (ses1 & Hs1 & Hid1 & Hne1 & _ & _ & Hother1). fold r1 in Hs1, Hid1, Hother1.
  destruct (get_or_create_session_post e2 socket_id (snd r1))
    as (ses2 & Hs2 & Hid2 & Hne2 & Hlast2 & Hkeep & Hother2).
  fold r2 in Hs2, Hid2, Hother2.
  destruct (Hkeep ses1 Hs1 Hne1) as [Hsame Hcreated].
  split_and!.
  - congruence.
  - congruence.
  - unfold session_manager.get_session. rewrite Hs1. simpl. congruence.
  - exists ses1, ses2. split_and!; done.
  - intros other Hother. rewrite Hother2, Hother1; done.
Qed.

(** X2.  Removing the session of a socket returns the runtime session id
    that was stored for it and forgets it: afterwards [get_session] finds
    nothing, a second removal returns [None] and changes nothing, and a new
    [get_or_create_session] creates a session anew.  The sessions of the
    other sockets stay. *)
Theorem session_removal (e : env) (socket_id : string) (s : state) (ses : session) :
  sessions s !! socket_id = Some ses →
  let r := session_manager.remove_session socket_id s in
  fst r = Some (runtime_session_id ses)
  ∧ session_manager.get_session e socket_id (snd r) = (None, snd r)
  ∧ session_manager.remove_session socket_id (snd r) = (None, snd r)
  ∧ fst (session_manager.get_or_create_session e socket_id (snd r))
    = "session_" +:+ uuid4_hex e +:+ "_" +:+ pretty (now e)
  ∧ ∀ other, other ≠ socket_id → sessions (snd r) !! other = sessions s !! other.
Proof.
  intros Hses r.
  assert (r = (Some (runtime_session_id ses),
               set_sessions (delete socket_id (sessions s)) s)) as ->.
  { subst r. unfold session_manager.remove_session. by rewrite Hses. }
  simpl.
  assert (delete socket_id (sessions s) !! socket_id = None) as Hgone
    by apply lookup_delete_eq.
  split_and!.
  - done.
  - unfold session_manager.get_session. simpl. by rewrite Hgone.
  - unfold session_manager.remove_session. simpl. by rewrite Hgone.
  - unfold session_manager.get_or_create_session, session_manager.get_session. simpl.
    by rewrite Hgone.
  - intros other Hother. by rewrite lookup_delete_ne.
Qed.

Lemma session_removal_witness :
  let s := snd (session_manager.get_or_create_session quiet "A" initial) in
  fst (session_manager.remove_session "A" s) = Some "session_0f_1700000000"
  ∧ session_manager.get_session quiet "A" (snd (session_manager.remove_session "A" s))
    = (None, snd (session_manager.remove_session "A" s)).
Proof.
  intros s.
  destruct (session_removal quiet "A" s
              (Session "session_0f_1700000000" 1700000000 1700000000))
    as (Hid & Hget & _); [vm_compute; reflexivity|].
  split; [exact Hid|exact Hget].
Defined.

Lemma remove_session_sessions socket_id s k :
  sessions (snd (session_manager.remove_session socket_id s)) !! k
  = delete socket_id (sessions s) !! k.
Proof.
  unfold session_manager.remove_session.
  destruct (sessions s !! socket_id) eqn:Hs; simpl; [done|].
  destruct (decide (socket_id = k)) as [->|Hne].
  - by rewrite lookup_delete_eq.
  - by rewrite lookup_delete_ne.
Qed.

Lemma remove_session_frame socket_id s :
  snd (session_manager.remove_session socket_id s)
  = set_sessions (sessions (snd (session_manager.remove_session socket_id s))) s.
Proof.
  unfold session_manager.remove_session.
  destruct (sessions s !! socket_id); simpl; [done|]. by destruct s.
Qed.

Lemma remove_sessions_lookup (l : list string) s k :
  sessions (foldl (λ s' socket_id, snd (session_manager.remove_session socket_id s')) s l)
    !! k
  = if bool_decide (k ∈ l) then None else sessions s !! k.
Proof.
  revert s. induction l as [|x l IH]; intros s.
  - case_bool_decide as Hin; [by apply elem_of_nil in Hin|done].
  - change (foldl ?f s (x :: l)) with (foldl f (f s x) l).
    rewrite IH, remove_session_sessions.
    destruct (decide (x = k)) as [->|Hne].
    + rewrite lookup_delete_eq.
      rewrite (bool_decide_eq_true_2 (k ∈ k :: l)) by (apply elem_of_cons; by left).
      by case_bool_decide.
    + rewrite lookup_delete_ne by done.
      destruct (decide (k ∈ l)) as [Hin|Hout].
      * rewrite !bool_decide_eq_true_2; [done| |done]. apply elem_of_cons. by right.
      * rewrite !bool_decide_eq_false_2; [done| |done].
        intros [?|?]%elem_of_cons; congruence.
Qed.

Lemma remove_sessions_frame (l : list string) s :
  foldl (λ s' socket_id, snd (session_manager.remove_session socket_id s')) s l
  = set_sessions
      (sessions
         (foldl (λ s' socket_id, snd (session_manager.remove_session socket_id s')) s l))
      s.
Proof.
  revert s. induction l as [|x l IH]; intros s.
  - by destruct s.
  - change (foldl ?f s (x :: l)) with (foldl f (f s x) l). cbv beta.
    rewrite IH at 1. generalize (sessions (foldl
      (λ s' socket_id, snd (session_manager.remove_session socket_id s'))
      (snd (session_manager.remove_session x s)) l)). intros m.
    by rewrite (remove_session_frame x s).
Qed.

(** X3.  [cleanup_stale_sessions] removes exactly the sessions whose last
    activity lies more than [max_age_seconds] before the current time: a
    session that is exactly [max_age_seconds] old, or younger, stays as it
    was, and nothing but the session table changes. *)
Theorem cleanup_removes_the_stale (e : env) (max_age_seconds : Z) (s : state)
    (socket_id : string) :
  let s' := session_manager.cleanup_stale_sessions e max_age_seconds s in
  sessions s' !! socket_id
  = match sessions s !! socket_id with
    | Some ses =>
        if bool_decide (now e - last_activity ses > max_age_seconds) then None
        else Some ses
    | None => None
    end
  ∧ s' = set_sessions (sessions s') s.
Proof.
  intros s'. subst s'. unfold session_manager.cleanup_stale_sessions.
  split; [|apply remove_sessions_frame].
  rewrite remove_sessions_lookup.
  destruct (sessions s !! socket_id) as [ses|] eqn:Hses.
  - destruct (decide (now e - last_activity ses > max_age_seconds)) as [Hstale|Hfresh].
    + rewrite (bool_decide_eq_true_2 _ Hstale).
      rewrite bool_decide_eq_true_2; [done|].
      apply list_elem_of_omap. exists (socket_id, ses). split.
      * by apply elem_of_map_to_list.
      * simpl. by rewrite bool_decide_eq_true_2.
    + rewrite (bool_decide_eq_false_2 _ Hfresh).
      rewrite bool_decide_eq_false_2; [done|].
      intros ([k ses'] & Hin & Hsome)%list_elem_of_omap.
      apply elem_of_map_to_list in Hin. simpl in Hsome.
      case_bool_decide; simplify_eq. done.
  - rewrite bool_decide_eq_false_2; [done|].
    intros ([k ses'] & Hin & Hsome)%list_elem_of_omap.
    apply elem_of_map_to_list in Hin. simpl in Hsome.
    case_bool_decide; simplify_eq.
Qed.

Lemma string_length_app (a b : string) :
  String.length (a +:+ b) = (String.length a + String.length b)%nat.
Proof. induction a as [|c a IH]; simpl; [done|]. by rewrite <- IH. Qed.

(** X4.  The runtime session id that [create_session] makes from a uuid in
    its 32 digit hexadecimal form is longer than the 33 characters the
    agent runtime asks for (41 and the digits of the time), and it is the
    id stored for the socket. *)
Theorem session_id_is_long_enough (e : env) (socket_id : string) (s : state) :
  String.length (uuid4_hex e) = 32%nat →
  let r := session_manager.create_session e socket_id s in
  (33 ≤ String.length (fst r))%nat
  ∧ String.length (fst r) = (41 + String.length (pretty (now e)))%nat
  ∧ session_manager.get_session_info socket_id (snd r)
    = Some (Session (fst r) (now e) (now e)).
Proof.
  intros Hhex r. subst r. unfold session_manager.create_session,
    session_manager.get_session_info. simpl fst. simpl snd.
  assert (String.length ("session_" +:+ uuid4_hex e +:+ "_" +:+ pretty (now e))
          = (41 + String.length (pretty (now e)))%nat) as Hlen.
  { rewrite !string_length_app, Hhex. simpl. lia. }
  split_and!.
  - rewrite Hlen. lia.
  - exact Hlen.
  - simpl. apply lookup_insert_eq.
Qed.

Lemma session_id_is_long_enough_witness :
  String.length
    (fst (session_manager.create_session
            (Env "r1" "0123456789abcdef0123456789abcdef" 1700000000 None None None)
            "A" initial))
  = 51%nat.
Proof.
  destruct (session_id_is_long_enough
              (Env "r1" "0123456789abcdef0123456789abcdef" 1700000000 None None None)
              "A" initial eq_refl) as (_ & Hlen & _).
  rewrite Hlen. reflexivity.
Defined.

(** ** Round trips of the built-in actions *)

Lemma ask_finally_releases client_sid request_id s :
  active_speech_per_client s !! client_sid = Some request_id →
  active_speech_per_client (builtin_actions.ask_finally client_sid request_id s)
    !! client_sid = None.
Proof.
  intros Hheld. unfold builtin_actions.ask_finally.
  rewrite remove_marker_active. simpl. rewrite Hheld, String.eqb_refl.
  apply lookup_delete_eq.
Qed.

Lemma speak_finally_releases client_sid speech_id s :
  active_speech_per_client s !! client_sid = Some speech_id →
  active_speech_per_client (builtin_actions.speak_finally client_sid speech_id s)
    !! client_sid = None.
Proof.
  intros Hheld. unfold builtin_actions.speak_finally.
  rewrite remove_marker_active. simpl. rewrite Hheld, String.eqb_refl.
  apply lookup_delete_eq.
Qed.

Lemma speak_finally_unregisters client_sid speech_id s :
  pending_speech_completions (builtin_actions.speak_finally client_sid speech_id s)
    !! speech_id = None.
Proof.
  unfold builtin_actions.speak_finally, builtin_actions.remove_active_speech_marker.
  repeat case_match; unfold_state; apply lookup_delete_eq.
Qed.

Lemma speak_finally_tasks client_sid speech_id s :
  tasks (builtin_actions.speak_finally client_sid speech_id s) = tasks s.
Proof.
  unfold builtin_actions.speak_finally, builtin_actions.remove_active_speech_marker.
  repeat case_match; done.
Qed.

(** X5.  The answer to a question reaches the caller that asked it.  While
    an [ask_user] call waits, a [user_response] event that names its
    request id and carries a non-empty answer (a text, or a list) completes
    the future; the caller, once resumed, returns [success: true] with the
    question, exactly that answer and the request id, and by then the
    token is unregistered and the peer's marker is free again. *)
Theorem answer_reaches_asker (e1 e2 : env) (s : state) (tid : nat)
    (client_sid request_id : string) (question timeout : json) (fut : nat)
    (sid : string) (data : pydict) (answer v : json) :
  reachable s →
  tasks s !! tid = Some (Some (AskWait client_sid request_id question timeout fut)) →
  pending_user_responses s !! request_id = Some fut →
  futures s !! fut = Some Pending →
  assoc "request_id" data = Some (JStr request_id) →
  assoc "response" data = Some answer →
  truthy answer = true →
  sliceable answer = true →
  request_id ≠ "" →
  ∃ s1 s2,
    step e1 (UserResponse sid data) s = Some (s1, Returned JNull)
    ∧ step e2 (Resume tid (OutOk v)) s1
      = Some (s2, Returned
                    (JDict [("success", JBool true);
                            ("data",
                             JDict [("success", JBool true); ("question", question);
                                    ("answer", answer);
                                    ("request_id", JStr request_id)])]))
    ∧ pending_user_responses s2 !! request_id = None
    ∧ active_speech_per_client s2 !! client_sid = None
    ∧ tasks s2 !! tid = Some None.
Proof.
  intros [Hheld _]%reachable_single_flight Htask Htoken Hfut Hid Hanswer Htruthy Hslice Hne.
  specialize (Hheld _ _ client_sid request_id Htask eq_refl).
  assert (fut < length (futures s))%nat as Hlt by by eapply lookup_lt_Some.
  assert (tid < length (tasks s))%nat as Htid by by eapply lookup_lt_Some.
  assert (truthy (JStr request_id) = true) as Hidt.
  { simpl. by destruct (String.eqb_spec request_id ""). }
  eexists _, _. split_and!.
  - simpl. unfold user_response, dict_get. rewrite Hid, Hanswer, Hslice, Hidt, Htruthy.
    simpl. unfold builtin_actions.handle_user_response. rewrite Htoken, Hfut. simpl.
    reflexivity.
  - simpl. rewrite Htask. simpl.
    unfold builtin_actions.ask_after_wait, wait_for. simpl.
    rewrite list_lookup_insert_eq by done. rewrite Hslice. simpl. reflexivity.
  - simpl. apply ask_finally_unregisters.
  - simpl. by apply ask_finally_releases.
  - simpl. rewrite ask_finally_tasks. simpl. by apply list_lookup_insert_eq.
Qed.

Lemma answer_reaches_asker_witness :
  ∃ s1 s2,
    step quiet (UserResponse "A" [("request_id", JStr "r1"); ("response", JStr "yes")])
      question_pending = Some (s1, Returned JNull)
    ∧ step quiet (Resume 0 (OutOk JNull)) s1
      = Some (s2, Returned
                    (JDict [("success", JBool true);
                            ("data",
                             JDict [("success", JBool true);
                                    ("question", JStr "Proceed?");
                                    ("answer", JStr "yes");
                                    ("request_id", JStr "r1")])]))
    ∧ active_speech_per_client s2 !! "A" = None.
Proof.
  destruct (answer_reaches_asker quiet quiet question_pending 0 "A" "r1"
              (JStr "Proceed?") (JNum 30) 0 "A"
              [("request_id", JStr "r1"); ("response", JStr "yes")] (JStr "yes") JNull
              (after_reachable _))
    as (s1 & s2 & H1 & H2 & _ & Hfree & _);
    [first [discriminate | vm_compute; reflexivity]..|].
  exists s1, s2. split_and!; done.
Defined.

(** X6.  The acknowledgement of a speech ends the wait of the call that
    plays it.  While a [speak_to_user] call waits, a [speech_completed]
    event that names its speech id completes the future with [True]; the
    caller, once resumed, returns the result of a sent speech, and by then
    the token is unregistered and the peer's marker is free again.  A
    second acknowledgement finds nothing to complete. *)
Theorem acknowledgement_ends_speech (e1 e2 e3 : env) (s : state) (tid : nat)
    (client_sid speech_id : string) (message : json) (fut : nat)
    (sid : string) (data : pydict) (v : json) :
  reachable s →
  tasks s !! tid = Some (Some (SpeakWait client_sid speech_id message fut)) →
  pending_speech_completions s !! speech_id = Some fut →
  futures s !! fut = Some Pending →
  assoc "speech_id" data = Some (JStr speech_id) →
  speech_id ≠ "" →
  ∃ s1 s2,
    step e1 (SpeechCompleted sid data) s = Some (s1, Returned JNull)
    ∧ futures s1 !! fut = Some (Result (JBool true))
    ∧ builtin_actions.handle_speech_completion speech_id s1 = (s1, false)
    ∧ step e2 (Resume tid (OutOk v)) s1
      = Some (s2, Returned
                    (JDict [("success", JBool true);
                            ("data", builtin_actions.speak_result message speech_id)]))
    ∧ pending_speech_completions s2 !! speech_id = None
    ∧ active_speech_per_client s2 !! client_sid = None
    ∧ tasks s2 !! tid = Some None
    ∧ step e3 (SpeechCompleted sid data) s2 = Some (s2, Returned JNull).
Proof.
  intros [Hheld _]%reachable_single_flight Htask Htoken Hfut Hid Hne.
  specialize (Hheld _ _ client_sid speech_id Htask eq_refl).
  assert (fut < length (futures s))%nat as Hlt by by eapply lookup_lt_Some.
  assert (tid < length (tasks s))%nat as Htid by by eapply lookup_lt_Some.
  assert (truthy (JStr speech_id) = true) as Hidt.
  { simpl. by destruct (String.eqb_spec speech_id ""). }
  eexists _, _. split_and!.
  - simpl. unfold speech_completed, dict_get. rewrite Hid, Hidt.
    unfold builtin_actions.handle_speech_completion. rewrite Htoken, Hfut. simpl.
    reflexivity.
  - simpl. by apply list_lookup_insert_eq.
  - unfold builtin_actions.handle_speech_completion. simpl. rewrite Htoken.
    by rewrite list_lookup_insert_eq by done.
  - simpl. rewrite Htask. simpl.
    unfold builtin_actions.speak_after_wait, wait_for. simpl.
    rewrite list_lookup_insert_eq by done. simpl. reflexivity.
  - simpl. apply speak_finally_unregisters.
  - simpl. by apply speak_finally_releases.
  - simpl. rewrite speak_finally_tasks. simpl. by apply list_lookup_insert_eq.
  - simpl. unfold speech_completed, dict_get. rewrite Hid, Hidt.
    unfold builtin_actions.handle_speech_completion. simpl.
    by rewrite speak_finally_unregisters.
Qed.

Lemma acknowledgement_ends_speech_witness :
  ∃ s1 s2,
    step quiet (SpeechCompleted "A" [("speech_id", JStr "s1")]) speech_playing
    = Some (s1, Returned JNull)
    ∧ step quiet (Resume 0 (OutOk JNull)) s1
      = Some (s2, Returned
                    (JDict [("success", JBool true);
                            ("data", builtin_actions.speak_result (JStr "Hello") "s1")]))
    ∧ active_speech_per_client s2 !! "A" = None.
Proof.
  destruct (acknowledgement_ends_speech quiet quiet quiet speech_playing 0 "A" "s1"
              (JStr "Hello") 0 "A" [("speech_id", JStr "s1")] JNull (after_reachable _))
    as (s1 & s2 & H1 & _ & _ & H2 & _ & Hfree & _);
    [first [discriminate | vm_compute; reflexivity]..|].
  exists s1, s2. split_and!; done.
Defined.

(** X7.  A [speak_to_user] call that is told not to wait
    ([wait_for_completion] falsy) creates no future and registers no
    token: for the connected peer the request is dispatched to, it takes
    that peer's marker, hands the audio to that peer and, as soon as the
    emit has ended, returns the result of a sent speech with the marker
    map back as it was.  Its [finally] still deletes the entry of its
    speech id from the table of pending completions, which changes
    nothing when that id is new. *)
Theorem speech_without_waiting (e1 e2 : env) (s : state) (payload parameters : pydict)
    (client_sid : string) (v : json) :
  client_sid ∈ connected_clients s →
  dict_get "action" payload JNull = JStr "speak_to_user" →
  dict_get "parameters" payload (JDict []) = JDict parameters →
  truthy (dict_get "message" parameters (JStr "")) = true →
  sliceable (dict_get "message" parameters (JStr "")) = true →
  truthy (dict_get "wait_for_completion" parameters (JBool true)) = false →
  active_speech_per_client s !! client_sid = None →
  nonempty (generated_speech e1) = true →
  ∃ s1 s2,
    step e1 (FrontendAction client_sid payload) s
    = Some (s1, Suspended (length (tasks s)))
    ∧ active_speech_per_client s1 !! client_sid = Some (uuid4 e1)
    ∧ pending_speech_completions s1 = pending_speech_completions s
    ∧ futures s1 = futures s
    ∧ emitted s1
      = (emitted s
         ++ [Emit "speak_audio"
               (JDict [("speech_id", JStr (uuid4 e1));
                       ("audio", JStr (default "" (generated_speech e1)));
                       ("message", dict_get "message" parameters (JStr ""));
                       ("voice", dict_get "voice" parameters (JStr "Joanna"))])
               client_sid])%list
    ∧ step e2 (Resume (length (tasks s)) (OutOk v)) s1
      = Some (s2, Returned
                    (JDict [("success", JBool true);
                            ("data",
                             JDict [("success", JBool true); ("end_turn", JBool true);
                                    ("message", JStr "Speech sent to user");
                                    ("text", dict_get "message" parameters (JStr ""));
                                    ("speech_id", JStr (uuid4 e1))])]))
    ∧ active_speech_per_client s2 = active_speech_per_client s
    ∧ futures s2 = futures s
    ∧ pending_speech_completions s2 = delete (uuid4 e1) (pending_speech_completions s)
    ∧ (pending_speech_completions s !! uuid4 e1 = None →
       pending_speech_completions s2 = pending_speech_completions s).
Proof.
  intros Hpeer Haction Hparams Htext Hslice Hnowait Hfree Haudio.
  eexists _, _. split_and!.
  - simpl. rewrite decide_True by auto. unfold frontend_action.
    rewrite Haction, Hparams. simpl.
    rewrite decide_False by by eapply member_not_empty.
    unfold builtin_actions.handle_speak_to_user.
    rewrite Htext, Hfree, Haudio, Hnowait. simpl. reflexivity.
  - simpl. apply lookup_insert_eq.
  - done.
  - done.
  - done.
  - simpl. rewrite list_lookup_middle by done. simpl.
    unfold builtin_actions.speak_after_emit. rewrite Hslice. simpl. reflexivity.
  - simpl. unfold builtin_actions.speak_finally.
    rewrite remove_marker_active. simpl.
    rewrite lookup_insert_eq, String.eqb_refl, delete_insert_eq.
    by apply delete_id.
  - simpl. unfold builtin_actions.speak_finally, builtin_actions.remove_active_speech_marker.
    simpl. by rewrite lookup_insert_eq, String.eqb_refl.
  - simpl. unfold builtin_actions.speak_finally, builtin_actions.remove_active_speech_marker.
    simpl. by rewrite lookup_insert_eq, String.eqb_refl.
  - intros Hnew. simpl.
    unfold builtin_actions.speak_finally, builtin_actions.remove_active_speech_marker.
    simpl. rewrite lookup_insert_eq, String.eqb_refl. simpl. by apply delete_id.
Qed.

Lemma speech_without_waiting_witness :
  ∃ s1 s2,
    step speaking
      (FrontendAction "A" [("action", JStr "speak_to_user");
                           ("parameters", JDict [("message", JStr "Done");
                                                 ("wait_for_completion", JBool false)])])
      (after [(speaking, Connect "A")]) = Some (s1, Suspended 0)
    ∧ step quiet (Resume 0 (OutOk JNull)) s1
      = Some (s2, Returned
                    (JDict [("success", JBool true);
                            ("data",
                             JDict [("success", JBool true); ("end_turn", JBool true);
                                    ("message", JStr "Speech sent to user");
                                    ("text", JStr "Done");
                                    ("speech_id", JStr "s1")])]))
    ∧ futures s2 = [].
Proof.
  destruct (speech_without_waiting speaking quiet (after [(speaking, Connect "A")])
              [("action", JStr "speak_to_user");
               ("parameters", JDict [("message", JStr "Done");
                                     ("wait_for_completion", JBool false)])]
              [("message", JStr "Done"); ("wait_for_completion", JBool false)]
              "A" JNull)
    as (s1 & s2 & H1 & _ & _ & _ & _ & H2 & _ & Hfut & _);
    [vm_compute; reflexivity..|].
  exists s1, s2. split_and!; [exact H1|exact H2|]. rewrite Hfut. reflexivity.
Defined.

(** ** Entries and the coroutines they belong to *)

Section Live.
Context {K V : Type} `{Countable K}.
Variable key : task → option (K * V).
Variable proj : state → gmap K V.
Hypothesis proj_tasks : ∀ x s, proj (set_tasks x s) = proj s.

Lemma started_live s r :
  start_effect key proj s r →
  live key (tasks s) (proj s) →
  live key (tasks (fst (started r))) (proj (fst (started r))).
Proof.
  destruct r as [s1 c]. intros [Ht Hm] Hlive. simpl in Ht, Hm.
  assert (∀ x k v, proj s !! k = Some v →
            ∃ tid t, (tasks s ++ x)%list !! tid = Some (Some t) ∧ key t = Some (k, v))
    as Hkeep.
  { intros x k v (tid & t & Hl & Hk)%Hlive. exists tid, t.
    split; [by apply lookup_app_l_Some|done]. }
  destruct Hm as [Hm|(t & k & v & -> & Hk & Hm)].
  - destruct c as [w|ex|t]; simpl; rewrite ?proj_tasks, ?Ht, Hm; [done..|].
    intros k v Hl. by apply Hkeep.
  - simpl. rewrite proj_tasks, Ht, Hm. intros k' v' Hl.
    destruct (decide (k = k')) as [<-|Hne].
    + rewrite lookup_insert_eq in Hl. simplify_eq.
      exists (length (tasks s)), t. split; [by apply list_lookup_middle|done].
    + rewrite lookup_insert_ne in Hl by done. by apply Hkeep.
Qed.

Lemma resumed_live s tid t r :
  tasks s !! tid = Some (Some t) →
  resume_effect key proj s t r →
  live key (tasks s) (proj s) →
  live key (tasks (fst (resumed tid r))) (proj (fst (resumed tid r))).
Proof.
  destruct r as [s1 c]. intros Htask [Ht Hm] Hlive. simpl in Ht, Hm.
  assert (tid < length (tasks s))%nat as Htid by by eapply lookup_lt_Some.
  assert (∀ x k v, proj s !! k = Some v → key t ≠ Some (k, v) →
            ∃ tid' t', <[tid := x]> (tasks s) !! tid' = Some (Some t')
                       ∧ key t' = Some (k, v)) as Hkeep.
  { intros x k v (tid' & t' & Hl & Hk)%Hlive Hother. exists tid', t'.
    split; [|done]. rewrite list_lookup_insert_ne; [done|].
    intros <-. rewrite Htask in Hl. simplify_eq. }
  destruct (key t) as [[k v]|] eqn:Hk.
  - destruct c as [w|ex|t']; simpl; rewrite proj_tasks, Ht.
    + destruct Hm as [Hsub Hgone]. intros k' v' Hl.
      apply Hkeep; [by eapply lookup_weaken|]. intros [= <- <-]. done.
    + destruct Hm as [Hsub Hgone]. intros k' v' Hl.
      apply Hkeep; [by eapply lookup_weaken|]. intros [= <- <-]. done.
    + destruct Hm as [Hk' ->]. intros k' v' Hl.
      destruct (Hlive _ _ Hl) as (tid0 & t0 & Hl0 & Hk0).
      destruct (decide (tid0 = tid)) as [->|Hne].
      * rewrite Htask in Hl0. simplify_eq.
        exists tid, t'. split; [by apply list_lookup_insert_eq|done].
      * exists tid0, t0. split; [|done]. by rewrite list_lookup_insert_ne.
  - assert (∀ x, live key (<[tid := x]> (tasks s)) (proj s1)) as Hall.
    { intros x k' v' Hl. apply Hkeep; [by eapply lookup_weaken|done]. }
    destruct c as [w|ex|t']; simpl; rewrite proj_tasks, Ht; apply Hall.
Qed.

Hypothesis proj_initial : proj initial = ∅.
Hypothesis start_ok :
  ∀ e ev s,
    match ev with
    | Resume _ _ => True
    | _ => ∃ r0, (∀ x, step e ev s = Some x → x = started r0) ∧ start_effect key proj s r0
    end.
Hypothesis continue_ok :
  ∀ e t out s r, continue e t out s = Some r → resume_effect key proj s t r.

Lemma step_live e ev s s' r :
  step e ev s = Some (s', r) →
  live key (tasks s) (proj s) → live key (tasks s') (proj s').
Proof.
  intros Hstep Hlive. pose proof (start_ok e ev s) as Hev.
  destruct ev;
    try (destruct Hev as (r0 & Hr0 & Heff); 
         apply (step_started _ _ _ _ _ _ Hr0) in Hstep as ->; by apply (started_live s)).
  unfold step in Hstep.
  destruct (tasks s !! tid) as [[t|]|] eqn:Hl; [|done..].
  destruct (continue e t out s) as [r0|] eqn:Hc; [|done].
  injection Hstep as Hstep.
  replace s' with (fst (resumed tid r0)) by by rewrite Hstep.
  eapply resumed_live; [done| |done]. by eapply continue_ok.
Qed.

Lemma reachable_live s : reachable s → live key (tasks s) (proj s).
Proof.
  induction 1 as [|e ev s s' r _ IH Hstep].
  - intros k v. rewrite proj_initial, lookup_empty. discriminate.
  - by eapply step_live.
Qed.

End Live.

Ltac effect_solver :=
  unfold start_effect, resume_effect, through_builtin,
    connect, disconnect, disconnect_after_stop, speech_completed, user_response,
    user_prompt, turn_except, turn_after_invoke, turn_after_read,
    turn_after_emit_response, turn_after_emit_complete, turn_after_emit_error,
    frontend_tool_response, frontend_action, action_after_emit, action_after_wait,
    action_except, wait_for,
    builtin_actions.handle_builtin_action, builtin_actions.handle_speak_to_user,
    builtin_actions.handle_ask_user, builtin_actions.speak_after_emit,
    builtin_actions.speak_after_wait, builtin_actions.ask_after_emit,
    builtin_actions.ask_after_wait, builtin_actions.speak_finally,
    builtin_actions.ask_finally, builtin_actions.remove_active_speech_marker,
    builtin_actions.handle_speech_completion, builtin_actions.handle_user_response,
    builtin_actions.builtin_return,
    session_manager.get_or_create_session, session_manager.get_session,
    session_manager.create_session, session_manager.remove_session in *;
  unfold_state;
  repeat (case_match; simplify_eq/=);
  repeat split;
  try done;
  try (by apply delete_subseteq);
  try (by rewrite lookup_delete_eq);
  try (by left);
  try (right; eexists _, _, _; split_and!; done).

Lemma guard_start_ok e ev s :
  match ev with
  | Resume _ _ => True
  | _ => ∃ r0, (∀ x, step e ev s = Some x → x = started r0)
               ∧ start_effect guarded active_speech_per_client s r0
  end.
Proof.
  destruct ev; [..|done]; (eexists; split; [start_step|]); effect_solver.
Qed.


Lemma remove_marker_contained client_sid id s :
  active_speech_per_client (builtin_actions.remove_active_speech_marker client_sid id s)
    ⊆ active_speech_per_client s
  ∧ active_speech_per_client (builtin_actions.remove_active_speech_marker client_sid id s)
      !! client_sid ≠ Some id.
Proof.
  rewrite remove_marker_active.
  destruct (active_speech_per_client s !! client_sid) as [h|] eqn:Hh.
  - destruct (String.eqb_spec h id) as [->|Hne].
    + split; [apply delete_subseteq|]. by rewrite lookup_delete_eq.
    + split; [done|]. rewrite Hh. congruence.
  - split; [done|]. by rewrite Hh.
Qed.

Lemma guard_continue_ok e t out s r :
  continue e t out s = Some r → resume_effect guarded active_speech_per_client s t r.
Proof.
  intros Hc. destruct r as [s' c]. unfold resume_effect. simpl.
  destruct (guarded t) as [[p i]|] eqn:Hg.
  - destruct (guarded_continue _ _ _ _ _ _ _ _ Hg Hc) as (Ht & Hk & Hx).
    split; [done|]. destruct c as [v|ex|t'].
    + rewrite (Hx eq_refl). apply remove_marker_contained.
    + rewrite (Hx eq_refl). apply remove_marker_contained.
    + by destruct (Hk t' eq_refl).
  - destruct (unguarded_continue _ _ _ _ _ Hg Hc) as (Ht & Ha & _). simpl in *.
    split; [done|]. by rewrite Ha.
Qed.

(** X8.  The busy guard is never left behind.  In every state the server
    can reach, a peer's active-speech marker is set only while the
    [speak_to_user] or [ask_user] call that set it is still in the event
    loop, suspended between the setting of the marker and its [finally]
    block: no marker outlives its operation, so a later call is never
    turned away on account of one that has ended. *)
Theorem marker_has_a_holder (s : state) (client_sid id : string) :
  reachable s →
  active_speech_per_client s !! client_sid = Some id →
  ∃ tid t, tasks s !! tid = Some (Some t) ∧ guarded t = Some (client_sid, id).
Proof.
  intros Hs Hm.
  by apply (reachable_live guarded active_speech_per_client
              (λ _ _, eq_refl) eq_refl guard_start_ok guard_continue_ok s Hs).
Qed.

Lemma marker_has_a_holder_witness :
  ∃ tid t, tasks question_pending !! tid = Some (Some t) ∧ guarded t = Some ("A", "r1").
Proof.
  apply (marker_has_a_holder question_pending "A" "r1" (after_reachable _)).
  vm_compute. reflexivity.
Defined.

Lemma ask_finally_tables client_sid request_id s :
  pending_user_responses (builtin_actions.ask_finally client_sid request_id s)
  = delete request_id (pending_user_responses s)
  ∧ pending_speech_completions (builtin_actions.ask_finally client_sid request_id s)
    = pending_speech_completions s
  ∧ pending_tool_calls (builtin_actions.ask_finally client_sid request_id s)
    = pending_tool_calls s
  ∧ futures (builtin_actions.ask_finally client_sid request_id s) = futures s.
Proof.
  unfold builtin_actions.ask_finally, builtin_actions.remove_active_speech_marker.
  repeat case_match; done.
Qed.

Lemma speak_finally_tables client_sid speech_id s :
  pending_speech_completions (builtin_actions.speak_finally client_sid speech_id s)
  = delete speech_id (pending_speech_completions s)
  ∧ pending_user_responses (builtin_actions.speak_finally client_sid speech_id s)
    = pending_user_responses s
  ∧ pending_tool_calls (builtin_actions.speak_finally client_sid speech_id s)
    = pending_tool_calls s
  ∧ futures (builtin_actions.speak_finally client_sid speech_id s) = futures s.
Proof.
  unfold builtin_actions.speak_finally, builtin_actions.remove_active_speech_marker.
  repeat case_match; done.
Qed.

(** What the resumption of an asking coroutine does to the tables. *)
Lemma ask_continue_tables e t out s r i f :
  asks t = Some (i, f) →
  continue e t out s = Some r →
  tasks (fst r) = tasks s
  ∧ pending_speech_completions (fst r) = pending_speech_completions s
  ∧ pending_tool_calls (fst r) = pending_tool_calls s
  ∧ (∀ t', snd r = Await t' →
       asks t' = Some (i, f) ∧ pending_user_responses (fst r) = pending_user_responses s)
  ∧ (exits (snd r) = true →
       pending_user_responses (fst r) = delete i (pending_user_responses s)).
Proof.
  intros Ha Hc.
  assert (∃ r0, r = through_builtin r0
            ∧ tasks (fst r0) = tasks s
            ∧ pending_speech_completions (fst r0) = pending_speech_completions s
            ∧ pending_tool_calls (fst r0) = pending_tool_calls s
            ∧ (∀ t', snd r0 = Await t' →
                 asks t' = Some (i, f)
                 ∧ pending_user_responses (fst r0) = pending_user_responses s)
            ∧ (exits (snd r0) = true →
                 pending_user_responses (fst r0) = delete i (pending_user_responses s)))
    as (r0 & -> & Ht & Hs & Hp & Hk & Hx).
  { destruct t; simplify_eq/=.
    - eexists. split; [reflexivity|].
      pose proof (ask_finally_tables client_sid i s) as (Hu' & Hs' & Hp' & _).
      pose proof (ask_finally_tasks client_sid i s) as Ht'.
      unfold builtin_actions.ask_after_emit.
      repeat case_match; simpl; rewrite ?Ht', ?Hs', ?Hp', ?Hu';
        split_and!; first [done | by intros ? [=] | by intros ? [= <-] | by intros [=]].
    - destruct (builtin_actions.ask_after_wait _ _ _ _ _ _ _) as [r0|] eqn:Hr;
        simplify_eq/=.
      eexists. split; [reflexivity|].
      unfold builtin_actions.ask_after_wait in Hr.
      destruct (_ && _).
      { pose proof (ask_finally_tables client_sid i s) as (Hu' & Hs' & Hp' & _).
        pose proof (ask_finally_tasks client_sid i s) as Ht'.
        repeat case_match; simplify_eq/=; rewrite ?Ht', ?Hs', ?Hp', ?Hu';
          split_and!; first [done | by intros ? [=] | by intros ? [= <-] | by intros [=]]. }
      destruct (wait_for _ _ _ _) as [[s1 w]|] eqn:Hw; [|done].
      apply wait_for_frame in Hw as (_ & Ht & _ & Hp & Hu & Hs).
      pose proof (ask_finally_tables client_sid i s1) as (Hu' & Hs' & Hp' & _).
      pose proof (ask_finally_tasks client_sid i s1) as Ht'.
      repeat case_match; simplify_eq/=;
        rewrite ?Ht', ?Hs', ?Hp', ?Hu', ?Ht, ?Hs, ?Hp, ?Hu;
        split_and!; first [done | by intros ? [=] | by intros ? [= <-] | by intros [=]]. }
  destruct (through_builtin_inv r0 _ _ eq_refl) as (_ & Hk' & Hx').
  unfold through_builtin at 1 2 3 4 5. simpl fst.
  split_and!; try done.
  - intros t' Ht'. apply Hk. by apply Hk'.
  - intros He. apply Hx. by rewrite <- Hx'.
Qed.

(** What the resumption of a speaking coroutine does to the tables. *)
Lemma speak_continue_tables e client_sid i m out s r t :
  (∃ fo, t = SpeakEmit client_sid i m fo) ∨ (∃ f, t = SpeakWait client_sid i m f) →
  continue e t out s = Some r →
  tasks (fst r) = tasks s
  ∧ pending_user_responses (fst r) = pending_user_responses s
  ∧ pending_tool_calls (fst r) = pending_tool_calls s
  ∧ (∀ t', snd r = Await t' →
       speaks t' = speaks t
       ∧ pending_speech_completions (fst r) = pending_speech_completions s)
  ∧ (exits (snd r) = true →
       pending_speech_completions (fst r) = delete i (pending_speech_completions s)).
Proof.
  intros Hshape Hc.
  assert (∃ r0, r = through_builtin r0
            ∧ tasks (fst r0) = tasks s
            ∧ pending_user_responses (fst r0) = pending_user_responses s
            ∧ pending_tool_calls (fst r0) = pending_tool_calls s
            ∧ (∀ t', snd r0 = Await t' →
                 speaks t' = speaks t
                 ∧ pending_speech_completions (fst r0) = pending_speech_completions s)
            ∧ (exits (snd r0) = true →
                 pending_speech_completions (fst r0)
                 = delete i (pending_speech_completions s)))
    as (r0 & -> & Ht & Hu & Hp & Hk & Hx).
  { destruct Hshape as [[fo ->]|[f ->]]; simplify_eq/=.
    - eexists. split; [reflexivity|].
      pose proof (speak_finally_tables client_sid i s) as (Hs' & Hu' & Hp' & _).
      pose proof (speak_finally_tasks client_sid i s) as Ht'.
      unfold builtin_actions.speak_after_emit.
      repeat case_match; simpl; rewrite ?Ht', ?Hs', ?Hp', ?Hu';
        split_and!; first [done | by intros ? [=] | by intros ? [= <-] | by intros [=]].
    - destruct (builtin_actions.speak_after_wait _ _ _ _ _ _) as [r0|] eqn:Hr;
        simplify_eq/=.
      eexists. split; [reflexivity|].
      unfold builtin_actions.speak_after_wait in Hr.
      destruct (wait_for _ _ _ _) as [[s1 w]|] eqn:Hw; [|done].
      apply wait_for_frame in Hw as (_ & Ht & _ & Hp & Hu & Hs).
      pose proof (speak_finally_tables client_sid i s1) as (Hs' & Hu' & Hp' & _).
      pose proof (speak_finally_tasks client_sid i s1) as Ht'.
      repeat case_match; simplify_eq/=;
        rewrite ?Ht', ?Hs', ?Hp', ?Hu', ?Ht, ?Hs, ?Hp, ?Hu;
        split_and!; first [done | by intros ? [=] | by intros ? [= <-] | by intros [=]]. }
  destruct (through_builtin_inv r0 _ _ eq_refl) as (_ & Hk' & Hx').
  unfold through_builtin at 1 2 3 4 5. simpl fst.
  split_and!; try done.
  - intros t' Ht'. apply Hk. by apply Hk'.
  - intros He. apply Hx. by rewrite <- Hx'.
Qed.

(** The other coroutines leave the two tables of the built-in actions
    alone. *)
Lemma other_continue_tables e t out s r :
  guarded t = None →
  continue e t out s = Some r →
  tasks (fst r) = tasks s
  ∧ pending_user_responses (fst r) = pending_user_responses s
  ∧ pending_speech_completions (fst r) = pending_speech_completions s
  ∧ pending_tool_calls (fst r) ⊆ pending_tool_calls s
  ∧ length (futures (fst r)) = length (futures s).
Proof.
  intros Hg Hc. destruct t; simplify_eq/=.
  - unfold action_after_emit, action_except. unfold_state.
    repeat case_match; simpl; split_and!; first [done | apply delete_subseteq].
  - unfold action_after_wait in Hc.
    destruct (wait_for _ _ _ _) as [[s1 w]|] eqn:Hw; [|done].
    assert (length (futures s1) = length (futures s)) as Hlen.
    { unfold wait_for in Hw.
      repeat case_match; simplify_eq/=; by rewrite ?length_insert. }
    apply wait_for_frame in Hw as (_ & Ht & _ & Hp & Hu & Hs).
    unfold action_except in Hc. unfold_state.
    repeat case_match; simplify_eq/=; rewrite ?Ht, ?Hs, ?Hu, ?Hlen;
      split_and!; try done; rewrite <- ?Hp; try done;
      try apply delete_subseteq.
    all: etrans; [apply delete_subseteq|]; first [apply delete_subseteq | by rewrite Hp].
  - unfold turn_after_invoke, turn_except. unfold_state. repeat case_match; done.
  - unfold turn_after_read, turn_except. unfold_state. repeat case_match; done.
  - unfold turn_after_emit_response, turn_except. unfold_state. repeat case_match; done.
  - unfold turn_after_emit_complete, turn_except. unfold_state. repeat case_match; done.
  - unfold turn_after_emit_error. unfold_state. repeat case_match; done.
  - unfold disconnect_after_stop, session_manager.remove_session. unfold_state.
    repeat case_match; done.
Qed.

Lemma asks_start_ok e ev s :
  match ev with
  | Resume _ _ => True
  | _ => ∃ r0, (∀ x, step e ev s = Some x → x = started r0)
               ∧ start_effect asks pending_user_responses s r0
  end.
Proof.
  destruct ev; [..|done]; (eexists; split; [start_step|]); effect_solver.
Qed.

Lemma speaks_start_ok e ev s :
  match ev with
  | Resume _ _ => True
  | _ => ∃ r0, (∀ x, step e ev s = Some x → x = started r0)
               ∧ start_effect speaks pending_speech_completions s r0
  end.
Proof.
  destruct ev; [..|done]; (eexists; split; [start_step|]); effect_solver.
Qed.

Lemma task_shape (t : task) :
  (∃ i f, asks t = Some (i, f))
  ∨ (∃ c i m, (∃ fo, t = SpeakEmit c i m fo) ∨ (∃ f, t = SpeakWait c i m f))
  ∨ guarded t = None.
Proof. destruct t; naive_solver. Qed.

Lemma asks_continue_ok e t out s r :
  continue e t out s = Some r → resume_effect asks pending_user_responses s t r.
Proof.
  intros Hc. unfold resume_effect.
  destruct (task_shape t) as [(i & f & Ha)|[(c & i & m & Hshape)|Hother]].
  - destruct (ask_continue_tables _ _ _ _ _ _ _ Ha Hc) as (Ht & _ & _ & Hk & Hx).
    split; [done|]. rewrite Ha. destruct (snd r) as [v|ex|t'] eqn:Hr.
    + rewrite (Hx eq_refl). split; [apply delete_subseteq|]. by rewrite lookup_delete_eq.
    + rewrite (Hx eq_refl). split; [apply delete_subseteq|]. by rewrite lookup_delete_eq.
    + by apply Hk.
  - destruct (speak_continue_tables _ _ _ _ _ _ _ _ Hshape Hc) as (Ht & Hu & _).
    split; [done|]. rewrite Hu.
    destruct Hshape as [[fo ->]|[f ->]]; simpl; reflexivity.
  - destruct (other_continue_tables _ _ _ _ _ Hother Hc) as (Ht & Hu & _).
    split; [done|]. rewrite Hu. destruct t; simplify_eq/=; reflexivity.
Qed.

Lemma speaks_continue_ok e t out s r :
  continue e t out s = Some r → resume_effect speaks pending_speech_completions s t r.
Proof.
  intros Hc. unfold resume_effect.
  destruct (task_shape t) as [(i & f & Ha)|[(c & i & m & Hshape)|Hother]].
  - destruct (ask_continue_tables _ _ _ _ _ _ _ Ha Hc) as (Ht & Hs & _).
    split; [done|]. rewrite Hs. destruct t; simplify_eq/=; reflexivity.
  - destruct (speak_continue_tables _ _ _ _ _ _ _ _ Hshape Hc) as (Ht & _ & _ & Hk & Hx).
    split; [done|]. destruct (speaks t) as [[i' f]|] eqn:Hsp.
    + assert (i' = i) as -> by (by destruct Hshape as [[[?|] ->]|[? ->]]; simplify_eq/=).
      destruct (snd r) as [v|ex|t'] eqn:Hr.
      * rewrite (Hx eq_refl). split; [apply delete_subseteq|]. by rewrite lookup_delete_eq.
      * rewrite (Hx eq_refl). split; [apply delete_subseteq|]. by rewrite lookup_delete_eq.
      * by apply Hk.
    + destruct (snd r) as [v|ex|t'] eqn:Hr.
      * rewrite (Hx eq_refl). apply delete_subseteq.
      * rewrite (Hx eq_refl). apply delete_subseteq.
      * destruct (Hk t' eq_refl) as [_ ->]. done.
  - destruct (other_continue_tables _ _ _ _ _ Hother Hc) as (Ht & _ & Hs & _).
    split; [done|]. rewrite Hs. destruct t; simplify_eq/=; reflexivity.
Qed.

(** X9.  The tables of the built-in actions hold no orphans.  In every
    state the server can reach, each entry of [pending_user_responses]
    belongs to an [ask_user] call that is still suspended with that
    request id and that future, and each entry of
    [pending_speech_completions] to a suspended [speak_to_user] call: an
    entry never outlives the call that made it, whether the call ended by a
    reply, a timeout or an exception. *)
Theorem builtin_tokens_have_waiters (s : state) (id : string) (fut : nat) :
  reachable s →
  (pending_user_responses s !! id = Some fut →
   ∃ tid t, tasks s !! tid = Some (Some t) ∧ asks t = Some (id, fut))
  ∧ (pending_speech_completions s !! id = Some fut →
     ∃ tid t, tasks s !! tid = Some (Some t) ∧ speaks t = Some (id, fut)).
Proof.
  intros Hs. split; intros Hm.
  - by apply (reachable_live asks pending_user_responses
                (λ _ _, eq_refl) eq_refl asks_start_ok asks_continue_ok s Hs).
  - by apply (reachable_live speaks pending_speech_completions
                (λ _ _, eq_refl) eq_refl speaks_start_ok speaks_continue_ok s Hs).
Qed.

Lemma builtin_tokens_have_waiters_witness :
  ∃ tid t, tasks question_pending !! tid = Some (Some t) ∧ asks t = Some ("r1", 0%nat).
Proof.
  destruct (builtin_tokens_have_waiters question_pending "r1" 0 (after_reachable _))
    as [Hask _].
  apply Hask. vm_compute. reflexivity.
Defined.

(** ** Tokens and their futures *)

Lemma table_ok_step n n' m m' :
  table_step n n' m m' → table_ok n m → table_ok n' m'.
Proof.
  intros [Hle Hm] [Hb Hinj]. destruct Hm as [Hsub|[Hlt [t ->]]].
  - split.
    + intros t f Hl. apply (lookup_weaken _ _ _ _ Hl) in Hsub.
      apply Hb in Hsub. lia.
    + intros t t' f Hl Hl'. eapply Hinj; by eapply lookup_weaken.
  - split.
    + intros t0 f. rewrite lookup_insert. case_decide.
      * intros [= <-]. done.
      * intros Hl%Hb. lia.
    + intros t0 t1 f. rewrite !lookup_insert.
      repeat case_decide; simplify_eq; try done.
      * intros [= <-] Hl%Hb. lia.
      * intros Hl%Hb [= <-]. lia.
      * apply Hinj.
Qed.

Lemma wait_for_length fut timer out s s1 w :
  wait_for fut timer out s = Some (s1, w) → length (futures s1) = length (futures s).
Proof.
  unfold wait_for. intros Hw.
  repeat case_match; simplify_eq/=; by rewrite ?length_insert.
Qed.

Lemma continue_length e t out s r :
  continue e t out s = Some r → length (futures (fst r)) = length (futures s).
Proof.
  intros Hc. destruct (guarded t) as [[p i]|] eqn:Hg.
  2:{ by destruct (other_continue_tables _ _ _ _ _ Hg Hc) as (_ & _ & _ & _ & ?). }
  destruct t; simplify_eq/=.
  - unfold builtin_actions.speak_after_emit.
    pose proof (speak_finally_tables p i s) as (_ & _ & _ & Hf).
    repeat case_match; simpl; by rewrite ?Hf.
  - destruct (builtin_actions.speak_after_wait _ _ _ _ _ _) as [r0|] eqn:Hr; simplify_eq/=.
    unfold builtin_actions.speak_after_wait in Hr.
    destruct (wait_for _ _ _ _) as [[s1 w]|] eqn:Hw; [|done].
    apply wait_for_length in Hw.
    pose proof (speak_finally_tables p i s1) as (_ & _ & _ & Hf).
    repeat case_match; simplify_eq/=; by rewrite ?Hf.
  - unfold builtin_actions.ask_after_emit.
    pose proof (ask_finally_tables p i s) as (_ & _ & _ & Hf).
    repeat case_match; simpl; by rewrite ?Hf, ?length_insert.
  - destruct (builtin_actions.ask_after_wait _ _ _ _ _ _ _) as [r0|] eqn:Hr; simplify_eq/=.
    unfold builtin_actions.ask_after_wait in Hr.
    destruct (_ && _).
    { pose proof (ask_finally_tables p i s) as (_ & _ & _ & Hf).
      repeat case_match; simplify_eq/=; by rewrite ?Hf. }
    destruct (wait_for _ _ _ _) as [[s1 w]|] eqn:Hw; [|done].
    apply wait_for_length in Hw.
    pose proof (ask_finally_tables p i s1) as (_ & _ & _ & Hf).
    repeat case_match; simplify_eq/=; by rewrite ?Hf.
Qed.

(** What the resumption of any coroutine does to the three tables: each
    keeps its entries or loses some. *)
Lemma continue_tables e t out s r :
  continue e t out s = Some r →
  pending_tool_calls (fst r) ⊆ pending_tool_calls s
  ∧ pending_speech_completions (fst r) ⊆ pending_speech_completions s
  ∧ pending_user_responses (fst r) ⊆ pending_user_responses s.
Proof.
  intros Hc.
  destruct (task_shape t) as [(i & f & Ha)|[(c & i & m & Hshape)|Hother]].
  - destruct (ask_continue_tables _ _ _ _ _ _ _ Ha Hc) as (_ & -> & -> & Hk & Hx).
    split_and!; [done..|]. destruct (snd r) as [v|ex|t'] eqn:Hr.
    + rewrite (Hx eq_refl). apply delete_subseteq.
    + rewrite (Hx eq_refl). apply delete_subseteq.
    + by destruct (Hk t' eq_refl) as [_ ->].
  - destruct (speak_continue_tables _ _ _ _ _ _ _ _ Hshape Hc) as (_ & -> & -> & Hk & Hx).
    split_and!; [done| |done]. destruct (snd r) as [v|ex|t'] eqn:Hr.
    + rewrite (Hx eq_refl). apply delete_subseteq.
    + rewrite (Hx eq_refl). apply delete_subseteq.
    + by destruct (Hk t' eq_refl) as [_ ->].
  - destruct (other_continue_tables _ _ _ _ _ Hother Hc) as (_ & -> & -> & Hp & _).
    done.
Qed.

Ltac table_solver :=
  unfold table_step,
    connect, disconnect, speech_completed, user_response,
    user_prompt, turn_except, frontend_tool_response, frontend_action,
    builtin_actions.handle_builtin_action, builtin_actions.handle_speak_to_user,
    builtin_actions.handle_ask_user,
    builtin_actions.handle_speech_completion, builtin_actions.handle_user_response,
    builtin_actions.builtin_return,
    session_manager.get_or_create_session, session_manager.get_session,
    session_manager.create_session, session_manager.remove_session in *;
  unfold_state;
  repeat (case_match; simplify_eq/=);
  rewrite ?length_app, ?length_insert; simpl;
  (split; [lia|]);
  first [ by left
        | left; apply delete_subseteq
        | right; (split; [lia|]); eexists; reflexivity ].

Lemma start_tables e ev s :
  match ev with
  | Resume _ _ => True
  | _ =>
      ∃ r0, (∀ x, step e ev s = Some x → x = started r0)
            ∧ table_step (length (futures s)) (length (futures (fst r0)))
                (pending_tool_calls s) (pending_tool_calls (fst r0))
            ∧ table_step (length (futures s)) (length (futures (fst r0)))
                (pending_speech_completions s) (pending_speech_completions (fst r0))
            ∧ table_step (length (futures s)) (length (futures (fst r0)))
                (pending_user_responses s) (pending_user_responses (fst r0))
  end.
Proof.
  destruct ev; [..|done]; (eexists; split; [start_step|]); split_and!; table_solver.
Qed.

Lemma started_tables (r0 : state * coro) :
  pending_tool_calls (fst (started r0)) = pending_tool_calls (fst r0)
  ∧ pending_speech_completions (fst (started r0)) = pending_speech_completions (fst r0)
  ∧ pending_user_responses (fst (started r0)) = pending_user_responses (fst r0)
  ∧ futures (fst (started r0)) = futures (fst r0).
Proof. by destruct r0 as [s [v|ex|t]]. Qed.

Lemma resumed_tables tid (r0 : state * coro) :
  pending_tool_calls (fst (resumed tid r0)) = pending_tool_calls (fst r0)
  ∧ pending_speech_completions (fst (resumed tid r0)) = pending_speech_completions (fst r0)
  ∧ pending_user_responses (fst (resumed tid r0)) = pending_user_responses (fst r0)
  ∧ futures (fst (resumed tid r0)) = futures (fst r0).
Proof. by destruct r0 as [s [v|ex|t]]. Qed.

Lemma step_tables_ok e ev s s' r :
  step e ev s = Some (s', r) → tables_ok s → tables_ok s'.
Proof.
  intros Hstep (Hp & Hs & Hu). pose proof (start_tables e ev s) as Hev.
  unfold tables_ok.
  destruct ev;
    try (destruct Hev as (r0 & Hr0 & Hp' & Hs' & Hu'); 
         apply (step_started _ _ _ _ _ _ Hr0) in Hstep as ->;
         destruct (started_tables r0) as (-> & -> & -> & ->);
         split_and!;
         [ by apply (table_ok_step (length (futures s)) _ (pending_tool_calls s))
         | by apply (table_ok_step (length (futures s)) _ (pending_speech_completions s))
         | by apply (table_ok_step (length (futures s)) _ (pending_user_responses s)) ]).
  unfold step in Hstep.
  destruct (tasks s !! tid) as [[t|]|] eqn:Hl; [|done..].
  destruct (continue e t out s) as [r0|] eqn:Hc; [|done].
  injection Hstep as Hstep.
  replace s' with (fst (resumed tid r0)) by by rewrite Hstep.
  destruct (resumed_tables tid r0) as (-> & -> & -> & ->).
  pose proof (continue_length _ _ _ _ _ Hc) as Hlen.
  destruct (continue_tables _ _ _ _ _ Hc) as (Hp' & Hs' & Hu').
  split_and!.
  - apply (table_ok_step (length (futures s)) _ (pending_tool_calls s));
      [split; [lia|by left]|done].
  - apply (table_ok_step (length (futures s)) _ (pending_speech_completions s));
      [split; [lia|by left]|done].
  - apply (table_ok_step (length (futures s)) _ (pending_user_responses s));
      [split; [lia|by left]|done].
Qed.

Lemma reachable_tables_ok s : reachable s → tables_ok s.
Proof.
  induction 1 as [|e ev s s' r _ IH Hstep].
  - unfold tables_ok, table_ok. simpl.
    split_and!; intros *; rewrite lookup_empty; discriminate.
  - by eapply step_tables_ok.
Qed.

(** X10.  Replies are matched by token.  In every state the server can
    reach, each registered token refers to a future that exists, and no two
    tokens of a table share a future; so delivering a reply for one token
    (a user response, a speech acknowledgement, a tool response) leaves
    the future of every other registered token of that table exactly as it
    was. *)
Theorem replies_are_matched_by_token (s : state) (t t' : string) (f' : nat) :
  reachable s →
  t ≠ t' →
  (pending_user_responses s !! t' = Some f' →
   is_Some (futures s !! f')
   ∧ ∀ p, futures (fst (builtin_actions.handle_user_response t p s)) !! f'
          = futures s !! f')
  ∧ (pending_speech_completions s !! t' = Some f' →
     is_Some (futures s !! f')
     ∧ futures (fst (builtin_actions.handle_speech_completion t s)) !! f'
       = futures s !! f')
  ∧ (pending_tool_calls s !! t' = Some f' →
     is_Some (futures s !! f')
     ∧ ∀ sid data, dict_get "toolCallId" data JNull = JStr t →
         futures (fst (frontend_tool_response sid data s)) !! f' = futures s !! f'
         ∧ pending_tool_calls (fst (frontend_tool_response sid data s)) !! t' = Some f').
Proof.
  intros (Hp & Hs & Hu)%reachable_tables_ok Hne. split_and!.
  - intros Hl. split; [apply lookup_lt_is_Some; by eapply Hu|].
    intros p.
    destruct (handle_user_response_spec t p s) as [(fut & Ht & _ & ->)|[_ ->]];
      [|done].
    simpl. apply list_lookup_insert_ne. intros ->.
    destruct Hu as [_ Hinj]. by specialize (Hinj _ _ _ Ht Hl).
  - intros Hl. split; [apply lookup_lt_is_Some; by eapply Hs|].
    unfold builtin_actions.handle_speech_completion.
    destruct (pending_speech_completions s !! t) as [fut|] eqn:Ht; [|done].
    destruct (futures s !! fut) as [f|]; [|done].
    destruct (negb (future_done f)); [|done].
    simpl. apply list_lookup_insert_ne. intros ->.
    destruct Hs as [_ Hinj]. by specialize (Hinj _ _ _ Ht Hl).
  - intros Hl. split; [apply lookup_lt_is_Some; by eapply Hp|].
    intros sid data Hid.
    destruct (frontend_tool_response_spec sid data t s Hid)
      as [(fut & Ht & _ & ->)|(_ & -> & _)]; simpl.
    + split; [|by rewrite lookup_delete_ne].
      apply list_lookup_insert_ne. intros ->.
      destruct Hp as [_ Hinj]. by specialize (Hinj _ _ _ Ht Hl).
    + split; [done|]. by rewrite lookup_delete_ne.
Qed.

Lemma replies_are_matched_by_token_witness :
  futures (fst (builtin_actions.handle_user_response "r9" (JStr "yes") question_pending))
    !! 0%nat
  = futures question_pending !! 0%nat.
Proof.
  destruct (replies_are_matched_by_token question_pending "r9" "r1" 0
              (after_reachable _)) as (Huser & _); [discriminate|].
  destruct Huser as [_ Hsame]; [vm_compute; reflexivity|].
  apply Hsame.
Defined.

(** ** The processing lock and the turns *)

Ltac lock_solver :=
  unfold connect, disconnect, speech_completed, user_response,
    user_prompt, turn_except, frontend_tool_response, frontend_action,
    builtin_actions.handle_builtin_action, builtin_actions.handle_speak_to_user,
    builtin_actions.handle_ask_user,
    builtin_actions.handle_speech_completion, builtin_actions.handle_user_response,
    builtin_actions.builtin_return,
    session_manager.get_or_create_session, session_manager.get_session,
    session_manager.create_session, session_manager.remove_session in *;
  unfold_state;
  repeat (case_match; simplify_eq/=);
  (split; [done|]);
  intros sid0 Hl0;
  rewrite ?lookup_insert, ?lookup_delete in Hl0;
  repeat case_decide; simplify_eq;
  first [ by left | right; by eexists ].

Lemma lock_start e ev s :
  match ev with
  | Resume _ _ => True
  | _ =>
      ∃ r0, (∀ x, step e ev s = Some x → x = started r0)
            ∧ tasks (fst r0) = tasks s
            ∧ ∀ sid, agent_processing_lock (fst r0) !! sid = Some true →
                     agent_processing_lock s !! sid = Some true
                     ∨ ∃ t, snd r0 = Await t ∧ turn_of t = Some sid
  end.
Proof.
  destruct ev; [..|done]; (eexists; split; [start_step|]); lock_solver.
Qed.

Lemma guarded_continue_lock e t out s r p i :
  guarded t = Some (p, i) →
  continue e t out s = Some r →
  agent_processing_lock (fst r) = agent_processing_lock s.
Proof.
  intros Hg Hc.
  assert (∀ s0, agent_processing_lock (builtin_actions.speak_finally p i s0)
                = agent_processing_lock s0) as Hsf.
  { intros s0. unfold builtin_actions.speak_finally,
      builtin_actions.remove_active_speech_marker. repeat case_match; done. }
  assert (∀ s0, agent_processing_lock (builtin_actions.ask_finally p i s0)
                = agent_processing_lock s0) as Haf.
  { intros s0. unfold builtin_actions.ask_finally,
      builtin_actions.remove_active_speech_marker. repeat case_match; done. }
  destruct t; simplify_eq/=.
  - unfold builtin_actions.speak_after_emit. repeat case_match; simpl; by rewrite ?Hsf.
  - destruct (builtin_actions.speak_after_wait _ _ _ _ _ _) as [r0|] eqn:Hr; simplify_eq/=.
    unfold builtin_actions.speak_after_wait in Hr.
    destruct (wait_for _ _ _ _) as [[s1 w]|] eqn:Hw; [|done].
    apply wait_for_frame in Hw as (_ & _ & Hl & _).
    repeat case_match; simplify_eq/=; by rewrite ?Hsf.
  - unfold builtin_actions.ask_after_emit. repeat case_match; simpl; by rewrite ?Haf.
  - destruct (builtin_actions.ask_after_wait _ _ _ _ _ _ _) as [r0|] eqn:Hr; simplify_eq/=.
    unfold builtin_actions.ask_after_wait in Hr.
    destruct (_ && _).
    { repeat case_match; simplify_eq/=; by rewrite ?Haf. }
    destruct (wait_for _ _ _ _) as [[s1 w]|] eqn:Hw; [|done].
    apply wait_for_frame in Hw as (_ & _ & Hl & _).
    repeat case_match; simplify_eq/=; by rewrite ?Haf.
Qed.

(** What the resumption of a coroutine does to the lock: a turn leaves it
    alone until it ends and then sets its peer's entry to [False]; no
    other coroutine writes it. *)
Lemma continue_lock e t out s r :
  continue e t out s = Some r →
  tasks (fst r) = tasks s
  ∧ match turn_of t with
    | Some sid =>
        match snd r with
        | Await t' =>
            turn_of t' = Some sid ∧ agent_processing_lock (fst r) = agent_processing_lock s
        | _ => agent_processing_lock (fst r) = <[sid := false]> (agent_processing_lock s)
        end
    | None => agent_processing_lock (fst r) = agent_processing_lock s
    end.
Proof.
  intros Hc. destruct (guarded t) as [[p i]|] eqn:Hg.
  { pose proof (guarded_continue_lock _ _ _ _ _ _ _ Hg Hc) as Hl.
    destruct r as [s' c].
    destruct (guarded_continue _ _ _ _ _ _ _ _ Hg Hc) as (Ht & _).
    split; [done|]. rewrite Hl. by destruct t. }
  destruct t; simplify_eq/=.
  - unfold action_after_emit, action_except.
    destruct out as [v|ex]; [|destruct (is_Exception ex)]; unfold_state; done.
  - unfold action_after_wait in Hc.
    destruct (wait_for _ _ _ _) as [[s1 w]|] eqn:Hw; [|done].
    apply wait_for_frame in Hw as (_ & Ht & Hl & _).
    unfold action_except in Hc. unfold_state.
    repeat case_match; simplify_eq/=; by rewrite ?Ht, ?Hl.
  - unfold turn_after_invoke, turn_except. destruct out as [v|ex]; [|destruct (is_Exception ex)];
      unfold_state; done.
  - unfold turn_after_read, turn_except. destruct out as [v|ex]; [|destruct (is_Exception ex)];
      unfold_state; done.
  - unfold turn_after_emit_response, turn_except. destruct out as [v|ex]; [|destruct (is_Exception ex)];
      unfold_state; done.
  - unfold turn_after_emit_complete, turn_except. destruct out as [v|ex]; [|destruct (is_Exception ex)];
      unfold_state; done.
  - unfold turn_after_emit_error. destruct out as [v|ex]; unfold_state; done.
  - unfold disconnect_after_stop, session_manager.remove_session.
    destruct out as [v|ex]; [|destruct (is_Exception ex)];
      destruct (sessions s !! sid); unfold_state; done.
Qed.

Lemma step_lock_live e ev s s' r :
  step e ev s = Some (s', r) → lock_live s → lock_live s'.
Proof.
  intros Hstep Hlive. pose proof (lock_start e ev s) as Hev.
  destruct ev;
    try (destruct Hev as ([s1 c] & Hr0 & Ht & Hl); 
         apply (step_started _ _ _ _ _ _ Hr0) in Hstep as ->; simpl in Ht, Hl;
         intros peer Hsid;
         assert (agent_processing_lock s1 !! peer = Some true) as Hsid1
           by (by destruct c);
         destruct (Hl peer Hsid1) as [Hold|(t & -> & Hturn)];
         [ destruct (Hlive peer Hold) as (tid0 & t & Htid & Hturn);
           exists tid0, t; split; [|done];
           destruct c; simpl; rewrite ?Ht; [done..|by apply lookup_app_l_Some]
         | exists (length (tasks s)), t; simpl; rewrite Ht;
           split; [by apply list_lookup_middle|done] ]).
  unfold step in Hstep.
  destruct (tasks s !! tid) as [[t|]|] eqn:Htask; [|done..].
  destruct (continue e t out s) as [[s1 c]|] eqn:Hc; [|done].
  assert (s' = fst (resumed tid (s1, c))) as ->.
  { destruct c; simpl in Hstep; by simplify_eq. }
  destruct (continue_lock _ _ _ _ _ Hc) as [Ht Hl]. simpl in Ht, Hl.
  assert (tid < length (tasks s))%nat as Hlt by by eapply lookup_lt_Some.
  intros sid Hsid.
  assert (agent_processing_lock s1 !! sid = Some true) as Hsid1 by (by destruct c).
  assert (tasks (fst (resumed tid (s1, c)))
          = <[tid := match c with Await t' => Some t' | _ => None end]> (tasks s))
    as -> by (destruct c; simpl; by rewrite Ht).
  destruct (turn_of t) as [sid0|] eqn:Hturn.
  - destruct c as [v|ex|t'].
    + rewrite Hl in Hsid1. rewrite lookup_insert in Hsid1. case_decide; [done|].
      destruct (Hlive sid Hsid1) as (tid0 & t0 & Htid0 & Hturn0).
      exists tid0, t0. split; [|done]. rewrite list_lookup_insert_ne; [done|].
      intros <-. rewrite Htask in Htid0. simplify_eq.
    + rewrite Hl in Hsid1. rewrite lookup_insert in Hsid1. case_decide; [done|].
      destruct (Hlive sid Hsid1) as (tid0 & t0 & Htid0 & Hturn0).
      exists tid0, t0. split; [|done]. rewrite list_lookup_insert_ne; [done|].
      intros <-. rewrite Htask in Htid0. simplify_eq.
    + destruct Hl as [Hturn' Hl]. rewrite Hl in Hsid1.
      destruct (Hlive sid Hsid1) as (tid0 & t0 & Htid0 & Hturn0).
      destruct (decide (tid0 = tid)) as [->|Hne].
      * rewrite Htask in Htid0. simplify_eq.
        exists tid, t'. split; [by apply list_lookup_insert_eq|done].
      * exists tid0, t0. split; [|done]. by rewrite list_lookup_insert_ne.
  - rewrite Hl in Hsid1.
    destruct (Hlive sid Hsid1) as (tid0 & t0 & Htid0 & Hturn0).
    exists tid0, t0. split; [|done]. rewrite list_lookup_insert_ne; [done|].
    intros <-. rewrite Htask in Htid0. simplify_eq.
Qed.

(** X11.  The processing lock is never left held.  In every state the
    server can reach, a peer's lock is [True] only while a [user_prompt]
    coroutine for that peer is suspended in the event loop, so a prompt is
    turned away with [agent_busy] only while a turn is in fact running. *)
Theorem lock_has_a_turn (s : state) (sid : string) :
  reachable s →
  agent_processing_lock s !! sid = Some true →
  ∃ tid t, tasks s !! tid = Some (Some t) ∧ turn_of t = Some sid.
Proof.
  intros Hs. revert sid. change (lock_live s).
  induction Hs as [|e ev s s' r _ IH Hstep].
  - intros sid. simpl. rewrite lookup_empty. discriminate.
  - by eapply step_lock_live.
Qed.

Lemma lock_has_a_turn_witness :
  ∃ tid t, tasks turn_running !! tid = Some (Some t) ∧ turn_of t = Some "A".
Proof.
  apply (lock_has_a_turn turn_running "A" (after_reachable _)).
  vm_compute. reflexivity.
Defined.

(** X12.  A turn ends.  A suspended [user_prompt] coroutine leaves the
    event loop after at most five resumptions (one per [await] it can still
    pass), whatever each awaited operation comes back with, and when it
    has left, the peer's lock is [False]. *)
Theorem turn_ends (e : env) (outs : list outcome) (s : state) (tid : nat) (t : task)
    (sid : string) :
  tasks s !! tid = Some (Some t) →
  turn_of t = Some sid →
  (turn_rank t ≤ length outs)%nat →
  ∃ s' r,
    drive e tid outs s = Some (s', r)
    ∧ (∀ tid', r ≠ Suspended tid')
    ∧ agent_processing_lock s' !! sid = Some false
    ∧ tasks s' !! tid = Some None.
Proof.
  revert s t. induction outs as [|out outs IH]; intros s t Htask Hturn Hrank.
  { destruct t; simplify_eq/=; lia. }
  assert (tid < length (tasks s))%nat as Hlt by by eapply lookup_lt_Some.
  destruct (turn_continue e t out s sid Hturn) as (s1 & c & Hc & Hpost).
  destruct (continue_lock _ _ _ _ _ Hc) as [Ht _]. simpl in Ht.
  simpl. rewrite Htask, Hc. simpl.
  destruct c as [v|ex|t'].
  - eexists _, _. split; [reflexivity|]. simpl. split_and!; [done|done|].
    rewrite Ht. by apply list_lookup_insert_eq.
  - eexists _, _. split; [reflexivity|]. simpl. split_and!; [done|done|].
    rewrite Ht. by apply list_lookup_insert_eq.
  - destruct Hpost as (Hturn' & Hless & _).
    apply (IH _ t'); simpl; [|done|simpl in Hrank; lia].
    rewrite Ht. by apply list_lookup_insert_eq.
Qed.

Lemma turn_ends_witness :
  ∃ s' r,
    drive quiet 0 [OutOk JNull; OutRaise (OtherError "connection reset"); OutOk JNull;
                   OutOk JNull; OutOk JNull] turn_running = Some (s', r)
    ∧ agent_processing_lock s' !! "A" = Some false.
Proof.
  destruct (turn_ends quiet
              [OutOk JNull; OutRaise (OtherError "connection reset"); OutOk JNull;
               OutOk JNull; OutOk JNull] turn_running 0 (TurnInvoke "A") "A")
    as (s' & r & Hrun & _ & Hlock & _);
    [vm_compute; reflexivity | reflexivity | simpl; lia |].
  exists s', r. split; done.
Defined.

Lemma get_or_create_session_only_sessions e socket_id s :
  snd (session_manager.get_or_create_session e socket_id s)
  = set_sessions (sessions (snd (session_manager.get_or_create_session e socket_id s))) s.
Proof.
  unfold session_manager.get_or_create_session, session_manager.get_session,
    session_manager.create_session.
  repeat (case_match; simplify_eq/=); done.
Qed.

(** X13.  A turn that meets no failure.  A prompt that finds the peer's lock
    free and the agent runtime configured takes the lock and suspends in
    the call of the runtime; when the call, the reading of the body, and
    the two emits have each succeeded, the peer has been sent exactly an
    [agent_response] with [success: true] and the parsed body, followed by
    an [agent_turn_complete], the handler has returned, the lock is
    [False] and the peer has a session. *)
Theorem turn_succeeds (e e' : env) (s : state) (sid : string) (data : pydict)
    (v1 response_data v3 v4 : json) :
  truthy (dict_get "prompt" data (JStr "")) = true →
  default false (agent_processing_lock s !! sid) = false →
  nonempty (AGENT_RUNTIME_ARN e) = true →
  boto3_client e = None →
  ∃ s1 s5,
    step e (UserPrompt sid data) s = Some (s1, Suspended (length (tasks s)))
    ∧ agent_processing_lock s1 !! sid = Some true
    ∧ emitted s1 = emitted s
    ∧ drive e' (length (tasks s))
        [OutOk v1; OutOk response_data; OutOk v3; OutOk v4] s1
      = Some (s5, Returned JNull)
    ∧ emitted s5
      = (emitted s
         ++ [Emit "agent_response"
               (JDict [("success", JBool true); ("response", response_data)]) sid;
             Emit "agent_turn_complete" (JDict [("timestamp", JNum (now e'))]) sid])%list
    ∧ agent_processing_lock s5 !! sid = Some false
    ∧ is_Some (sessions s5 !! sid)
    ∧ tasks s5 !! length (tasks s) = Some None.
Proof.
  intros Hprompt Hfree Harn Hclient.
  set (s0 := set_agent_processing_lock (<[sid := true]> (agent_processing_lock s)) s).
  pose proof (get_or_create_session_only_sessions e sid s0) as Hframe.
  destruct (get_or_create_session_post e sid s0) as (ses & Hses & _).
  assert (step e (UserPrompt sid data) s
          = Some (started
                    (snd (session_manager.get_or_create_session e sid s0),
                     Await (TurnInvoke sid)))) as Hstart.
  { simpl. unfold user_prompt. rewrite Hprompt, Hfree, Harn, Hclient. simpl.
    fold s0. by destruct (session_manager.get_or_create_session e sid s0). }
  rewrite Hstart.
  revert Hses. rewrite Hframe. generalize (sessions
    (snd (session_manager.get_or_create_session e sid s0))). intros m Hses.
  simpl in Hses.
  assert (∀ x : option task,
            <[length (tasks s) := x]> (tasks s ++ [Some (TurnInvoke sid)])%list
            = (tasks s ++ [x])%list) as Hset.
  { intros x. by rewrite insert_app_r_alt, Nat.sub_diag by lia. }
  assert (∀ x y : option task,
            <[length (tasks s) := x]> (tasks s ++ [y])%list = (tasks s ++ [x])%list)
    as Hset'.
  { intros x y. by rewrite insert_app_r_alt, Nat.sub_diag by lia. }
  eexists _, _. split_and!.
  - reflexivity.
  - simpl. apply lookup_insert_eq.
  - done.
  - simpl. rewrite list_lookup_middle by done. simpl.
    rewrite Hset'. rewrite list_lookup_middle by done. simpl.
    rewrite Hset'. rewrite list_lookup_middle by done. simpl.
    rewrite Hset'. rewrite list_lookup_middle by done. simpl.
    rewrite Hset'. reflexivity.
  - simpl. by rewrite <- !app_assoc.
  - simpl. apply lookup_insert_eq.
  - simpl. eauto.
  - simpl. by apply list_lookup_middle.
Qed.

Lemma turn_succeeds_witness :
  ∃ s1 s5,
    step quiet (UserPrompt "A" [("prompt", JStr "Plan my day")])
      (after [(quiet, Connect "A")]) = Some (s1, Suspended 0)
    ∧ drive quiet 0 [OutOk JNull; OutOk (JDict [("text", JStr "Done")]); OutOk JNull;
                     OutOk JNull] s1 = Some (s5, Returned JNull)
    ∧ agent_processing_lock s5 !! "A" = Some false.
Proof.
  destruct (turn_succeeds quiet quiet (after [(quiet, Connect "A")]) "A"
              [("prompt", JStr "Plan my day")] JNull (JDict [("text", JStr "Done")])
              JNull JNull)
    as (s1 & s5 & Hstart & _ & _ & Hrun & _ & Hlock & _);
    [vm_compute; reflexivity..|].
  exists s1, s5. split_and!; done.
Defined.

(** X14.  A turn that fails.  When the agent runtime is not configured
    ([AGENT_RUNTIME_ARN] unset or empty), a prompt that finds the lock free
    sends the peer an [agent_response] with [success: false] and the error
    "Unexpected error: AGENT_RUNTIME_ARN not configured in .env file", and
    nothing else; when that emit has ended, however it ended, the handler
    leaves and the lock is [False].  The same report, with the text of the
    exception, is sent when the call of the runtime raises. *)
Theorem turn_fails (e e' : env) (s : state) (sid : string) (data : pydict)
    (out : outcome) :
  truthy (dict_get "prompt" data (JStr "")) = true →
  default false (agent_processing_lock s !! sid) = false →
  nonempty (AGENT_RUNTIME_ARN e) = false →
  (∃ s1 s2 r,
     step e (UserPrompt sid data) s = Some (s1, Suspended (length (tasks s)))
     ∧ tasks s1 !! length (tasks s) = Some (Some (TurnEmitError sid))
     ∧ emitted s1
       = (emitted s
          ++ [Emit "agent_response"
                (JDict [("success", JBool false);
                        ("error",
                         JStr "Unexpected error: AGENT_RUNTIME_ARN not configured in .env file")])
                sid])%list
     ∧ agent_processing_lock s1 !! sid = Some true
     ∧ step e' (Resume (length (tasks s)) out) s1 = Some (s2, r)
     ∧ r = match out with OutOk _ => Returned JNull | OutRaise ex => Raised ex end
     ∧ emitted s2 = emitted s1
     ∧ agent_processing_lock s2 !! sid = Some false)
  ∧ ∀ s0 tid msg,
      tasks s0 !! tid = Some (Some (TurnInvoke sid)) →
      ∃ s1, step e' (Resume tid (OutRaise (OtherError msg))) s0 = Some (s1, Suspended tid)
            ∧ tasks s1 !! tid = Some (Some (TurnEmitError sid))
            ∧ emitted s1
              = (emitted s0
                 ++ [Emit "agent_response"
                       (JDict [("success", JBool false);
                               ("error", JStr ("Unexpected error: " +:+ msg))])
                       sid])%list.
Proof.
  intros Hprompt Hfree Harn. split.
  - set (s0 := set_agent_processing_lock (<[sid := true]> (agent_processing_lock s)) s).
    pose proof (get_or_create_session_only_sessions e sid s0) as Hframe.
    assert (step e (UserPrompt sid data) s
            = Some (started
                      (turn_except sid
                         (ValueError "AGENT_RUNTIME_ARN not configured in .env file")
                         (snd (session_manager.get_or_create_session e sid s0)))))
      as Hstart.
    { simpl. unfold user_prompt. rewrite Hprompt, Hfree, Harn. simpl.
      fold s0. by destruct (session_manager.get_or_create_session e sid s0). }
    rewrite Hstart. rewrite Hframe. generalize (sessions
      (snd (session_manager.get_or_create_session e sid s0))). intros m.
    destruct out as [v|ex]; eexists _, _, _.
    all: split; [reflexivity|].
    all: split; [simpl; by apply list_lookup_middle|].
    all: split; [done|].
    all: split; [simpl; apply lookup_insert_eq|].
    all: split; [simpl; rewrite list_lookup_middle by done; simpl; reflexivity|].
    all: split; [reflexivity|].
    all: split; [reflexivity|].
    all: simpl; apply lookup_insert_eq.
  - intros s0 tid msg Htask.
    assert (tid < length (tasks s0))%nat as Hlt by by eapply lookup_lt_Some.
    eexists. simpl. rewrite Htask. simpl. split_and!; [reflexivity| |done].
    simpl. by apply list_lookup_insert_eq.
Qed.

Lemma turn_fails_witness :
  ∃ s1, step (Env "r1" "0e" 1700000000 None None None)
          (UserPrompt "A" [("prompt", JStr "Plan my day")]) initial
        = Some (s1, Suspended 0)
        ∧ agent_processing_lock s1 !! "A" = Some true.
Proof.
  destruct (turn_fails (Env "r1" "0e" 1700000000 None None None) quiet initial "A"
              [("prompt", JStr "Plan my day")] (OutOk JNull))
    as [(s1 & s2 & r & Hstart & _ & _ & Hlock & _) _]; [reflexivity..|].
  exists s1. split; done.
Defined.

(** ** Routing, health and the test endpoint *)

Lemma is_builtin_action_cases a :
  builtin_actions.is_builtin_action a = true ↔ a = "speak_to_user" ∨ a = "ask_user".
Proof.
  unfold builtin_actions.is_builtin_action, builtin_actions.BUILTIN_ACTIONS.
  rewrite bool_decide_eq_true, !elem_of_cons, elem_of_nil. tauto.
Qed.

Lemma builtin_start_emits e client_sid parameters s a :
  a = "speak_to_user" ∨ a = "ask_user" →
  ∃ r, builtin_actions.handle_builtin_action e (JStr a) client_sid parameters s = Some r
       ∧ pending_tool_calls (fst r) = pending_tool_calls s
       ∧ (∀ t, snd r = Await t → guarded t = Some (client_sid, uuid4 e))
       ∧ (emitted (fst r) = emitted s
          ∨ ∃ payload, emitted (fst r)
                       = (emitted s ++ [Emit (if String.eqb a "speak_to_user"
                                              then "speak_audio" else "ask_user_question")
                                          payload client_sid])%list).
Proof.
  intros [-> | ->]; unfold builtin_actions.handle_builtin_action; simpl.
  - unfold builtin_actions.handle_speak_to_user.
    repeat (case_match; simplify_eq/=); eexists; (split; [reflexivity|]); simpl;
      split_and!; try done; try (by intros ? [=]); try (by intros ? [= <-]);
      first [by left | right; by eexists].
  - unfold builtin_actions.handle_ask_user.
    repeat (case_match; simplify_eq/=); eexists; (split; [reflexivity|]); simpl;
      split_and!; try done; try (by intros ? [=]); try (by intros ? [= <-]);
      first [by left | right; by eexists].
Qed.

(** X15.  The registry of built-in actions decides the route of a call.
    An action that [is_builtin_action] accepts (the two names that
    [get_builtin_actions_list] lists) is handled by the backend: it never
    registers a pending tool call, it suspends only as a guarded speech
    operation, and the only thing it may send the client is the
    [speak_audio] or [ask_user_question] event, and that to the connected
    client the request is dispatched to.  Every other action name is
    forwarded to that client as a [frontend_tool] event under a newly
    registered token.  Which of several connected clients the request is
    dispatched to is not decided by the registry. *)
Theorem registry_decides_the_route (e : env) (payload : pydict) (s : state)
    (a client_sid : string) :
  dict_get "action" payload JNull = JStr a →
  a ≠ "" →
  client_sid ∈ connected_clients s →
  let r := frontend_action e client_sid payload s in
  (a ∈ builtin_actions.get_builtin_actions_list
   ↔ builtin_actions.is_builtin_action a = true)
  ∧ (builtin_actions.is_builtin_action a = true →
     pending_tool_calls (fst r) = pending_tool_calls s
     ∧ (∀ t, snd r = Await t → guarded t = Some (client_sid, uuid4 e))
     ∧ (emitted (fst r) = emitted s
        ∨ ∃ body, emitted (fst r)
                  = (emitted s ++ [Emit (if String.eqb a "speak_to_user"
                                         then "speak_audio" else "ask_user_question")
                                     body client_sid])%list))
  ∧ (builtin_actions.is_builtin_action a = false →
     snd r = Await (ActionEmit (uuid4 e) (length (futures s)))
     ∧ pending_tool_calls (fst r) !! uuid4 e = Some (length (futures s))
     ∧ active_speech_per_client (fst r) = active_speech_per_client s
     ∧ emitted (fst r)
       = (emitted s
          ++ [Emit "frontend_tool"
                (JDict [("toolCallId", JStr (uuid4 e)); ("action", JStr a);
                        ("id", JStr "todo-list");
                        ("args",
                         JList (if truthy (dict_get "parameters" payload (JDict []))
                                then [dict_get "parameters" payload (JDict [])]
                                else []))])
                client_sid])%list).
Proof.
  intros Haction Hne Hpeer r. subst r.
  assert (truthy (JStr a) = true) as Htruthy.
  { simpl. by destruct (String.eqb_spec a ""). }
  unfold frontend_action. rewrite Haction, Htruthy. simpl negb. cbv iota.
  rewrite decide_False by by eapply member_not_empty.
  split_and!.
  - unfold builtin_actions.get_builtin_actions_list, builtin_actions.is_builtin_action.
    by rewrite bool_decide_eq_true.
  - intros Hb%is_builtin_action_cases.
    destruct (builtin_start_emits e client_sid (dict_get "parameters" payload (JDict []))
                s a Hb) as (r & -> & Hp & Hk & Hem). done.
  - intros Hb.
    assert (builtin_actions.handle_builtin_action e (JStr a) client_sid
              (dict_get "parameters" payload (JDict [])) s = None) as ->.
    { unfold builtin_actions.handle_builtin_action.
      destruct (String.eqb_spec a "speak_to_user") as [->|?]; [done|].
      destruct (String.eqb_spec a "ask_user") as [->|?]; [done|]. done. }
    simpl. split_and!; try done. apply lookup_insert_eq.
Qed.

Lemma registry_decides_the_route_witness :
  snd (frontend_action dispatch "B"
         [("action", JStr "create_task"); ("parameters", JDict [])]
         (after [(dispatch, Connect "A"); (dispatch, Connect "B")]))
  = Await (ActionEmit "c1" 0)
  ∧ emitted (fst (frontend_action dispatch "B"
                    [("action", JStr "create_task"); ("parameters", JDict [])]
                    (after [(dispatch, Connect "A"); (dispatch, Connect "B")])))
    = (emitted (after [(dispatch, Connect "A"); (dispatch, Connect "B")])
       ++ [Emit "frontend_tool"
             (JDict [("toolCallId", JStr "c1"); ("action", JStr "create_task");
                     ("id", JStr "todo-list"); ("args", JList [])]) "B"])%list
  ∧ builtin_actions.is_builtin_action "ask_user" = true.
Proof.
  destruct (registry_decides_the_route dispatch
              [("action", JStr "create_task"); ("parameters", JDict [])]
              (after [(dispatch, Connect "A"); (dispatch, Connect "B")]) "create_task" "B")
    as (_ & _ & Hforward); [reflexivity | discriminate | vm_compute; reflexivity |].
  destruct Hforward as (Hr & _ & _ & Hsent); [reflexivity|].
  split; [exact Hr|]. split; [exact Hsent|reflexivity].
Defined.

(** X16.  The test endpoint fires and forgets.  [test_tool_call] sends the
    client a [frontend_tool] event under a new id and returns that id, but
    it registers nothing: the pending tables, the markers, the futures and
    the suspended coroutines are as before.  The client's reply to it is
    therefore dropped by [frontend_tool_response] without any effect
    (unless that id happens to be registered already). *)
Theorem test_tool_call_registers_nothing (e : env) (sid action component_id : string)
    (out : outcome) (s : state) :
  let r := test_tool_call e sid action component_id out s in
  broker_part (fst r) = broker_part s
  ∧ tasks (fst r) = tasks s
  ∧ emitted (fst r)
    = (emitted s
       ++ [Emit "frontend_tool"
             (JDict [("toolCallId", JStr (uuid4 e)); ("action", JStr action);
                     ("id", JStr component_id); ("args", JList [])]) sid])%list
  ∧ snd r
    = match out with
      | OutOk _ =>
          Return (JDict [("status", JStr "sent"); ("toolCallId", JStr (uuid4 e));
                         ("action", JStr action); ("componentId", JStr component_id)])
      | OutRaise ex => Raise ex
      end
  ∧ (pending_tool_calls s !! uuid4 e = None →
     ∀ sid' data, dict_get "toolCallId" data JNull = JStr (uuid4 e) →
       frontend_tool_response sid' data (fst r) = (fst r, Return JNull)).
Proof.
  intros r. subst r. unfold test_tool_call, call_frontend_tool.
  destruct out as [v|ex]; simpl; split_and!; try done;
    intros Hnew sid' data Hid; unfold frontend_tool_response; rewrite Hid; simpl;
    by rewrite Hnew.
Qed.

Lemma disconnect_connected e sid s :
  connected_clients (fst (disconnect e sid s)) = connected_clients s ∖ {[sid]}.
Proof.
  unfold disconnect, session_manager.get_session, session_manager.remove_session.
  repeat (case_match; simplify_eq/=); done.
Qed.

(** X17.  The connected clients are a set, and [/health] counts it.
    Connecting a client that is already connected changes nothing, a new
    one raises the count by one; a disconnect lowers it by one exactly
    when the client was connected, and undoes a connect.  The number of
    active sessions reported is the number of stored sessions. *)
Theorem health_counts_clients (e : env) (sid : string) (s : state) :
  health e s
  = JDict [("status", JStr "healthy"); ("timestamp", JNum (now e));
           ("active_sessions", JNum (Z.of_nat (size (sessions s))));
           ("connected_clients", JNum (Z.of_nat (size (connected_clients s))))]
  ∧ size (connected_clients (fst (connect sid s)))
    = (if decide (sid ∈ connected_clients s) then size (connected_clients s)
       else S (size (connected_clients s)))
  ∧ size (connected_clients (fst (disconnect e sid s)))
    = (if decide (sid ∈ connected_clients s) then pred (size (connected_clients s))
       else size (connected_clients s))
  ∧ connected_clients (fst (disconnect e sid (fst (connect sid s))))
    = connected_clients s ∖ {[sid]}
  ∧ (sid ∈ connected_clients (fst (connect sid s)))
  ∧ (sid ∉ connected_clients (fst (disconnect e sid s))).
Proof.
  split_and!.
  - unfold health, session_manager.list_active_sessions.
    by rewrite length_fmap, length_map_to_list.
  - simpl. case_decide as Hin.
    + f_equal. apply leibniz_equiv. apply subseteq_union_1.
      by apply singleton_subseteq_l.
    + rewrite size_union, size_singleton; [done|].
      by apply disjoint_singleton_l.
  - rewrite disconnect_connected. case_decide as Hin.
    + rewrite size_difference, size_singleton by by apply singleton_subseteq_l. lia.
    + f_equal. apply leibniz_equiv. apply difference_disjoint.
      by apply disjoint_singleton_r.
  - rewrite disconnect_connected. simpl. apply leibniz_equiv.
    rewrite difference_union_distr_l, difference_diag. apply (left_id ∅ (∪)).
  - simpl. apply elem_of_union_l. by apply elem_of_singleton.
  - rewrite disconnect_connected. apply not_elem_of_difference. right.
    by apply elem_of_singleton.
Qed.

(** ** The ways a forwarded action fails *)

(** X18.  A forwarded action that gets no reply in time is reported as an
    internal error.  When the 30 second timer of a waiting
    [frontend_action] fires, the coroutine leaves at that step; the 504
    error raised for the timeout is caught by the outer handler of the same
    function, so what the caller receives is status 500 with the detail
    ["504: Frontend action timed out"].  The token is unregistered and the
    future cancelled.  Any other exception met while sending or waiting is
    reported as status 500 with the text of the exception, the token
    unregistered as well. *)
Theorem action_timeout_is_reported_as_500 (e : env) (s : state) (tid : nat)
    (tool_call_id : string) (fut : nat) :
  tasks s !! tid = Some (Some (ActionWait tool_call_id fut)) →
  futures s !! fut = Some Pending →
  (∃ s', step e (Resume tid (OutRaise TimeoutError)) s
         = Some (s', Raised (HTTPException 500 "504: Frontend action timed out"))
         ∧ pending_tool_calls s' !! tool_call_id = None
         ∧ futures s' !! fut = Some Cancelled
         ∧ tasks s' !! tid = Some None)
  ∧ (∀ ex, is_Exception ex = true → ex ≠ TimeoutError →
       ∃ s', step e (Resume tid (OutRaise ex)) s
             = Some (s', Raised (HTTPException 500 (str ex)))
             ∧ pending_tool_calls s' !! tool_call_id = None
             ∧ futures s' !! fut = Some Cancelled
             ∧ tasks s' !! tid = Some None)
  ∧ (∀ ex, is_Exception ex = true →
       continue e (ActionEmit tool_call_id fut) (OutRaise ex) s
       = Some (forget_tool_call tool_call_id s, Raise (HTTPException 500 (str ex)))).
Proof.
  intros Htask Hfut.
  assert (tid < length (tasks s))%nat as Htid by by eapply lookup_lt_Some.
  assert (fut < length (futures s))%nat as Hlt by by eapply lookup_lt_Some.
  split_and!.
  - eexists. unfold step. rewrite Htask. simpl.
    unfold action_after_wait, wait_for. rewrite Hfut. simpl.
    split; [reflexivity|]. simpl. split_and!.
    + apply lookup_delete_eq.
    + by apply list_lookup_insert_eq.
    + by apply list_lookup_insert_eq.
  - intros ex Hex Hne. eexists. unfold step. rewrite Htask. simpl.
    unfold action_after_wait, wait_for. rewrite Hfut.
    destruct ex; try done; simpl; (split; [reflexivity|]); simpl; split_and!;
      first [apply lookup_delete_eq | by apply list_lookup_insert_eq].
  - intros ex Hex. simpl. unfold action_except. by rewrite Hex.
Qed.

Lemma action_timeout_is_reported_as_500_witness :
  ∃ s', step dispatch (Resume 0 (OutRaise TimeoutError)) action_pending
        = Some (s', Raised (HTTPException 500 "504: Frontend action timed out"))
        ∧ pending_tool_calls s' !! "c1" = None.
Proof.
  destruct (action_timeout_is_reported_as_500 dispatch action_pending 0 "c1" 0)
    as [(s' & Hstep & Hgone & _) _]; [vm_compute; reflexivity..|].
  exists s'. by split.
Defined.

(** X19.  A cancelled action leaves its token behind.  When a waiting
    [frontend_action] is cancelled, the cancellation is not caught by
    [except Exception]: the coroutine leaves with the future cancelled, but
    the token stays in [pending_tool_calls] with no coroutine waiting for
    it.  A reply that arrives later for that token is accepted, removes the
    token and changes no future. *)
Theorem cancelled_action_leaves_its_token (e e' : env) (s : state) (tid : nat)
    (tool_call_id : string) (fut : nat) (sid : string) (data : pydict) :
  tasks s !! tid = Some (Some (ActionWait tool_call_id fut)) →
  futures s !! fut = Some Pending →
  pending_tool_calls s !! tool_call_id = Some fut →
  dict_get "toolCallId" data JNull = JStr tool_call_id →
  ∃ s' s'',
    step e (Resume tid (OutRaise CancelledError)) s = Some (s', Raised CancelledError)
    ∧ pending_tool_calls s' !! tool_call_id = Some fut
    ∧ futures s' !! fut = Some Cancelled
    ∧ tasks s' !! tid = Some None
    ∧ step e' (FrontendToolResponse sid data) s' = Some (s'', Returned JNull)
    ∧ pending_tool_calls s'' !! tool_call_id = None
    ∧ futures s'' = futures s'
    ∧ tasks s'' = tasks s'.
Proof.
  intros Htask Hfut Htoken Hid.
  assert (tid < length (tasks s))%nat as Htid by by eapply lookup_lt_Some.
  assert (fut < length (futures s))%nat as Hlt by by eapply lookup_lt_Some.
  eexists _, _. split.
  { unfold step. rewrite Htask. simpl.
    unfold action_after_wait, wait_for. rewrite Hfut. simpl. reflexivity. }
  simpl. split; [done|]. split; [by apply list_lookup_insert_eq|].
  split; [by apply list_lookup_insert_eq|].
  unfold frontend_tool_response. rewrite Hid. simpl. rewrite Htoken.
  rewrite list_lookup_insert_eq by done. simpl.
  split; [reflexivity|]. simpl. split; [apply lookup_delete_eq|done].
Qed.

Lemma cancelled_action_leaves_its_token_witness :
  ∃ s', step dispatch (Resume 0 (OutRaise CancelledError)) action_pending
        = Some (s', Raised CancelledError)
        ∧ pending_tool_calls s' !! "c1" = Some 0%nat.
Proof.
  destruct (cancelled_action_leaves_its_token dispatch dispatch action_pending 0 "c1" 0
              "A" [("toolCallId", JStr "c1")])
    as (s' & s'' & Hstep & Hkept & _); [vm_compute; reflexivity..|].
  exists s'. by split.
Defined.

(** ** Futures are settled once *)

Lemma future_step_keeps fs fs' f x :
  future_step fs fs' → fs !! f = Some x → future_done x = true → fs' !! f = Some x.
Proof.
  intros [->|[->|(g & y & Hg & ->)]] Hf Hx; [done|by apply lookup_app_l_Some|].
  rewrite list_lookup_insert_ne; [done|]. intros ->. rewrite Hg in Hf.
  by simplify_eq.
Qed.

Lemma wait_for_future_step fut timer out s s1 w :
  wait_for fut timer out s = Some (s1, w) → future_step (futures s) (futures s1).
Proof.
  unfold wait_for. intros Hw.
  repeat case_match; simplify_eq/=; first [by left | right; right; by eexists _, _].
Qed.

Lemma continue_future_step e t out s r :
  continue e t out s = Some r → future_step (futures s) (futures (fst r)).
Proof.
  intros Hc. destruct t; simplify_eq/=.
  - unfold builtin_actions.speak_after_emit.
    pose proof (speak_finally_tables client_sid speech_id s) as (_ & _ & _ & Hf).
    repeat case_match; simpl; rewrite ?Hf; by left.
  - destruct (builtin_actions.speak_after_wait _ _ _ _ _ _) as [r0|] eqn:Hr; simplify_eq/=.
    unfold builtin_actions.speak_after_wait in Hr.
    destruct (wait_for _ _ _ _) as [[s1 w]|] eqn:Hw; [|done].
    apply wait_for_future_step in Hw.
    pose proof (speak_finally_tables client_sid speech_id s1) as (_ & _ & _ & Hf).
    repeat case_match; simplify_eq/=; by rewrite ?Hf.
  - unfold builtin_actions.ask_after_emit.
    pose proof (ask_finally_tables client_sid request_id s) as (_ & _ & _ & Hf).
    repeat case_match; simpl; rewrite ?Hf;
      first [by left | right; right; by eexists _, _].
  - destruct (builtin_actions.ask_after_wait _ _ _ _ _ _ _) as [r0|] eqn:Hr; simplify_eq/=.
    unfold builtin_actions.ask_after_wait in Hr.
    destruct (_ && _).
    { pose proof (ask_finally_tables client_sid request_id s) as (_ & _ & _ & Hf).
      repeat case_match; simplify_eq/=; rewrite ?Hf; by left. }
    destruct (wait_for _ _ _ _) as [[s1 w]|] eqn:Hw; [|done].
    apply wait_for_future_step in Hw.
    pose proof (ask_finally_tables client_sid request_id s1) as (_ & _ & _ & Hf).
    repeat case_match; simplify_eq/=; by rewrite ?Hf.
  - unfold action_after_emit, action_except. unfold_state.
    repeat case_match; by left.
  - unfold action_after_wait in Hc.
    destruct (wait_for _ _ _ _) as [[s1 w]|] eqn:Hw; [|done].
    apply wait_for_future_step in Hw.
    unfold action_except in Hc. unfold_state.
    repeat case_match; by simplify_eq/=.
  - unfold turn_after_invoke, turn_except. unfold_state. repeat case_match; by left.
  - unfold turn_after_read, turn_except. unfold_state. repeat case_match; by left.
  - unfold turn_after_emit_response, turn_except. unfold_state.
    repeat case_match; by left.
  - unfold turn_after_emit_complete, turn_except. unfold_state.
    repeat case_match; by left.
  - unfold turn_after_emit_error. unfold_state. repeat case_match; by left.
  - unfold disconnect_after_stop, session_manager.remove_session. unfold_state.
    repeat case_match; by left.
Qed.

Lemma not_done_pending x : negb (future_done x) = true → x = Pending.
Proof. by destruct x. Qed.

Ltac future_solver :=
  unfold future_step,
    connect, disconnect, speech_completed, user_response,
    user_prompt, turn_except, frontend_tool_response, frontend_action,
    builtin_actions.handle_builtin_action, builtin_actions.handle_speak_to_user,
    builtin_actions.handle_ask_user,
    builtin_actions.handle_speech_completion, builtin_actions.handle_user_response,
    builtin_actions.builtin_return,
    session_manager.get_or_create_session, session_manager.get_session,
    session_manager.create_session, session_manager.remove_session in *;
  unfold_state;
  repeat (case_match; simplify_eq/=);
  first [ by left
        | right; by left
        | right; right; eexists _, _; split; [|reflexivity];
          match goal with
          | H : negb (future_done _) = true |- _ =>
              apply not_done_pending in H; by subst
          end ].

Lemma start_future_step e ev s :
  match ev with
  | Resume _ _ => True
  | _ => ∃ r0, (∀ x, step e ev s = Some x → x = started r0)
               ∧ future_step (futures s) (futures (fst r0))
  end.
Proof.
  destruct ev; [..|done]; (eexists; split; [start_step|]); future_solver.
Qed.

Lemma step_future_step e ev s s' r :
  step e ev s = Some (s', r) → future_step (futures s) (futures s').
Proof.
  intros Hstep. pose proof (start_future_step e ev s) as Hev.
  destruct ev;
    try (destruct Hev as (r0 & Hr0 & Hf); 
         apply (step_started _ _ _ _ _ _ Hr0) in Hstep as ->;
         by destruct (started_tables r0) as (_ & _ & _ & ->)).
  unfold step in Hstep.
  destruct (tasks s !! tid) as [[t|]|] eqn:Hl; [|done..].
  destruct (continue e t out s) as [r0|] eqn:Hc; [|done].
  injection Hstep as Hstep.
  replace s' with (fst (resumed tid r0)) by by rewrite Hstep.
  destruct (resumed_tables tid r0) as (_ & _ & _ & ->).
  by eapply continue_future_step.
Qed.

(** X20.  A future is settled once.  Whatever events follow, a future that
    holds a result keeps that result and a cancelled future stays
    cancelled: no handler sets a result on a future that is done, and no
    future is ever removed. *)
Theorem settled_futures_are_final (evs : list (env * event)) (s s' : state)
    (f : nat) (x : future) :
  run evs s = Some s' →
  futures s !! f = Some x →
  future_done x = true →
  futures s' !! f = Some x.
Proof.
  revert s. induction evs as [|[e ev] evs IH]; intros s Hrun Hf Hx.
  - by simplify_eq/=.
  - simpl in Hrun. destruct (step e ev s) as [[s1 r]|] eqn:Hstep; [|done].
    apply (IH s1 Hrun); [|done].
    eapply future_step_keeps; [by eapply step_future_step|done..].
Qed.

Lemma settled_futures_are_final_witness :
  futures (after [(dispatch, Connect "A"); (dispatch, create_task);
                  (dispatch, Resume 0 (OutOk JNull));
                  (dispatch, FrontendToolResponse "A"
                               [("toolCallId", JStr "c1"); ("success", JBool true)]);
                  (dispatch, FrontendToolResponse "A"
                               [("toolCallId", JStr "c1"); ("success", JBool false)]);
                  (quiet, ask_proceed)])
    !! 0%nat
  = Some (Result (JDict [("toolCallId", JStr "c1"); ("success", JBool true)])).
Proof.
  apply (settled_futures_are_final
           [(dispatch, FrontendToolResponse "A"
                         [("toolCallId", JStr "c1"); ("success", JBool false)]);
            (quiet, ask_proceed)]
           (after [(dispatch, Connect "A"); (dispatch, create_task);
                   (dispatch, Resume 0 (OutOk JNull));
                   (dispatch, FrontendToolResponse "A"
                                [("toolCallId", JStr "c1"); ("success", JBool true)])]));
    vm_compute; reflexivity.
Defined.

Lemma test_tool_call_registers_nothing_witness :
  frontend_tool_response "A" [("toolCallId", JStr "c1")]
    (fst (test_tool_call dispatch "A" "create_task" "todo-list" (OutOk JNull) initial))
  = (fst (test_tool_call dispatch "A" "create_task" "todo-list" (OutOk JNull) initial),
     Return JNull).
Proof.
  destruct (test_tool_call_registers_nothing dispatch "A" "create_task" "todo-list"
              (OutOk JNull) initial) as (_ & _ & _ & _ & Hdropped).
  apply Hdropped; reflexivity.
Defined.
